(** * The aggregation and field-mapping core of the visualization dashboard

    A shallow embedding of the data pipeline of the dashboard:
    [DataLoader] (type coercion, field classification, mapping
    validation, cleaning, filters and column queries), [Utils] (summary
    statistics and filters), the mapping check of the [Dashboard] and the
    [processData] methods of the five chart classes, followed by the
    properties the specification states about them and further
    properties of the code.

    Conventions of the embedding.
    - A JavaScript number is a [num]: [NaN], a signed infinity or an exact
      rational.  Arithmetic on finite values is exact: binary64 rounding,
      overflow and the sign of zero are outside the model.
    - A string is a sequence of 8-bit code units.
    - A record (a plain object) is an association list in the order
      [Object.keys] lists its keys; a missing key reads as [VUndefined].
    - [Array.prototype.sort] is a stable insertion sort.
    - A [Date] object is a reference together with its time value.
    - [Date.parse] and the printing of numbers and dates are supplied by
      the host ([Host]). *)

From Stdlib Require Import List String Ascii Bool ZArith NArith PArith QArith Qabs Lia.
From Stdlib Require Import Permutation Sorted DecimalString Morphisms Setoid Lqa.
From Stdlib Require Import OrderedTypeEx Qround.
Import ListNotations.

Set Implicit Arguments.

(* ================================================================== *)
(** * JavaScript values and built-ins *)

Module JS.

(** ** Numbers *)

Inductive num : Type :=
| NaN
| Inf (neg : bool)
| Fin (q : Q).

Definition isNaN_num (n : num) : bool :=
  match n with NaN => true | _ => false end.

Definition is_inf (n : num) : bool :=
  match n with Inf _ => true | _ => false end.

Definition Qzerob (q : Q) : bool := Qeq_bool q 0.
Definition Qnegb (q : Q) : bool :=
  match Qcompare q 0 with Lt => true | _ => false end.

Definition nopp (a : num) : num :=
  match a with
  | NaN => NaN
  | Inf s => Inf (negb s)
  | Fin q => Fin (Qred (- q))
  end.

Definition nadd (a b : num) : num :=
  match a, b with
  | NaN, _ | _, NaN => NaN
  | Inf s, Inf s' => if Bool.eqb s s' then Inf s else NaN
  | Inf s, Fin _ => Inf s
  | Fin _, Inf s => Inf s
  | Fin p, Fin q => Fin (Qred (p + q))
  end.

Definition nsub (a b : num) : num := nadd a (nopp b).

Definition nmul (a b : num) : num :=
  match a, b with
  | NaN, _ | _, NaN => NaN
  | Inf s, Inf s' => Inf (xorb s s')
  | Inf s, Fin q => if Qzerob q then NaN else Inf (xorb s (Qnegb q))
  | Fin q, Inf s => if Qzerob q then NaN else Inf (xorb s (Qnegb q))
  | Fin p, Fin q => Fin (Qred (p * q))
  end.

Definition ndiv (a b : num) : num :=
  match a, b with
  | NaN, _ | _, NaN => NaN
  | Inf _, Inf _ => NaN
  | Inf s, Fin q => Inf (xorb s (Qnegb q))
  | Fin _, Inf _ => Fin 0
  | Fin p, Fin q =>
      if Qzerob q then (if Qzerob p then NaN else Inf (Qnegb p))
      else Fin (Qred (p / q))
  end.

(** [a > b]; every comparison with [NaN] is false. *)
Definition ngtb (a b : num) : bool :=
  match a, b with
  | NaN, _ | _, NaN => false
  | Inf s, Inf s' => negb s && s'
  | Inf s, Fin _ => negb s
  | Fin _, Inf s => s
  | Fin p, Fin q => match Qcompare p q with Gt => true | _ => false end
  end.

Definition nltb (a b : num) : bool := ngtb b a.

(** [SameValueZero] on numbers. *)
Definition sameNum (a b : num) : bool :=
  match a, b with
  | NaN, NaN => true
  | Inf s, Inf s' => Bool.eqb s s'
  | Fin p, Fin q => Qeq_bool p q
  | _, _ => false
  end.

(** Truthiness of a number: neither zero nor [NaN]. *)
Definition num_truthy (n : num) : bool :=
  match n with
  | NaN => false
  | Inf _ => true
  | Fin q => negb (Qzerob q)
  end.

Definition of_Z (z : Z) : num := Fin (inject_Z z).
Definition of_nat (n : nat) : num := of_Z (Z.of_nat n).

(** ** Strings: white space, trimming *)

Local Open Scope char_scope.
Local Open Scope string_scope.

Definition code (c : ascii) : Z := Z.of_N (N_of_ascii c).

(** The white space and line terminator code units below 256. *)
Definition is_ws (c : ascii) : bool :=
  let n := code c in
  ((n =? 9) || (n =? 10) || (n =? 11) || (n =? 12) || (n =? 13)
   || (n =? 32) || (n =? 160))%Z.

Fixpoint trimStart (s : string) : string :=
  match s with
  | EmptyString => EmptyString
  | String c s' => if is_ws c then trimStart s' else s
  end.

Fixpoint trimEnd (s : string) : string :=
  match s with
  | EmptyString => EmptyString
  | String c s' =>
      match trimEnd s' with
      | EmptyString => if is_ws c then EmptyString else String c EmptyString
      | t => String c t
      end
  end.

Definition trim (s : string) : string := trimEnd (trimStart s).

(** ** Numeric literals: [Number(string)] and [parseFloat] *)

Definition digit_in (base : Z) (c : ascii) : option Z :=
  let n := code c in
  let v := (if (48 <=? n) && (n <=? 57) then n - 48
            else if (97 <=? n) && (n <=? 102) then n - 87
            else if (65 <=? n) && (n <=? 70) then n - 55
            else 99)%Z in
  if (v <? base)%Z then Some v else None.

Fixpoint span_digits (base : Z) (s : string) : list Z * string :=
  match s with
  | EmptyString => ([], s)
  | String c s' =>
      match digit_in base c with
      | Some d => let '(ds, r) := span_digits base s' in (d :: ds, r)
      | None => ([], s)
      end
  end.

Definition digits_value (base : Z) (ds : list Z) : Z :=
  fold_left (fun a d => base * a + d)%Z ds 0%Z.

Definition pow10 (e : Z) : Q :=
  if (0 <=? e)%Z then inject_Z (10 ^ e) else 1 # Z.to_pos (10 ^ (- e)).

Definition decimal_value (neg : bool) (ip fp : list Z) (e : Z) : num :=
  let q := (inject_Z (digits_value 10 (ip ++ fp)%list)
            * pow10 (e - Z.of_nat (List.length fp)))%Q in
  Fin (Qred (if neg then - q else q)).

Definition parse_sign (s : string) : bool * string :=
  match s with
  | String c r =>
      if Ascii.eqb c "+" then (false, r)
      else if Ascii.eqb c "-" then (true, r)
      else (false, s)
  | EmptyString => (false, s)
  end.

(** An exponent part is consumed only when it is complete. *)
Definition parse_exponent (s : string) : Z * string :=
  match s with
  | String c r =>
      if Ascii.eqb c "e" || Ascii.eqb c "E" then
        let '(neg, r1) := parse_sign r in
        match span_digits 10 r1 with
        | ([], _) => (0%Z, s)
        | (ds, r2) =>
            let v := digits_value 10 ds in ((if neg then - v else v)%Z, r2)
        end
      else (0%Z, s)
  | EmptyString => (0%Z, s)
  end.

Fixpoint strip_prefix (p s : string) : option string :=
  match p, s with
  | EmptyString, _ => Some s
  | String a p', String b s' =>
      if Ascii.eqb a b then strip_prefix p' s' else None
  | String _ _, EmptyString => None
  end.

(** A fraction part after the integer digits [ip]: a dot and digits; a
    dot alone counts only after integer digits. *)
Definition parse_fraction (ip : list Z) (r1 : string) : list Z * string :=
  match r1 with
  | String c r2 =>
      if Ascii.eqb c "." then
        let '(fp, r3) := span_digits 10 r2 in
        match ip, fp with
        | [], [] => ([], r1)
        | _, _ => (fp, r3)
        end
      else ([], r1)
  | EmptyString => ([], r1)
  end.

(** The longest prefix of [s] that is a [StrDecimalLiteral], with its
    value and the rest of the string. *)
Definition StrDecimalLiteral_prefix (s : string) : option (num * string) :=
  let '(neg, r) := parse_sign s in
  match strip_prefix "Infinity" r with
  | Some r' => Some (Inf neg, r')
  | None =>
      let '(ip, r1) := span_digits 10 r in
      let '(fp, r3) := parse_fraction ip r1 in
      match ip, fp with
      | [], [] => None
      | _, _ =>
          let '(e, r4) := parse_exponent r3 in
          Some (decimal_value neg ip fp e, r4)
      end
  end.

(** [0x], [0o] and [0b] integer literals (no sign). *)
Definition prefix_base (p : ascii) : option Z :=
  if Ascii.eqb p "x" || Ascii.eqb p "X" then Some 16%Z
  else if Ascii.eqb p "o" || Ascii.eqb p "O" then Some 8%Z
  else if Ascii.eqb p "b" || Ascii.eqb p "B" then Some 2%Z
  else None.

Definition NonDecimalIntegerLiteral (s : string) : option num :=
  match s with
  | String c (String p r) =>
      if Ascii.eqb c "0" then
        match prefix_base p with
        | Some base =>
            match span_digits base r with
            | (d :: ds, EmptyString) => Some (of_Z (digits_value base (d :: ds)))
            | _ => None
            end
        | None => None
        end
      else None
  | _ => None
  end.

(** [Number(s)] for a string [s]. *)
Definition StringToNumber (s : string) : num :=
  let t := trim s in
  match t with
  | EmptyString => Fin 0
  | _ =>
      match NonDecimalIntegerLiteral t with
      | Some v => v
      | None =>
          match StrDecimalLiteral_prefix t with
          | Some (v, EmptyString) => v
          | _ => NaN
          end
      end
  end.

(** [parseFloat(s)] for a string [s]. *)
Definition parseFloat_string (s : string) : num :=
  match StrDecimalLiteral_prefix (trimStart s) with
  | Some (v, _) => v
  | None => NaN
  end.

(** ** Cells and records *)

Inductive Cell : Type :=
| VUndefined
| VNull
| VBool (b : bool)
| VNum (n : num)
| VStr (s : string)
| VDate (ref : positive) (time : num).

Definition Record : Type := list (string * Cell).

(** [d[k]] *)
Fixpoint get (d : Record) (k : string) : Cell :=
  match d with
  | [] => VUndefined
  | (k', v) :: d' => if String.eqb k' k then v else get d' k
  end.

(** [d[k] = v] *)
Fixpoint set (d : Record) (k : string) (v : Cell) : Record :=
  match d with
  | [] => [(k, v)]
  | (k', v') :: d' =>
      if String.eqb k' k then (k', v) :: d' else (k', v') :: set d' k v
  end.

(** [Object.keys(d)] *)
Definition keys (d : Record) : list string := map fst d.

Definition nullish (v : Cell) : bool :=
  match v with VUndefined | VNull => true | _ => false end.

Definition truthy (v : Cell) : bool :=
  match v with
  | VUndefined | VNull => false
  | VBool b => b
  | VNum n => num_truthy n
  | VStr s => negb (String.eqb s "")
  | VDate _ _ => true
  end.

(** [v || 0] *)
Definition or_zero (v : Cell) : Cell :=
  if truthy v then v else VNum (Fin 0).

(** [+v] *)
Definition ToNumber (v : Cell) : num :=
  match v with
  | VUndefined => NaN
  | VNull => Fin 0
  | VBool b => Fin (if b then 1 else 0)
  | VNum n => n
  | VStr s => StringToNumber s
  | VDate _ t => t
  end.

(** The global [isNaN(v)]. *)
Definition isNaN (v : Cell) : bool := isNaN_num (ToNumber v).

Definition is_number (v : Cell) : bool :=
  match v with VNum _ => true | _ => false end.

Definition is_Date (v : Cell) : bool :=
  match v with VDate _ _ => true | _ => false end.

(** [SameValueZero], the equality of [Set] and [Map]. *)
Definition SameValueZero (a b : Cell) : bool :=
  match a, b with
  | VUndefined, VUndefined => true
  | VNull, VNull => true
  | VBool x, VBool y => Bool.eqb x y
  | VNum x, VNum y => sameNum x y
  | VStr x, VStr y => String.eqb x y
  | VDate r _, VDate r' _ => Pos.eqb r r'
  | _, _ => false
  end.

(** ** [Set]: insertion-ordered, without duplicates up to [SameValueZero] *)

Definition Set_has (s : list Cell) (v : Cell) : bool :=
  existsb (SameValueZero v) s.

Definition Set_add (s : list Cell) (v : Cell) : list Cell :=
  if Set_has s v then s else (s ++ [v])%list.

(** [new Set(values)] *)
Definition Set_of (values : list Cell) : list Cell :=
  fold_left Set_add values [].

(** [set.delete(v)] *)
Definition Set_delete (s : list Cell) (v : Cell) : list Cell :=
  List.filter (fun k => negb (SameValueZero k v)) s.

(** ** Arrays: [sort] *)

Section Sort.
Variable A : Type.
(** The comparator; a result that is not positive (also [NaN]) leaves
    the first argument in front. *)
Variable cmp : A -> A -> num.

Fixpoint sort_insert (x : A) (l : list A) : list A :=
  match l with
  | [] => [x]
  | y :: l' =>
      if ngtb (cmp x y) (Fin 0) then y :: sort_insert x l' else x :: l
  end.

(** [Array.prototype.sort] is stable; for a consistent comparator every
    stable sort returns the same array as this one. *)
Definition Array_sort (l : list A) : list A :=
  fold_right sort_insert [] l.
End Sort.

(** ** d3-array: [sum] and [group] *)

Section D3.
Variable A : Type.

(** [d3.sum(values, valueof)]: values that coerce to [NaN] or zero are
    skipped. *)
Definition d3_sum (valueof : A -> Cell) (values : list A) : num :=
  fold_left (fun sum x =>
               let v := ToNumber (valueof x) in
               if num_truthy v then nadd sum v else sum)
            values (Fin 0).

(** Keys of an [InternMap]: objects are keyed by [valueOf()]. *)
Definition intern (k : Cell) : Cell :=
  match k with
  | VDate _ t => VNum t
  | _ => k
  end.

Definition key_eqb (a b : Cell) : bool :=
  SameValueZero (intern a) (intern b).

Fixpoint group_add (k : Cell) (x : A) (groups : list (Cell * list A))
  : list (Cell * list A) :=
  match groups with
  | [] => [(k, [x])]
  | (k', xs) :: g =>
      if key_eqb k' k then (k', (xs ++ [x])%list) :: g
      else (k', xs) :: group_add k x g
  end.

(** [Array.from(d3.group(data, key))]: groups in first-seen order, each
    with the key first seen and its records in input order. *)
Definition d3_group (key : A -> Cell) (data : list A)
  : list (Cell * list A) :=
  fold_left (fun g d => group_add (key d) d g) data [].
End D3.

(** [TimeClip]: a time value is an integral number of milliseconds of
    magnitude at most 8.64e15. *)
Definition TimeClip (t : num) : num :=
  match t with
  | Fin q =>
      if Qle_bool (Qabs q) 8640000000000000
      then of_Z (Z.quot (Qnum q) (Zpos (Qden q)))
      else NaN
  | _ => NaN
  end.

(** ** The host *)

Class Host : Type := {
  (** [Date.parse] *)
  Date_parse : string -> num;
  (** [String(n)] for a number *)
  Number_toString : num -> string;
  (** [String(d)] for a [Date] with the given time value *)
  Date_toString : num -> string
}.

Section WithHost.
Context {host : Host}.

(** [String(v)], as in a template literal. *)
Definition ToString (v : Cell) : string :=
  match v with
  | VUndefined => "undefined"
  | VNull => "null"
  | VBool b => if b then "true" else "false"
  | VNum n => Number_toString n
  | VStr s => s
  | VDate _ t => Date_toString t
  end.

(** [parseFloat(v)]: [v] is converted to a string first; the printed
    form of a number reads back as that number. *)
Definition parseFloat (v : Cell) : num :=
  match v with
  | VNum n => n
  | _ => parseFloat_string (ToString v)
  end.

(** The time value of [new Date(v)]. *)
Definition Date_time (v : Cell) : num :=
  match v with
  | VDate _ t => t
  | VStr s => Date_parse s
  | _ => TimeClip (ToNumber v)
  end.

(** [Array.prototype.sort()] without a comparator: by printed form,
    code unit order. *)
Definition default_compare (a b : Cell) : num :=
  match String.compare (ToString a) (ToString b) with
  | Lt => of_Z (-1)
  | Eq => of_Z 0
  | Gt => of_Z 1
  end.
End WithHost.

(** ** Operators and [Math] *)

(** [a === b] *)
Definition StrictEquals (a b : Cell) : bool :=
  match a, b with
  | VNum x, VNum y => negb (isNaN_num x) && sameNum x y
  | _, _ => SameValueZero a b
  end.

(** [a < b]: two strings compare by code units, anything else as
    numbers; [None] when a [NaN] makes the operands incomparable. *)
Definition LessThan (a b : Cell) : option bool :=
  match a, b with
  | VStr s, VStr t =>
      Some (match String.compare s t with Lt => true | _ => false end)
  | _, _ =>
      let x := ToNumber a in
      let y := ToNumber b in
      if isNaN_num x || isNaN_num y then None else Some (nltb x y)
  end.

(** [a < b] as a condition *)
Definition js_lt (a b : Cell) : bool :=
  match LessThan a b with Some r => r | None => false end.

(** [a >= b] *)
Definition js_ge (a b : Cell) : bool :=
  match LessThan a b with Some r => negb r | None => false end.

(** [a <= b] *)
Definition js_le (a b : Cell) : bool :=
  match LessThan b a with Some r => negb r | None => false end.

Definition nmin (a b : num) : num :=
  match a, b with
  | NaN, _ | _, NaN => NaN
  | _, _ => if nltb b a then b else a
  end.

Definition nmax (a b : num) : num :=
  match a, b with
  | NaN, _ | _, NaN => NaN
  | _, _ => if ngtb b a then b else a
  end.

(** [Math.min(...values)] *)
Definition Math_min (values : list Cell) : num :=
  fold_left (fun m v => nmin m (ToNumber v)) values (Inf false).

(** [Math.max(...values)] *)
Definition Math_max (values : list Cell) : num :=
  fold_left (fun m v => nmax m (ToNumber v)) values (Inf true).


(** [Math.round(n)]: to the nearest integer, a half upwards. *)
Definition Math_round (n : num) : num :=
  match n with
  | Fin q => of_Z (Qfloor (q + (1 # 2)))
  | _ => n
  end.

Section WithHost.
Context {host : Host}.

(** [a + b]: the concatenation of the printed forms when an operand is
    a string or a [Date] (whose primitive value is its printed form),
    the sum of the numbers otherwise. *)
Definition js_add (a b : Cell) : Cell :=
  match a, b with
  | VStr _, _ | VDate _ _, _ | _, VStr _ | _, VDate _ _ =>
      VStr (ToString a ++ ToString b)
  | _, _ => VNum (nadd (ToNumber a) (ToNumber b))
  end.
End WithHost.

End JS.

(* ================================================================== *)
(** * utils.js: [Utils] *)

Module Utils.
Import JS.
Local Open Scope string_scope.

(** ** [calculateStats] *)

(** The summary object; [sum] is absent from the summary of no values. *)
Record Stats : Type := {
  min : num;
  max : num;
  mean : num;
  median : Cell;
  count : nat;
  sum : option Cell
}.

Definition no_stats : Stats :=
  {| min := Fin 0; max := Fin 0; mean := Fin 0; median := VNum (Fin 0);
     count := 0; sum := None |}.

(** [d => !isNaN(d) && d !== null && d !== undefined] *)
Definition valid (d : Cell) : bool :=
  negb (isNaN d) && negb (nullish d).

Section WithHost.
Context {host : Host}.

(** [calculateStats(data)] for an array [data]. *)
Definition calculateStats (data : list Cell) : Stats :=
  match data with
  | [] => no_stats
  | _ =>
      match List.filter valid data with
      | [] => no_stats
      | validData =>
          let sorted :=
            Array_sort (fun a b => nsub (ToNumber a) (ToNumber b)) validData in
          let count := List.length validData in
          let sum := fold_left js_add validData (VNum (Fin 0)) in
          let mean := ndiv (ToNumber sum) (of_nat count) in
          let median :=
            if (count mod 2 =? 0)%nat then
              VNum (ndiv (ToNumber (js_add (nth (count / 2 - 1) sorted VUndefined)
                                           (nth (count / 2) sorted VUndefined)))
                         (Fin 2))
            else nth (count / 2) sorted VUndefined in
          {| min := Math_min validData;
             max := Math_max validData;
             mean := mean;
             median := median;
             count := count;
             sum := Some sum |}
      end
  end.
End WithHost.

(** ** [filterData] *)

(** A filter value: a primitive or a [Date], an array of admitted
    values, or another object, given by its properties [min] and [max]
    ([VUndefined] for a property it does not have). *)
Inductive Filter : Type :=
| FValue (v : Cell)
| FArray (values : list Cell)
| FObject (min max : Cell).

(** The object [filters], in the order of its keys. *)
Definition Filters : Type := list (string * Filter).

(** [filters[key]] *)
Fixpoint filter_of (filters : Filters) (key : string) : Filter :=
  match filters with
  | [] => FValue VUndefined
  | (k, f) :: filters' => if String.eqb k key then f else filter_of filters' key
  end.

(** [filters[key] = f] *)
Fixpoint filter_set (filters : Filters) (key : string) (f : Filter) : Filters :=
  match filters with
  | [] => [(key, f)]
  | (k, f') :: filters' =>
      if String.eqb k key then (k, f) :: filters'
      else (k, f') :: filter_set filters' key f
  end.

(** [{ ...filters, ...newFilters }] *)
Definition spread (filters newFilters : Filters) : Filters :=
  fold_left (fun o kf => filter_set o (fst kf) (snd kf)) newFilters filters.

(** The test of one key: does the item's value pass the filter value?
    An item value is never the filter object itself. *)
Definition passes (filterValue : Filter) (itemValue : Cell) : bool :=
  match filterValue with
  | FValue v => if nullish v then true else StrictEquals itemValue v
  | FArray values => existsb (SameValueZero itemValue) values
  | FObject min max =>
      match min, max with
      | VUndefined, _ | _, VUndefined => false
      | _, _ => js_ge itemValue min && js_le itemValue max
      end
  end.

(** [Object.keys(filters).every(key => ...)] *)
Definition passes_all (filters : Filters) (item : Record) : bool :=
  forallb (fun key => passes (filter_of filters key) (get item key))
          (map fst filters).

(** [filterData(data, filters)] for an array [data]; [None] is a
    [filters] that is null or undefined. *)
Definition filterData (data : list Record) (filters : option Filters)
  : list Record :=
  match filters with
  | None => data
  | Some fs => List.filter (passes_all fs) data
  end.

End Utils.

(* ================================================================== *)
(** * dataLoader.js *)

Module DataLoader.
Import JS.
Local Open Scope string_scope.

(** ** Date strings *)

Inductive PatItem : Type :=
| PDigit                 (* \d *)
| PChar (c : ascii).

(** [pattern.test(s)] for an anchored pattern of digits and literals. *)
Fixpoint pattern_test (p : list PatItem) (s : string) : bool :=
  match p, s with
  | [], EmptyString => true
  | PDigit :: p', String c s' =>
      match digit_in 10 c with
      | Some _ => pattern_test p' s'
      | None => false
      end
  | PChar a :: p', String c s' =>
      if Ascii.eqb a c then pattern_test p' s' else false
  | _, _ => false
  end.

Definition digits (n : nat) : list PatItem := repeat PDigit n.

Definition datePatterns : list (list PatItem) :=
  [ digits 4 ++ [PChar "-"] ++ digits 2 ++ [PChar "-"] ++ digits 2;   (* YYYY-MM-DD *)
    digits 2 ++ [PChar "/"] ++ digits 2 ++ [PChar "/"] ++ digits 4;   (* MM/DD/YYYY *)
    digits 2 ++ [PChar "-"] ++ digits 2 ++ [PChar "-"] ++ digits 4;   (* MM-DD-YYYY *)
    digits 4 ++ [PChar "/"] ++ digits 2 ++ [PChar "/"] ++ digits 2    (* YYYY/MM/DD *)
  ]%list.

Section WithHost.
Context {host : Host}.

Definition isDateString (str : Cell) : bool :=
  match str with
  | VStr s =>
      if String.eqb s "" then false
      else existsb (fun pattern => pattern_test pattern s) datePatterns
           && negb (isNaN_num (Date_parse s))
  | _ => false
  end.

(** ** The cell converter of [loadUserCSV]

    [value] is the raw text of a cell ([None] for [null]); [ref] is the
    reference the [Date] object gets, if one is created. *)
Definition loadUserCSV_value (ref : positive) (value : option string) : Cell :=
  match value with
  | None => VNull
  | Some s =>
      if String.eqb s "" || String.eqb (trim s) "" then VNull
      else if negb (isNaN (VStr s)) && negb (isNaN_num (parseFloat (VStr s)))
      then VNum (parseFloat (VStr s))
      else if isDateString (VStr s) then VDate ref (Date_parse s)
      else VStr (trim s)
  end.

(** The row converter: [row[key] = ...] for every key of the parsed
    row, in order; [ref] is the next unused reference. *)
Fixpoint loadUserCSV_row (ref : positive) (d : list (string * option string))
         (row : Record) : Record * positive :=
  match d with
  | [] => (row, ref)
  | (key, value) :: d' =>
      let v := loadUserCSV_value ref value in
      loadUserCSV_row (if is_Date v then Pos.succ ref else ref) d'
                      (JS.set row key v)
  end.

(** ** Field classification *)

Definition non_null_values (data : list Record) (col : string) : list Cell :=
  List.filter (fun v => negb (nullish v)) (map (fun d => get d col) data).

(** [values[0]] *)
Definition first_value (values : list Cell) : Cell :=
  match values with
  | [] => VUndefined
  | v :: _ => v
  end.

Record ColumnInfo : Type := {
  name : string;
  type : string;
  uniqueCount : nat;
  sampleValues : list Cell
}.

(** [getColumnInfo], on the raw dataset; the statistics that
    [Utils.calculateStats] merges into a numeric column are left out. *)
Definition getColumnInfo (data : list Record) : list (string * ColumnInfo) :=
  match data with
  | [] => []
  | first :: _ =>
      map (fun col =>
             let values := non_null_values data col in
             let sampleValue := first_value values in
             (col,
              {| name := col;
                 type := if is_number sampleValue then "numeric"
                         else if is_Date sampleValue then "date"
                         else "categorical";
                 uniqueCount := List.length (Set_of values);
                 sampleValues := firstn 5 values |}))
          (keys first)
  end.

Record Suggestions : Type := {
  numeric : list string;
  categorical : list string;
  date : list string;
  all : list string
}.

Definition suggest_column (data : list Record) (sg : Suggestions) (col : string)
  : Suggestions :=
  let sampleValue := first_value (non_null_values data col) in
  if is_number sampleValue then
    {| numeric := (numeric sg ++ [col])%list; categorical := categorical sg;
       date := date sg; all := all sg |}
  else if is_Date sampleValue || isDateString sampleValue then
    {| numeric := numeric sg; categorical := categorical sg;
       date := (date sg ++ [col])%list; all := all sg |}
  else
    {| numeric := numeric sg; categorical := (categorical sg ++ [col])%list;
       date := date sg; all := all sg |}.

(** [getFieldSuggestions]; [None] is the empty object returned for an
    empty dataset. *)
Definition getFieldSuggestions (data : list Record) : option Suggestions :=
  match data with
  | [] => None
  | first :: _ =>
      let columns := keys first in
      Some (fold_left (suggest_column data) columns
              {| numeric := []; categorical := []; date := []; all := columns |})
  end.

(** ** Field mapping *)

Record FieldMapping : Type := {
  x : option string;
  y : option string;
  size : option string;
  color : option string;
  label : option string;
  value : option string
}.

(** A thrown [TypeError] (a property read on [undefined]). *)
Inductive Result (A : Type) : Type :=
| Ok (a : A)
| TypeError.
Arguments TypeError {A}.

Definition bind {A B : Type} (r : Result A) (k : A -> Result B) : Result B :=
  match r with
  | Ok a => k a
  | TypeError => TypeError
  end.

(** Truthiness of a field name that may be absent. *)
Definition given (field : option string) : bool :=
  match field with
  | Some f => negb (String.eqb f "")
  | None => false
  end.

(** [a || b] *)
Definition or_else (a b : option string) : option string :=
  if given a then a else b.

Definition includes (l : list string) (f : string) : bool :=
  existsb (String.eqb f) l.

Definition empty_mapping : FieldMapping :=
  {| x := None; y := None; size := None; color := None;
     label := None; value := None |}.

Definition getSmartFieldMapping (chartType : string) (data : list Record)
  : Result FieldMapping :=
  match getFieldSuggestions data with
  | None => TypeError
  | Some sg =>
      let num_ i := nth_error (numeric sg) i in
      let cat_ i := nth_error (categorical sg) i in
      let date_ i := nth_error (date sg) i in
      let all_ i := nth_error (all sg) i in
      Ok (if String.eqb chartType "bar" then
            {| x := or_else (cat_ 0%nat) (all_ 0%nat);
               y := or_else (num_ 0%nat) (all_ 1%nat);
               size := None; color := None; label := None; value := None |}
          else if String.eqb chartType "line" then
            {| x := or_else (or_else (date_ 0%nat) (num_ 0%nat)) (all_ 0%nat);
               y := or_else (num_ 0%nat) (all_ 1%nat);
               size := None; color := None; label := None; value := None |}
          else if String.eqb chartType "scatter" then
            {| x := or_else (num_ 0%nat) (all_ 0%nat);
               y := or_else (num_ 1%nat) (all_ 1%nat);
               size := or_else (num_ 2%nat) None;
               color := or_else (cat_ 0%nat) None;
               label := None; value := None |}
          else if String.eqb chartType "pie" then
            {| x := None; y := None; size := None; color := None;
               label := or_else (cat_ 0%nat) (all_ 0%nat);
               value := or_else (num_ 0%nat) (all_ 1%nat) |}
          else if String.eqb chartType "heatmap" then
            {| x := or_else (cat_ 0%nat) (all_ 0%nat);
               y := or_else (cat_ 1%nat) (all_ 1%nat);
               size := None; color := None; label := None;
               value := or_else (num_ 0%nat) (all_ 2%nat) |}
          else
            {| x := all_ 0%nat; y := all_ 1%nat;
               size := None; color := None; label := None; value := None |})
  end.

(** The two arrays [errors] and [warnings] that [checkField] pushes to. *)
Definition Messages : Type := (list string * list string)%type.

(** [array.push(m)] *)
Definition push (array : list string) (m : string) : list string :=
  List.app array [m].

Definition checkField (suggestions : option Suggestions) (chartType : string)
           (field : option string) (requiredTypes : list string)
           (fieldName : string) (st : Messages) : Result Messages :=
  let '(errors, warnings) := st in
  if negb (given field) then
    Ok (push errors
             (fieldName ++ " field is required for " ++ chartType ++ " chart"),
        warnings)
  else
    let f := match field with Some f => f | None => "" end in
    match suggestions with
    | None => TypeError
    | Some sg =>
        if negb (includes (all sg) f) then
          Ok (push errors ("Field '" ++ f ++ "' does not exist in dataset"),
              warnings)
        else
          let fieldType :=
            if includes (numeric sg) f then "numeric"
            else if includes (date sg) f then "date"
            else "categorical" in
          if negb (includes requiredTypes fieldType) then
            Ok (errors,
                push warnings
                     ("Field '" ++ f ++ "' is " ++ fieldType ++ ", but "
                      ++ String.concat " or " requiredTypes
                      ++ " is recommended for " ++ fieldName))
          else Ok (errors, warnings)
    end.

Record Validation : Type := {
  isValid : bool;
  errors : list string;
  warnings : list string;
  suggestions : FieldMapping
}.

Definition validateFieldMapping (chartType : string) (mapping : FieldMapping)
           (data : list Record) : Result Validation :=
  let sg := getFieldSuggestions data in
  let check := checkField sg chartType in
  bind
    (if String.eqb chartType "bar" then
       bind (check (x mapping) ["categorical"] "X-axis" ([], []))
            (check (y mapping) ["numeric"] "Y-axis")
     else if String.eqb chartType "line" then
       bind (check (x mapping) ["date"; "numeric"] "X-axis" ([], []))
            (check (y mapping) ["numeric"] "Y-axis")
     else if String.eqb chartType "scatter" then
       bind (check (x mapping) ["numeric"] "X-axis" ([], []))
            (check (y mapping) ["numeric"] "Y-axis")
     else if String.eqb chartType "pie" then
       bind (check (label mapping) ["categorical"] "Label" ([], []))
            (check (value mapping) ["numeric"] "Value")
     else if String.eqb chartType "heatmap" then
       bind (bind (check (x mapping) ["categorical"] "X-axis" ([], []))
                  (check (y mapping) ["categorical"] "Y-axis"))
            (check (value mapping) ["numeric"] "Value")
     else Ok ([], []))
    (fun '(errs, warns) =>
       bind (getSmartFieldMapping chartType data)
            (fun sm =>
               Ok {| isValid := (List.length errs =? 0)%nat;
                     errors := errs;
                     warnings := warns;
                     suggestions := sm |})).
End WithHost.

Arguments TypeError {A}.

End DataLoader.

(* ================================================================== *)
(** * dataLoader.js: the datasets and their queries *)

Module Datasets.
Import JS DataLoader.
Local Open Scope string_scope.

(** The options of [processData]; an option that is not given is
    [VUndefined]. *)
Record Options : Type := {
  removeIncompleteRows : Cell;
  nullThreshold : Cell;
  sortByDate : Cell
}.

(** The fields of the loader: the map of the datasets by name (in
    insertion order), the name of the current one and the filters. *)
Record This : Type := {
  datasets : list (string * list Record);
  currentDataset : option string;
  filters : Utils.Filters
}.

(** [datasets.get(name)] *)
Fixpoint Map_get (m : list (string * list Record)) (name : string)
  : option (list Record) :=
  match m with
  | [] => None
  | (k, data) :: m' => if String.eqb k name then Some data else Map_get m' name
  end.

(** [datasets.set(name, data)] *)
Fixpoint Map_set (m : list (string * list Record)) (name : string)
         (data : list Record) : list (string * list Record) :=
  match m with
  | [] => [(name, data)]
  | (k, d) :: m' =>
      if String.eqb k name then (k, data) :: m'
      else (k, d) :: Map_set m' name data
  end.

(** The assignments every loader ends with, for the processed data:
    [this.datasets.set(datasetName, processedData);
     this.currentDataset = datasetName]. *)
Definition loaded (this : This) (datasetName : string)
           (processedData : list Record) : This :=
  {| datasets := Map_set (datasets this) datasetName processedData;
     currentDataset := Some datasetName;
     filters := filters this |}.

(** The object [getDataRange] returns. *)
Record Range : Type := {
  min : num;
  max : num
}.

(** The object [getDataSummary] returns; the summary of no records has
    neither [numericColumns] nor [hasFilters]. *)
Record Summary : Type := {
  totalRecords : nat;
  selectedRecords : nat;
  averageValue : num;
  columns : list string;
  numericColumns : option (list string);
  hasFilters : option bool
}.

(** [row[key] === null || row[key] === undefined || row[key] === ''] *)
Definition empty_cell (v : Cell) : bool :=
  match v with
  | VNull | VUndefined => true
  | VStr s => String.eqb s ""
  | _ => false
  end.

(** The row filter of [processData]:
    [(nullCount / keys.length) < threshold]. *)
Definition complete (threshold : Cell) (row : Record) : bool :=
  let keys := keys row in
  let nullCount :=
    List.length (List.filter (fun key => empty_cell (get row key)) keys) in
  js_lt (VNum (ndiv (of_nat nullCount) (of_nat (List.length keys)))) threshold.

Section WithHost.
Context {host : Host}.

(** ** The cell converters of [loadCSV] and [loadUserJSON] *)

(** The converter of [loadCSV]; [value] is the text of a cell and [ref]
    the reference the [Date] object gets, if one is created. *)
Definition loadCSV_value (ref : positive) (value : string) : Cell :=
  if negb (isNaN (VStr value)) && negb (isNaN_num (parseFloat (VStr value)))
     && negb (String.eqb (trim value) "")
  then VNum (parseFloat (VStr value))
  else if isDateString (VStr value) then VDate ref (Date_parse value)
  else VStr value.

(** The converter of [loadUserJSON]; [value] is a value of a parsed
    row. *)
Definition loadUserJSON_value (ref : positive) (value : Cell) : Cell :=
  match value with
  | VNull | VUndefined => VNull
  | VStr s =>
      if negb (isNaN value) && negb (isNaN_num (parseFloat value))
         && negb (String.eqb (trim s) "")
      then VNum (parseFloat value)
      else if isDateString value then VDate ref (Date_parse s)
      else value
  | _ => value
  end.

(** ** [processData] *)

(** [findDateColumn]: [None] is [null]. *)
Definition findDateColumn (data : list Record) : option string :=
  match data with
  | [] => None
  | first :: _ =>
      or_else (List.find (fun col =>
                            let value := get first col in
                            is_Date value || isDateString value)
                         (keys first))
              None
  end.

(** [new Date(a[dateColumn]) - new Date(b[dateColumn])] *)
Definition by_date (dateColumn : string) (a b : Record) : num :=
  nsub (Date_time (get a dateColumn)) (Date_time (get b dateColumn)).

Definition processData (data : list Record) (options : Options) : list Record :=
  let processed :=
    if truthy (removeIncompleteRows options) then
      let threshold :=
        if truthy (nullThreshold options) then nullThreshold options
        else VNum (Fin (1 # 2)) in
      List.filter (complete threshold) data
    else data in
  if truthy (sortByDate options) then
    match findDateColumn processed with
    | Some dateColumn => Array_sort (by_date dateColumn) processed
    | None => processed
    end
  else processed.

(** ** The current dataset and its filters *)

Definition getCurrentData (this : This) : list Record :=
  match currentDataset this with
  | Some name =>
      if String.eqb name "" then []
      else
        match Map_get (datasets this) name with
        | Some data => Utils.filterData data (Some (filters this))
        | None => []
        end
  | None => []
  end.

(** [getRawData(datasetName)]; [None] is a name that is not given. *)
Definition getRawData (this : This) (datasetName : option string)
  : list Record :=
  match or_else datasetName (currentDataset this) with
  | Some name =>
      match Map_get (datasets this) name with
      | Some data => data
      | None => []
      end
  | None => []
  end.

(** The assignments of [setCurrentDataset], [applyFilters] and
    [clearFilters]; the callbacks they trigger only receive the result
    of [getCurrentData]. *)
Definition setCurrentDataset (this : This) (datasetName : string) : This :=
  match Map_get (datasets this) datasetName with
  | Some _ =>
      {| datasets := datasets this; currentDataset := Some datasetName;
         filters := filters this |}
  | None => this
  end.

Definition applyFilters (this : This) (newFilters : Utils.Filters) : This :=
  {| datasets := datasets this; currentDataset := currentDataset this;
     filters := Utils.spread (filters this) newFilters |}.

Definition clearFilters (this : This) : This :=
  {| datasets := datasets this; currentDataset := currentDataset this;
     filters := [] |}.

(** ** Queries on a column *)

Definition getUniqueValues (this : This) (column : string)
           (datasetName : option string) : list Cell :=
  let data := getRawData this datasetName in
  let values :=
    List.filter (fun v => negb (nullish v)) (map (fun d => get d column) data) in
  Array_sort default_compare (Set_of values).

Definition getDataRange (this : This) (column : string)
           (datasetName : option string) : Range :=
  let data := getRawData this datasetName in
  let values :=
    List.filter (fun v => negb (isNaN v) && negb (nullish v))
                (map (fun d => get d column) data) in
  match values with
  | [] => {| min := Fin 0; max := of_Z 100 |}
  | _ => {| min := Math_min values; max := Math_max values |}
  end.

Definition getDataSummary (this : This) : Summary :=
  let data := getCurrentData this in
  let rawData := getRawData this None in
  match data with
  | [] =>
      {| totalRecords := 0; selectedRecords := 0; averageValue := Fin 0;
         columns := []; numericColumns := None; hasFilters := None |}
  | first :: _ =>
      let numericColumns :=
        List.filter (fun key => is_number (get first key)) (keys first) in
      let averageValue :=
        match numericColumns with
        | firstNumCol :: _ =>
            let values :=
              List.filter (fun v => negb (isNaN v))
                          (map (fun d => get d firstNumCol) data) in
            match values with
            | [] => Fin 0
            | _ => ndiv (ToNumber (fold_left js_add values (VNum (Fin 0))))
                        (of_nat (List.length values))
            end
        | [] => Fin 0
        end in
      {| totalRecords := List.length rawData;
         selectedRecords := List.length data;
         averageValue := ndiv (Math_round (nmul averageValue (Fin 100))) (Fin 100);
         columns := keys first;
         numericColumns := Some numericColumns;
         hasFilters := Some (0 <? List.length (map fst (filters this)))%nat |}
  end.
End WithHost.

End Datasets.

(* ================================================================== *)
(** * main.js: [Dashboard] *)

Module Dashboard.
Import JS DataLoader.
Local Open Scope string_scope.

(** What [validateFieldMappingForChart] does: it returns [true], or it
    shows an error message and returns [false]. *)
Inductive Outcome : Type :=
| Passed
| Refused (message : string).

(** [fieldMapping[field]] *)
Definition field_of (fieldMapping : FieldMapping) (field : string)
  : option string :=
  if String.eqb field "x" then x fieldMapping
  else if String.eqb field "y" then y fieldMapping
  else if String.eqb field "size" then size fieldMapping
  else if String.eqb field "color" then color fieldMapping
  else if String.eqb field "label" then label fieldMapping
  else if String.eqb field "value" then value fieldMapping
  else None.

(** [requiredFields[chartType] || ['x', 'y']], for a chart type that
    does not name a property of [Object.prototype]. *)
Definition requiredFields (chartType : string) : list string :=
  if String.eqb chartType "bar" then ["x"; "y"]
  else if String.eqb chartType "line" then ["x"; "y"]
  else if String.eqb chartType "scatter" then ["x"; "y"]
  else if String.eqb chartType "pie" then ["label"; "value"]
  else if String.eqb chartType "heatmap" then ["x"; "y"; "value"]
  else ["x"; "y"].

(** The loop over the required fields. *)
Fixpoint check_required (chartType : string) (fieldMapping : FieldMapping)
         (availableFields required : list string) : Outcome :=
  match required with
  | [] => Passed
  | field :: required' =>
      match field_of fieldMapping field with
      | Some fieldName =>
          if String.eqb fieldName "" then
            Refused (chartType ++ " chart requires " ++ field
                     ++ " field to be mapped")
          else if negb (includes availableFields fieldName) then
            Refused ("Field '" ++ fieldName
                     ++ "' does not exist in the dataset. Available fields: "
                     ++ String.concat ", " availableFields)
          else check_required chartType fieldMapping availableFields required'
      | None =>
          Refused (chartType ++ " chart requires " ++ field
                   ++ " field to be mapped")
      end
  end.

(** [validateFieldMappingForChart]; [None] is a mapping that is not an
    object. *)
Definition validateFieldMappingForChart (chartType : string)
           (fieldMapping : option FieldMapping) (data : list Record) : Outcome :=
  match fieldMapping with
  | None => Refused "Invalid field mapping configuration"
  | Some mapping =>
      match data with
      | [] => Refused "No data available for chart creation"
      | sampleRecord :: _ =>
          check_required chartType mapping (keys sampleRecord)
                         (requiredFields chartType)
      end
  end.

End Dashboard.

(* ================================================================== *)
(** * pieChart.js *)

Module PieChart.
Import JS.
Local Open Scope string_scope.

Record Options : Type := {
  categoryField : string;
  valueField : string
}.

Record Row : Type := {
  category : Cell;
  value : num;
  count : num;
  percentage : num;
  originalData : list Record
}.

Definition with_percentage (d : Row) (p : num) : Row :=
  {| category := category d; value := value d; count := count d;
     percentage := p; originalData := originalData d |}.

(** The rows built from the groups, before percentages. *)
Definition grouped_rows (options : Options) (data : list Record) : list Row :=
  map (fun '(key, values) =>
         {| category := key;
            value := d3_sum (fun d => or_zero (get d (valueField options))) values;
            count := of_nat (List.length values);
            percentage := Fin 0;
            originalData := values |})
      (d3_group (fun d => get d (categoryField options)) data).

Definition total_of (rows : list Row) : num :=
  d3_sum (fun d => VNum (value d)) rows.

(** [total > 0 ? (v / total) * 100 : 0] *)
Definition percent (total v : num) : num :=
  if ngtb total (Fin 0) then nmul (ndiv v total) (Fin 100) else Fin 0.

(** The rows with percentages, sorted by value descending. *)
Definition sorted_rows (options : Options) (data : list Record) : list Row :=
  let rows := grouped_rows options data in
  let total := total_of rows in
  Array_sort (fun a b => nsub (value b) (value a))
             (map (fun d => with_percentage d (percent total (value d))) rows).

Definition maxSlices : nat := 15.

(** [processData]: the new value of [this.processedData]. *)
Definition processData (options : Options) (data : list Record) : list Row :=
  match data with
  | [] => []
  | _ =>
      let total := total_of (grouped_rows options data) in
      let processedData := sorted_rows options data in
      if (maxSlices <? List.length processedData)%nat then
        let topCategories := firstn (maxSlices - 1) processedData in
        let otherCategories := skipn (maxSlices - 1) processedData in
        let otherTotal := d3_sum (fun d => VNum (value d)) otherCategories in
        let otherCount := d3_sum (fun d => VNum (count d)) otherCategories in
        List.app topCategories
          [ {| category := VStr "Others";
               value := otherTotal;
               count := otherCount;
               percentage := percent total otherTotal;
               originalData := flat_map originalData otherCategories |} ]
      else processedData
  end.

(** [toggleSlice]: the new value of [this.selectedSlices]. *)
Definition toggleSlice (selectedSlices : list Cell) (category : Cell)
  : list Cell :=
  if Set_has selectedSlices category then Set_delete selectedSlices category
  else Set_add selectedSlices category.

End PieChart.

(* ================================================================== *)
(** * barChart.js *)

Module BarChart.
Import JS.
Local Open Scope string_scope.

Record Options : Type := {
  xField : string;
  yField : string
}.

(** A property of an aggregated row: a cell, or the array of the group's
    records. *)
Inductive Prop_ : Type :=
| PCell (c : Cell)
| PRecords (values : list Record).

(** A row is an object whose first two keys are computed. *)
Definition Row : Type := list (string * Prop_).

Fixpoint define (row : Row) (k : string) (v : Prop_) : Row :=
  match row with
  | [] => [(k, v)]
  | (k', v') :: row' =>
      if String.eqb k' k then (k', v) :: row' else (k', v') :: define row' k v
  end.

(** [row[k]] *)
Fixpoint prop (row : Row) (k : string) : Prop_ :=
  match row with
  | [] => PCell VUndefined
  | (k', v) :: row' => if String.eqb k' k then v else prop row' k
  end.

(** [+p]; the array of a group's records is not empty and does not
    coerce to a number. *)
Definition prop_number (p : Prop_) : num :=
  match p with
  | PCell c => ToNumber c
  | PRecords _ => NaN
  end.

(** [{ [xField]: key, [yField]: d3.sum(...), count, originalData }] *)
Definition make_row (options : Options) (key : Cell) (values : list Record) : Row :=
  define
    (define
       (define
          (define [] (xField options) (PCell key))
          (yField options)
          (PCell (VNum (d3_sum (fun d => or_zero (get d (yField options))) values))))
       "count" (PCell (VNum (of_nat (List.length values)))))
    "originalData" (PRecords values).

(** [processData]: the new value of [this.filteredData]. *)
Definition processData (options : Options) (data : list Record) : list Row :=
  match data with
  | [] => []
  | _ =>
      Array_sort
        (fun a b => nsub (prop_number (prop b (yField options)))
                         (prop_number (prop a (yField options))))
        (map (fun '(key, values) => make_row options key values)
             (d3_group (fun d => get d (xField options)) data))
  end.

End BarChart.

(* ================================================================== *)
(** * heatmap.js *)

Module Heatmap.
Import JS.
Local Open Scope string_scope.

Record Options : Type := {
  xField : string;
  yField : string;
  valueField : string
}.

Record Entry : Type := {
  x : Cell;
  y : Cell;
  value : num;
  count : nat;
  originalData : list Record
}.

(** The object [matrix]: entries by key, in insertion order. *)
Definition Matrix : Type := list (string * Entry).

Fixpoint lookup (matrix : Matrix) (key : string) : option Entry :=
  match matrix with
  | [] => None
  | (k, e) :: m => if String.eqb k key then Some e else lookup m key
  end.

(** [matrix[key].value += v; matrix[key].count += 1;
    matrix[key].originalData.push(d)], creating the entry first when the
    key is new. *)
Fixpoint accumulate (matrix : Matrix) (key : string) (xVal yVal : Cell)
         (v : num) (d : Record) : Matrix :=
  match matrix with
  | [] =>
      [(key, {| x := xVal; y := yVal; value := nadd (Fin 0) v; count := 1;
                originalData := [d] |})]
  | (k, e) :: m =>
      if String.eqb k key then
        (k, {| x := x e; y := y e; value := nadd (value e) v;
               count := count e + 1;
               originalData := List.app (originalData e) [d] |}) :: m
      else (k, e) :: accumulate m key xVal yVal v d
  end.

(** The fields of the chart object that [processData] assigns. *)
Record State : Type := {
  processedData : list Entry;
  matrixData : list Entry;
  xCategories : list Cell;
  yCategories : list Cell
}.

Section WithHost.
Context {host : Host}.

(** [`${xVal}|${yVal}`] *)
Definition key_of (xVal yVal : Cell) : string :=
  ToString xVal ++ "|" ++ ToString yVal.

(** The guard of the grouping loop. *)
Definition usable (options : Options) (d : Record) : bool :=
  let xVal := get d (xField options) in
  let yVal := get d (yField options) in
  let value := get d (valueField options) in
  negb (nullish xVal) && negb (nullish yVal)
  && negb (nullish value) && negb (isNaN value).

(** The accumulators of the grouping loop. *)
Record Acc : Type := {
  matrix : Matrix;
  xSet : list Cell;
  ySet : list Cell
}.

Definition step (options : Options) (acc : Acc) (d : Record) : Acc :=
  let xVal := get d (xField options) in
  let yVal := get d (yField options) in
  let value := get d (valueField options) in
  if usable options d then
    {| xSet := Set_add (xSet acc) xVal;
       ySet := Set_add (ySet acc) yVal;
       matrix := accumulate (matrix acc) (key_of xVal yVal) xVal yVal
                            (parseFloat value) d |}
  else acc.

Definition collect (options : Options) (data : list Record) : Acc :=
  fold_left (step options) data {| matrix := []; xSet := []; ySet := [] |}.

(** [{...d, value: d.value / d.count}] *)
Definition averaged (d : Entry) : Entry :=
  {| x := x d; y := y d; value := ndiv (value d) (of_nat (count d));
     count := count d; originalData := originalData d |}.

(** One cell of the complete matrix. *)
Definition cell (m : Matrix) (xVal yVal : Cell) : Entry :=
  match lookup m (key_of xVal yVal) with
  | Some existing =>
      {| x := xVal; y := yVal;
         value := ndiv (value existing) (of_nat (count existing));
         count := count existing;
         originalData := originalData existing |}
  | None =>
      {| x := xVal; y := yVal; value := Fin 0; count := 0;
         originalData := [] |}
  end.

Definition processData (options : Options) (data : list Record) (this : State)
  : State :=
  match data with
  | [] =>
      {| processedData := []; matrixData := [];
         xCategories := xCategories this; yCategories := yCategories this |}
  | _ =>
      let acc := collect options data in
      let xs := Array_sort default_compare (xSet acc) in
      let ys := Array_sort default_compare (ySet acc) in
      {| processedData := map (fun kv => averaged (snd kv)) (matrix acc);
         xCategories := xs;
         yCategories := ys;
         matrixData :=
           flat_map (fun yVal => map (fun xVal => cell (matrix acc) xVal yVal) xs)
                    ys |}
  end.
End WithHost.


End Heatmap.

(* ================================================================== *)
(** * utils.js: [LineChart] *)

Module LineChart.
Import JS.
Local Open Scope string_scope.

Record Options : Type := {
  xField : string;
  yField : string;
  groupField : option string
}.

Record Group : Type := {
  key : Cell;
  values : list Record
}.

Record State : Type := {
  filteredData : list Record;
  groupedData : list Group
}.

Section WithHost.
Context {host : Host}.

(** [d[xField] && d[yField] !== null && d[yField] !== undefined] *)
Definition kept (options : Options) (d : Record) : bool :=
  truthy (get d (xField options))
  && negb (nullish (get d (yField options))).

(** [new Date(a[xField]) - new Date(b[xField])] *)
Definition by_date (options : Options) (a b : Record) : num :=
  nsub (Date_time (get a (xField options)))
       (Date_time (get b (xField options))).

Definition processData (options : Options) (data : list Record) : State :=
  match data with
  | [] => {| filteredData := []; groupedData := [] |}
  | _ =>
      let filteredData :=
        Array_sort (by_date options) (List.filter (kept options) data) in
      {| filteredData := filteredData;
         groupedData :=
           match groupField options with
           | Some g =>
               if String.eqb g "" then
                 [ {| key := VStr "default"; values := filteredData |} ]
               else
                 map (fun '(k, vs) =>
                        {| key := k; values := Array_sort (by_date options) vs |})
                     (d3_group (fun d => get d g) filteredData)
           | None => [ {| key := VStr "default"; values := filteredData |} ]
           end |}
  end.
End WithHost.

End LineChart.

(* ================================================================== *)
(** * scatterPlot.js *)

Module ScatterPlot.
Import JS.
Local Open Scope string_scope.

Record Options : Type := {
  xField : string;
  yField : string
}.

(** The filter of [processData]. *)
Definition valid (options : Options) (d : Record) : bool :=
  let xv := get d (xField options) in
  let yv := get d (yField options) in
  negb (nullish xv) && negb (isNaN xv)
  && negb (nullish yv) && negb (isNaN yv).

(** [processData]: the new value of [this.filteredData]. *)
Definition processData (options : Options) (data : list Record) : list Record :=
  match data with
  | [] => []
  | _ => List.filter (valid options) data
  end.



Definition sum (values : list num) : num := d3_sum VNum values.




End ScatterPlot.

(* ================================================================== *)
(** * A host for closed examples

    [Date.parse] reads the date-only ISO form [YYYY-MM-DD] as UTC midnight
    and nothing else; numbers print in decimal; dates print in UTC. *)

Module RefHost.
Import JS.
Local Open Scope string_scope.
Local Open Scope Z_scope.

Definition is_leap (y : Z) : bool :=
  ((y mod 4 =? 0) && negb (y mod 100 =? 0)) || (y mod 400 =? 0).

Definition days_in_month (y m : Z) : Z :=
  if m =? 2 then (if is_leap y then 29 else 28)
  else if (m =? 4) || (m =? 6) || (m =? 9) || (m =? 11) then 30
  else 31.

(** Days from 1970-01-01 to the given civil date. *)
Definition days_from_civil (y m d : Z) : Z :=
  let y' := if m <=? 2 then y - 1 else y in
  let era := y' / 400 in
  let yoe := y' - era * 400 in
  let doy := (153 * (m + (if 2 <? m then -3 else 9)) + 2) / 5 + d - 1 in
  let doe := yoe * 365 + yoe / 4 - yoe / 100 + doy in
  era * 146097 + doe - 719468.

(** The civil date of a day number. *)
Definition civil_from_days (z : Z) : Z * Z * Z :=
  let z := z + 719468 in
  let era := z / 146097 in
  let doe := z - era * 146097 in
  let yoe := (doe - doe / 1460 + doe / 36524 - doe / 146096) / 365 in
  let doy := doe - (365 * yoe + yoe / 4 - yoe / 100) in
  let mp := (5 * doy + 2) / 153 in
  let d := doy - (153 * mp + 2) / 5 + 1 in
  let m := if mp <? 10 then mp + 3 else mp - 9 in
  ((if m <=? 2 then yoe + era * 400 + 1 else yoe + era * 400), m, d).

Definition parse (s : string) : num :=
  match span_digits 10 s with
  | ([y1; y2; y3; y4], String "-" r1) =>
      match span_digits 10 r1 with
      | ([m1; m2], String "-" r2) =>
          match span_digits 10 r2 with
          | ([d1; d2], EmptyString) =>
              let y := digits_value 10 [y1; y2; y3; y4] in
              let m := digits_value 10 [m1; m2] in
              let d := digits_value 10 [d1; d2] in
              if (1 <=? m) && (m <=? 12) && (1 <=? d) && (d <=? days_in_month y m)
              then of_Z (days_from_civil y m d * 86400000)
              else NaN
          | _ => NaN
          end
      | _ => NaN
      end
  | _ => NaN
  end.

Definition decimal (z : Z) : string := NilZero.string_of_int (Z.to_int z).

Fixpoint fraction (fuel : nat) (r den : Z) : string :=
  match fuel with
  | O => ""
  | S fuel' =>
      if r =? 0 then ""
      else (decimal (10 * r / den) ++ fraction fuel' (10 * r mod den) den)%string
  end.

Definition number_toString (n : num) : string :=
  match n with
  | NaN => "NaN"
  | Inf s => if s then "-Infinity" else "Infinity"
  | Fin q =>
      let a := Z.abs (Qnum q) in
      let den := Zpos (Qden q) in
      let body := decimal (a / den) in
      let frac := fraction 17 (a mod den) den in
      let sign := if Qnum q <? 0 then "-"%string else ""%string in
      (sign ++ body ++ (if String.eqb frac "" then "" else "." ++ frac))%string
  end.

Definition two (z : Z) : string :=
  if z <? 10 then ("0" ++ decimal z)%string else decimal z.

Definition date_toString (t : num) : string :=
  match t with
  | Fin q =>
      let ms := Qnum q / Zpos (Qden q) in
      let day := ms / 86400000 in
      let secs := (ms mod 86400000) / 1000 in
      let '(y, m, d) := civil_from_days day in
      let wd := nth (Z.to_nat ((day + 4) mod 7))
                    ["Sun"; "Mon"; "Tue"; "Wed"; "Thu"; "Fri"; "Sat"]%string "" in
      let mn := nth (Z.to_nat (m - 1))
                    ["Jan"; "Feb"; "Mar"; "Apr"; "May"; "Jun";
                     "Jul"; "Aug"; "Sep"; "Oct"; "Nov"; "Dec"]%string "" in
      (wd ++ " " ++ mn ++ " " ++ two d ++ " " ++ decimal y ++ " "
       ++ two (secs / 3600) ++ ":" ++ two ((secs / 60) mod 60) ++ ":"
       ++ two (secs mod 60) ++ " GMT+0000 (Coordinated Universal Time)")%string
  | _ => "Invalid Date"
  end.

#[export] Instance host : Host := {
  Date_parse := parse;
  Number_toString := number_toString;
  Date_toString := date_toString
}.

End RefHost.

(* ================================================================== *)
(** * Vocabulary of the properties *)

Import JS.

(** The same number: rationals up to their value, [NaN] with [NaN]. *)
Definition same (a b : num) : Prop :=
  match a, b with
  | NaN, NaN => True
  | Inf s, Inf s' => s = s'
  | Fin p, Fin q => p == q
  | _, _ => False
  end.

Infix "~=" := same (at level 70, no associativity).

(** Exact sums of rationals. *)
Definition Qsum (l : list Q) : Q := fold_right Qplus 0 l.

(** Grouping by key, as a specification of [d3.group]. *)
Section GroupSpec.
Variable A : Type.
Variable key : A -> Cell.

(** The records with key [k], in input order. *)
Definition with_key (k : Cell) (l : list A) : list A :=
  List.filter (fun d => key_eqb k (key d)) l.

Definition has_key (ks : list Cell) (k : Cell) : bool :=
  existsb (fun k' => key_eqb k' k) ks.

Definition add_key (ks : list Cell) (k : Cell) : list Cell :=
  if has_key ks k then ks else (ks ++ [k])%list.

(** The distinct keys in the order they are first seen. *)
Definition group_keys (l : list A) : list Cell :=
  fold_left (fun ks d => add_key ks (key d)) l [].

(** No two keys of the list are the same key. *)
Definition distinct_keys (ks : list Cell) : Prop :=
  ForallOrdPairs (fun a b => key_eqb a b = false) ks.
End GroupSpec.

Module ScatterSpec.
Import ScatterPlot.
Local Open Scope string_scope.

(** A value the filter accepts: neither [null] nor [undefined], and not
    [NaN] after coercion to a number. *)
Definition coercible (v : Cell) : Prop :=
  v <> VNull /\ v <> VUndefined /\ ToNumber v <> NaN.

(** The filter as the specification words it: both values are numbers. *)
Definition both_numbers (options : Options) (d : Record) : bool :=
  is_number (get d (xField options)) && is_number (get d (yField options)).

Definition xy : Options := {| xField := "x"; yField := "y" |}.

Definition dated_point : Record :=
  [("x", VDate 1 (of_Z 1673740800000)); ("y", VNum (of_Z 2))].

End ScatterSpec.

Module RegressionSpec.
Import ScatterPlot.





End RegressionSpec.

Module LineSpec.
Import LineChart.
Local Open Scope string_scope.

Section WithHost.
Context {host : Host}.

(** The time value of a record's x value. *)
Definition time_of (options : Options) (d : Record) : num :=
  Date_time (get d (xField options)).

(** The x value denotes a date. *)
Definition dated (options : Options) (d : Record) : Prop :=
  exists t : Q, time_of options d = Fin t.

(** [a] is not later than [b]. *)
Definition not_later (options : Options) (a b : Record) : Prop :=
  exists s t : Q,
    time_of options a = Fin s /\ time_of options b = Fin t /\ s <= t.

End WithHost.





End LineSpec.

Module LoaderSpec.
Import DataLoader.
Local Open Scope string_scope.

Section WithHost.
Context {host : Host}.

(** The kind of a field, from its first value that is neither null nor
    undefined. *)
Definition kind (data : list Record) (col : string) : string :=
  let v := first_value (non_null_values data col) in
  if is_number v then "numeric"
  else if is_Date v || isDateString v then "date"
  else "categorical".

(** The fields of the dataset: the keys of its first record. *)
Definition fields (data : list Record) : list string :=
  match data with
  | [] => []
  | first :: _ => keys first
  end.
End WithHost.

(** A role that a chart type requires: the property of the mapping, the
    name the messages use for it, and the kinds recommended for it. *)
Record Role : Type := {
  role : string;
  shown : string;
  recommended : list string
}.

Definition required_roles (chartType : string) : list Role :=
  if String.eqb chartType "bar" then
    [ {| role := "x"; shown := "X-axis"; recommended := ["categorical"] |};
      {| role := "y"; shown := "Y-axis"; recommended := ["numeric"] |} ]
  else if String.eqb chartType "line" then
    [ {| role := "x"; shown := "X-axis"; recommended := ["date"; "numeric"] |};
      {| role := "y"; shown := "Y-axis"; recommended := ["numeric"] |} ]
  else if String.eqb chartType "scatter" then
    [ {| role := "x"; shown := "X-axis"; recommended := ["numeric"] |};
      {| role := "y"; shown := "Y-axis"; recommended := ["numeric"] |} ]
  else if String.eqb chartType "pie" then
    [ {| role := "label"; shown := "Label"; recommended := ["categorical"] |};
      {| role := "value"; shown := "Value"; recommended := ["numeric"] |} ]
  else if String.eqb chartType "heatmap" then
    [ {| role := "x"; shown := "X-axis"; recommended := ["categorical"] |};
      {| role := "y"; shown := "Y-axis"; recommended := ["categorical"] |};
      {| role := "value"; shown := "Value"; recommended := ["numeric"] |} ]
  else [].

(** [mapping[role]] *)
Definition mapped (mapping : FieldMapping) (r : string) : option string :=
  if String.eqb r "x" then x mapping
  else if String.eqb r "y" then y mapping
  else if String.eqb r "size" then size mapping
  else if String.eqb r "color" then color mapping
  else if String.eqb r "label" then label mapping
  else if String.eqb r "value" then value mapping
  else None.

Section WithHost.
Context {host : Host}.

(** The suggestion lists extended by the columns [cols]. *)
Definition extend (data : list Record) (sg : Suggestions) (cols : list string)
  : Suggestions :=
  {| numeric := (numeric sg ++ List.filter (fun c => String.eqb (kind data c) "numeric") cols)%list;
     categorical := (categorical sg ++ List.filter (fun c => String.eqb (kind data c) "categorical") cols)%list;
     date := (date sg ++ List.filter (fun c => String.eqb (kind data c) "date") cols)%list;
     all := all sg |}.

(** The errors of one mapped field. *)
Definition field_errors (chartType : string) (data : list Record)
           (field : option string) (fieldName : string) : list string :=
  match field with
  | None => [fieldName ++ " field is required for " ++ chartType ++ " chart"]
  | Some f =>
      if String.eqb f "" then
        [fieldName ++ " field is required for " ++ chartType ++ " chart"]
      else if includes (fields data) f then []
      else ["Field '" ++ f ++ "' does not exist in dataset"]
  end.

(** The warnings of one mapped field. *)
Definition field_warnings (data : list Record) (field : option string)
           (kinds : list string) (fieldName : string) : list string :=
  match field with
  | None => []
  | Some f =>
      if String.eqb f "" then []
      else if includes (fields data) f && negb (includes kinds (kind data f))
      then ["Field '" ++ f ++ "' is " ++ kind data f ++ ", but "
            ++ String.concat " or " kinds
            ++ " is recommended for " ++ fieldName]
      else []
  end.

(** The errors and the warnings a required role contributes. *)
Definition role_errors (chartType : string) (data : list Record)
           (mapping : FieldMapping) (r : Role) : list string :=
  field_errors chartType data (mapped mapping (role r)) (shown r).

Definition role_warnings (data : list Record) (mapping : FieldMapping) (r : Role)
  : list string :=
  field_warnings data (mapped mapping (role r)) (recommended r) (shown r).
End WithHost.

Definition sales : list Record :=
  [ [("region", VStr "North"); ("amount", VNum (of_Z 10))];
    [("region", VStr "South"); ("amount", VNum (of_Z 20))] ].

Definition no_x : FieldMapping :=
  {| x := None; y := Some "amount"; size := None; color := None;
     label := None; value := None |}.

Definition stray_color : FieldMapping :=
  {| x := Some "amount"; y := Some "amount"; size := None;
     color := Some "palette"; label := None; value := None |}.

Definition events : list Record :=
  [ [("when", VStr "2023-01-15"); ("visits", VNum (of_Z 3))] ].
End LoaderSpec.

Module HeatmapSpec.
Import Heatmap.
Local Open Scope string_scope.

Definition missing (v : Cell) : Prop := v = VNull \/ v = VUndefined.

(** A record the aggregation must ignore: no x or y value, or a value
    entry that is null, undefined or not a number after coercion (in
    particular [NaN] itself). *)
Definition ignorable (options : Options) (d : Record) : Prop :=
  missing (get d (xField options))
  \/ missing (get d (yField options))
  \/ missing (get d (valueField options))
  \/ isNaN (get d (valueField options)) = true.

Definition xyv : Options :=
  {| xField := "x"; yField := "y"; valueField := "value" |}.

Definition reading (xv yv : string) (v : Z) : Record :=
  [("x", VStr xv); ("y", VStr yv); ("value", VNum (of_Z v))].

Definition blank : State :=
  {| processedData := []; matrixData := []; xCategories := []; yCategories := [] |}.

(** The count and the value of a cell, for display. *)
Definition shown (e : Entry) : Cell * Cell * num * nat :=
  (x e, y e, value e, count e).
End HeatmapSpec.

(** The rational a finite number stands for (0 for the others). *)
Definition qof (n : num) : Q :=
  match n with
  | Fin q => q
  | _ => 0
  end.

(** The plain sum of numbers, left to right. *)
Definition nsum (l : list num) : num := fold_left nadd l (Fin 0).

Module PieSpec.
Import PieChart.
Local Open Scope string_scope.
Local Open Scope list_scope.

(** No value entry of the dataset is an infinity. *)
Definition finite_values (options : Options) (data : list Record) : Prop :=
  forall d, In d data ->
            is_inf (ToNumber (or_zero (get d (valueField options)))) = false.

(** The total of all group sums. *)
Definition total (options : Options) (data : list Record) : num :=
  total_of (grouped_rows options data).

(** A row without its percentage: the group it stands for. *)
Definition group_of (r : Row) : Row := with_percentage r (Fin 0).

(** [a] is strictly greater than [b]. *)
Definition greater (a b : num) : Prop := ngtb a b = true.


(** No two numbers of the list are the same number. *)
Definition distinct_numbers (l : list num) : Prop :=
  ForallOrdPairs (fun a b => ~ a ~= b) l.

Definition by_cat : Options := {| categoryField := "cat"; valueField := "v" |}.

Definition sale (c : string) (v : num) : Record :=
  [("cat", VStr c); ("v", VNum v)].

(** The [i]-th capital letter. *)
Definition letter (i : nat) : string :=
  String (ascii_of_nat (64 + i)) EmptyString.

(** Twenty categories [A] .. [T] with the values 1 .. 20, one record
    each, and a second record for [A]. *)
Definition twenty : list Record :=
  map (fun i => sale (letter i) (of_nat i)) (seq 1 20)
  ++ [sale "A" (Fin (1 # 2))].

End PieSpec.

Module CoerceSpec.
Import DataLoader.
Local Open Scope string_scope.

(** A string of white space only. *)
Fixpoint blank (w : string) : bool :=
  match w with
  | EmptyString => true
  | String c w' => is_ws c && blank w'
  end.

(** No character of [p] is white space. *)
Fixpoint solid (p : string) : bool :=
  match p with
  | EmptyString => true
  | String c p' => negb (is_ws c) && solid p'
  end.

(** [t] is a decimal numeric literal (digits with an optional sign,
    fraction and exponent, or a signed [Infinity]) that denotes [v]. *)
Definition denotes (t : string) (v : num) : Prop :=
  StrDecimalLiteral_prefix t = Some (v, EmptyString).

(** The text matches one of the four date patterns. *)
Definition date_shaped (s : string) : bool :=
  existsb (fun pattern => pattern_test pattern s) datePatterns.
End CoerceSpec.

Module MatrixSpec.
Import Heatmap HeatmapSpec.
Local Open Scope string_scope.
Local Open Scope list_scope.

Section WithHost.
Context {host : Host}.
Variable options : Options.

(** The records that take part in the aggregation. *)
Definition observed (data : list Record) : list Record :=
  List.filter (usable options) data.

(** The observed records of the pair [(xVal, yVal)]. *)
Definition of_pair (data : list Record) (xVal yVal : Cell) : list Record :=
  List.filter (fun d => SameValueZero (get d (xField options)) xVal
                        && SameValueZero (get d (yField options)) yVal)
              (observed data).

(** The cell the specification asks for: the average of the value
    entries of the pair, or zero for a pair that was not observed. *)
Definition pair_cell (data : list Record) (xVal yVal : Cell) : Entry :=
  let records := of_pair data xVal yVal in
  {| x := xVal; y := yVal;
     value := match records with
              | [] => Fin 0
              | _ => ndiv (nsum (map (fun d => parseFloat (get d (valueField options)))
                                     records))
                          (of_nat (List.length records))
              end;
     count := List.length records;
     originalData := records |}.

(** The key identifies the pair: two pairs of observed values have the
    same key exactly when they are the same pair. *)
Definition keys_faithful (data : list Record) : Prop :=
  forall d1 d2 d3,
    In d1 (observed data) -> In d2 (observed data) -> In d3 (observed data) ->
    (key_of (get d1 (xField options)) (get d2 (yField options))
     = key_of (get d3 (xField options)) (get d3 (yField options))
     <-> SameValueZero (get d3 (xField options)) (get d1 (xField options)) = true
         /\ SameValueZero (get d3 (yField options)) (get d2 (yField options)) = true).

(** Ascending in the order of the printed forms. *)
Definition printed_le (a b : Cell) : Prop :=
  String.compare (ToString a) (ToString b) <> Gt.

(** The distinct values of a list, each once: the categories. *)
Definition categories_of (values cats : list Cell) : Prop :=
  StronglySorted printed_le cats
  /\ ForallOrdPairs (fun a b => SameValueZero a b = false) cats
  /\ forall v, Set_has cats v = true <-> existsb (SameValueZero v) values = true.

(** The entry filed under [key] after the records [records]. *)
Definition filed (key : string) (records : list Record) : option Entry :=
  let rs := List.filter
              (fun d => String.eqb (key_of (get d (xField options))
                                           (get d (yField options))) key)
              records in
  match rs with
  | [] => None
  | d0 :: _ =>
      Some {| x := get d0 (xField options); y := get d0 (yField options);
              value := nsum (map (fun d => parseFloat (get d (valueField options))) rs);
              count := List.length rs;
              originalData := rs |}
  end.
End WithHost.
End MatrixSpec.

Module StatsSpec.
Import Utils.


(** The numbers that are summarised: the valid values, as rationals. *)
Definition numbers (data : list Cell) : list Q :=
  map (fun d => qof (ToNumber d)) (List.filter valid data).

(** A value that [+] treats as text: a string, or a [Date]. *)
Definition textual (d : Cell) : bool :=
  match d with
  | VStr _ | VDate _ _ => true
  | _ => false
  end.

(** Six values of a column: four that count, a [null] and a [NaN]. *)
Definition readings : list Cell :=
  [VNum (of_Z 3); VNull; VNum (of_Z 1); VBool true; VNum (of_Z 10); VNum NaN].

End StatsSpec.

Module DatasetSpec.
Import DataLoader Datasets.
Local Open Scope string_scope.

(** The number of empty cells of a row and the number of its cells. *)
Definition empties (row : Record) : nat :=
  List.length (List.filter (fun key => empty_cell (get row key)) (keys row)).

Definition cells (row : Record) : nat := List.length (keys row).

(** The share of empty cells of the row is below [t]; a row without
    cells has no share. *)
Definition filled_under (t : Q) (row : Record) : bool :=
  (0 <? cells row)%nat
  && negb (Qle_bool (t * inject_Z (Z.of_nat (cells row)))
                    (inject_Z (Z.of_nat (empties row)))).

(** The threshold in force: one half unless a number other than zero
    is given. *)
Definition threshold_of (options : Options) : option Q :=
  match nullThreshold options with
  | VUndefined => Some (1 # 2)
  | VNum (Fin t) => Some (if Qzerob t then 1 # 2 else t)
  | _ => None
  end.

Section WithHost.
Context {host : Host}.

(** The time value of the record's entry in the column. *)
Definition time_at (column : string) (d : Record) : num :=
  Date_time (get d column).

Definition dated (column : string) (d : Record) : Prop :=
  exists t : Q, time_at column d = Fin t.

Definition not_later (column : string) (a b : Record) : Prop :=
  exists s t : Q,
    time_at column a = Fin s /\ time_at column b = Fin t /\ s <= t.
End WithHost.

(** The loader's fields with other filters. *)
Definition with_filters (this : This) (fs : Utils.Filters) : This :=
  {| datasets := datasets this; currentDataset := currentDataset this;
     filters := fs |}.

(** The filters on keys that [newFilters] does not mention. *)
Definition untouched (fs newFilters : Utils.Filters) : Utils.Filters :=
  List.filter (fun kf => negb (includes (map fst newFilters) (fst kf))) fs.

Definition monday : Record :=
  [("day", VStr "2023-01-02"); ("visits", VNum (of_Z 7)); ("note", VStr "")].
Definition sunday : Record :=
  [("day", VStr "2023-01-01"); ("visits", VNull); ("note", VStr "")].
Definition tuesday : Record :=
  [("day", VStr "2023-01-03"); ("visits", VNum (of_Z 4)); ("note", VStr "x")].
Definition friday : Record :=
  [("day", VStr "2022-12-30"); ("visits", VNum (of_Z 9)); ("note", VNull)].

Definition week : list Record := [monday; sunday; tuesday; friday].

(** A loader holding the week, showing the days with 1 to 100 visits. *)
Definition shop : This :=
  {| datasets := [("week", week)];
     currentDataset := Some "week";
     filters := [("visits", Utils.FObject (VNum (of_Z 1)) (VNum (of_Z 100)))] |}.


Definition clean_and_sort : Options :=
  {| removeIncompleteRows := VBool true; nullThreshold := VNum (Fin 0);
     sortByDate := VBool true |}.
End DatasetSpec.

Module SelectionSpec.
(** No two members of the set are the same value. *)
Definition distinct (s : list Cell) : Prop :=
  ForallOrdPairs (fun a b => SameValueZero a b = false) s.
End SelectionSpec.

Module BarSpec.
Import BarChart.
Local Open Scope string_scope.

(** The two field names differ from each other and from the names of
    the fixed properties of a row. *)
Definition plain_fields (options : Options) : Prop :=
  xField options <> yField options
  /\ xField options <> "count" /\ xField options <> "originalData"
  /\ yField options <> "count" /\ yField options <> "originalData".

(** No y entry of the dataset is an infinity. *)
Definition finite_values (options : Options) (data : list Record) : Prop :=
  forall d, In d data ->
            is_inf (ToNumber (or_zero (get d (yField options)))) = false.




End BarSpec.

Module FitSpec.
Import ScatterPlot RegressionSpec.





End FitSpec.

Module SliceSpec.
Import PieChart.

(** The slice of the records whose category is [k]. *)
Definition slice (options : Options) (data : list Record) (k : Cell) : Row :=
  let records := with_key (fun d => get d (categoryField options)) k data in
  let v := d3_sum (fun d => or_zero (get d (valueField options))) records in
  {| category := k;
     value := v;
     count := of_nat (List.length records);
     percentage := percent (PieSpec.total options data) v;
     originalData := records |}.
End SliceSpec.

Module ColourSpec.
Import Heatmap.

End ColourSpec.

(* ================================================================== *)
(** * Properties *)

(** ** Numbers *)

Lemma isNaN_num_false (n : num) : isNaN_num n = false <-> n <> NaN.
Proof. destruct n; simpl; split; intros; congruence. Qed.

Lemma same_sameNum (a b : num) : a ~= b <-> sameNum a b = true.
Proof.
  destruct a as [|s|p], b as [|s'|q]; cbn [same sameNum];
    try (split; (easy || discriminate)).
  - rewrite Bool.eqb_true_iff. reflexivity.
  - rewrite Qeq_bool_iff. reflexivity.
Qed.

Ltac num_cases :=
  cbn [same nopp nadd nsub nmul ndiv ngtb] in *;
  try tauto; try congruence.

#[export] Instance same_Equivalence : Equivalence same.
Proof.
  split.
  - intros [|s|p]; num_cases.
  - intros [|s|p] [|s'|q]; num_cases; try (intros H; symmetry; exact H).
  - intros [|s|p] [|s'|q] [|s''|r]; num_cases;
      try (intros H1 H2; rewrite H1; exact H2).
Qed.



Lemma Qzerob_true (q : Q) : Qzerob q = true <-> q == 0.
Proof. unfold Qzerob. apply Qeq_bool_iff. Qed.

Lemma Qzerob_false (q : Q) : Qzerob q = false <-> ~ q == 0.
Proof.
  rewrite <- Qzerob_true. destruct (Qzerob q); split; congruence.
Qed.

#[export] Instance nopp_Proper : Proper (same ==> same) nopp.
Proof.
  intros [|s|p] [|s'|q]; num_cases.
  intros H. rewrite !Qred_correct, H. reflexivity.
Qed.

#[export] Instance nadd_Proper : Proper (same ==> same ==> same) nadd.
Proof.
  intros [|s|p] [|s'|q]; num_cases;
    intros H [|t|u] [|t'|v]; num_cases; intros H'; subst; auto.
  - destruct (Bool.eqb s' t'); num_cases.
  - rewrite !Qred_correct, H, H'. reflexivity.
Qed.











Lemma Qsub_sign (s t : Q) :
  match Qcompare (Qred (s + Qred (- t))) 0 with
  | Gt => t < s
  | _ => s <= t
  end.
Proof.
  destruct (Qcompare_spec (Qred (s + Qred (- t))) 0) as [E | E | E];
    rewrite !Qred_correct in E; lra.
Qed.

(** ** Sorting *)

Section SortFacts.
Variable A : Type.
Variable cmp : A -> A -> num.

Lemma sort_insert_perm (x : A) (l : list A) :
  Permutation (sort_insert cmp x l) (x :: l).
Proof.
  induction l as [|y l IH]; simpl; [reflexivity |].
  destruct (ngtb (cmp x y) (Fin 0)); [| reflexivity].
  rewrite IH. apply perm_swap.
Qed.

Lemma Array_sort_perm (l : list A) : Permutation (Array_sort cmp l) l.
Proof.
  induction l as [|x l IH]; simpl; [reflexivity |].
  rewrite sort_insert_perm. constructor. exact IH.
Qed.

Lemma Array_sort_length (l : list A) :
  List.length (Array_sort cmp l) = List.length l.
Proof. apply Permutation_length, Array_sort_perm. Qed.

Lemma Array_sort_In (l : list A) (x : A) : In x (Array_sort cmp l) <-> In x l.
Proof.
  split; apply Permutation_in; [| symmetry]; apply Array_sort_perm.
Qed.

(** An order [R] the comparator decides on the elements of the array. *)
Variable R : A -> A -> Prop.
Variable P : A -> Prop.
Hypothesis R_trans : forall a b c, P a -> P b -> P c -> R a b -> R b c -> R a c.
Hypothesis cmp_le : forall a b, P a -> P b -> ngtb (cmp a b) (Fin 0) = false -> R a b.
Hypothesis cmp_gt : forall a b, P a -> P b -> ngtb (cmp a b) (Fin 0) = true -> R b a.

Lemma sort_insert_sorted (x : A) (l : list A) :
  P x -> Forall P l -> StronglySorted R l -> StronglySorted R (sort_insert cmp x l).
Proof.
  intros Px Pl Hs. induction Hs as [|y l Hs IH Hy]; simpl.
  - constructor; constructor.
  - inversion Pl as [|? ? Py Pl']; subst.
    destruct (ngtb (cmp x y) (Fin 0)) eqn:E.
    + constructor; [apply IH; assumption |].
      apply Forall_forall. intros z Hz.
      apply (Permutation_in _ (sort_insert_perm x l)) in Hz.
      destruct Hz as [<- | Hz]; [apply cmp_gt; assumption |].
      rewrite Forall_forall in Hy. apply Hy; assumption.
    + constructor; [constructor; assumption |].
      constructor; [apply cmp_le; assumption |].
      apply Forall_forall. intros z Hz.
      rewrite Forall_forall in Hy, Pl'.
      apply R_trans with y; auto.
Qed.

Lemma Array_sort_sorted (l : list A) :
  Forall P l -> StronglySorted R (Array_sort cmp l).
Proof.
  induction l as [|x l IH]; intros Pl; simpl; [constructor |].
  inversion Pl as [|? ? Px Pl']; subst.
  apply sort_insert_sorted; [exact Px | | apply IH; exact Pl'].
  apply Forall_forall. intros z Hz. apply (proj1 (Array_sort_In l z)) in Hz.
  rewrite Forall_forall in Pl'. auto.
Qed.
End SortFacts.

Lemma sorted_split (A : Type) (R : A -> A -> Prop) (l1 l2 : list A) :
  StronglySorted R (l1 ++ l2) ->
  forall a b, In a l1 -> In b l2 -> R a b.
Proof.
  induction l1 as [|x l1 IH]; simpl; intros H a b Ha Hb; [contradiction |].
  inversion H as [|? ? Hs Hx]; subst.
  destruct Ha as [<- | Ha].
  - rewrite Forall_forall in Hx. apply Hx, in_or_app. auto.
  - apply IH; assumption.
Qed.

Lemma pairs_split (A : Type) (R : A -> A -> Prop) (l1 l2 : list A) :
  ForallOrdPairs R (l1 ++ l2) ->
  forall a b, In a l1 -> In b l2 -> R a b.
Proof.
  induction l1 as [|x l1 IH]; simpl; intros H a b Ha Hb; [contradiction |].
  inversion H as [|? ? Hx Hs]; subst.
  destruct Ha as [<- | Ha].
  - rewrite Forall_forall in Hx. apply Hx, in_or_app. auto.
  - apply IH; assumption.
Qed.

Lemma pairs_perm (A : Type) (R : A -> A -> Prop) (l l' : list A) :
  (forall a b, R a b -> R b a) ->
  Permutation l l' -> ForallOrdPairs R l -> ForallOrdPairs R l'.
Proof.
  intros Rsym. induction 1 as [| x l l' P IH | x y l | l l' l'' P1 IH1 P2 IH2];
    intros H; auto.
  - inversion H as [|? ? Hx Hl]; subst. constructor; [| apply IH, Hl].
    apply (Permutation_Forall P), Hx.
  - inversion H as [|? ? Hy Hl]; subst.
    inversion Hl as [|? ? Hx Hl']; subst.
    inversion Hy as [|? ? Ryx Hy']; subst.
    constructor; [constructor; [apply Rsym, Ryx | exact Hx] |].
    constructor; assumption.
Qed.

(** ** Keys of groups *)

Lemma sameNum_refl (a : num) : sameNum a a = true.
Proof. apply same_sameNum. reflexivity. Qed.

Lemma sameNum_sym (a b : num) : sameNum a b = sameNum b a.
Proof.
  destruct (sameNum a b) eqn:E1, (sameNum b a) eqn:E2; auto.
  - apply same_sameNum in E1. symmetry in E1. apply same_sameNum in E1. congruence.
  - apply same_sameNum in E2. symmetry in E2. apply same_sameNum in E2. congruence.
Qed.

Lemma sameNum_trans (a b c : num) :
  sameNum a b = true -> sameNum b c = true -> sameNum a c = true.
Proof.
  rewrite <- !same_sameNum. intros H1 H2. rewrite H1. exact H2.
Qed.

Lemma SameValueZero_refl (a : Cell) : SameValueZero a a = true.
Proof.
  destruct a; simpl; auto using sameNum_refl, Bool.eqb_reflx, String.eqb_refl, Pos.eqb_refl.
Qed.

Lemma SameValueZero_sym (a b : Cell) : SameValueZero a b = SameValueZero b a.
Proof.
  destruct a, b; simpl; auto using sameNum_sym, String.eqb_sym, Pos.eqb_sym.
  destruct b, b0; reflexivity.
Qed.

Lemma SameValueZero_trans (a b c : Cell) :
  SameValueZero a b = true -> SameValueZero b c = true -> SameValueZero a c = true.
Proof.
  destruct a, b; simpl; try discriminate; destruct c; simpl; try discriminate; auto.
  - rewrite !Bool.eqb_true_iff. congruence.
  - apply sameNum_trans.
  - rewrite !String.eqb_eq. congruence.
  - rewrite !Pos.eqb_eq. congruence.
Qed.

Lemma key_eqb_refl (a : Cell) : key_eqb a a = true.
Proof. apply SameValueZero_refl. Qed.

Lemma key_eqb_sym (a b : Cell) : key_eqb a b = key_eqb b a.
Proof. apply SameValueZero_sym. Qed.

Lemma key_eqb_trans (a b c : Cell) :
  key_eqb a b = true -> key_eqb b c = true -> key_eqb a c = true.
Proof. apply SameValueZero_trans. Qed.

(** ** Groups *)

Section GroupFacts.
Variable A : Type.
Variable key : A -> Cell.

Lemma has_key_false (ks : list Cell) (k : Cell) :
  has_key ks k = false -> Forall (fun k' => key_eqb k' k = false) ks.
Proof.
  unfold has_key. induction ks as [|a ks IH]; simpl; intros H; constructor.
  - apply orb_false_iff in H. tauto.
  - apply IH. apply orb_false_iff in H. tauto.
Qed.

Lemma distinct_keys_add (ks : list Cell) (k : Cell) :
  distinct_keys ks -> distinct_keys (add_key ks k).
Proof.
  unfold add_key. destruct (has_key ks k) eqn:E; auto.
  apply has_key_false in E. intros H. revert E.
  induction H as [|a l Ha Hl IH]; simpl; intros E.
  - repeat constructor.
  - inversion E; subst. constructor.
    + apply Forall_app. split; auto.
    + apply IH. assumption.
Qed.

Lemma group_add_map (f : Cell -> list A) (ks : list Cell) (kd : Cell) (d : A) :
  distinct_keys ks ->
  group_add kd d (map (fun k => (k, f k)) ks)
  = (map (fun k => (k, (f k ++ if key_eqb k kd then [d] else [])%list)) ks
     ++ if has_key ks kd then [] else [(kd, [d])])%list.
Proof.
  induction 1 as [|k ks Hk Hks IH]; simpl; [reflexivity |].
  destruct (key_eqb k kd) eqn:E; simpl.
  - f_equal. rewrite app_nil_r.
    apply map_ext_in. intros k' Hk'.
    rewrite Forall_forall in Hk. specialize (Hk k' Hk').
    destruct (key_eqb k' kd) eqn:E'; [| rewrite app_nil_r; reflexivity].
    rewrite key_eqb_sym in E'.
    rewrite (key_eqb_trans _ _ _ E E') in Hk. discriminate.
  - rewrite app_nil_r. f_equal. exact IH.
Qed.

Lemma d3_group_snoc (l : list A) (d : A) :
  d3_group key (l ++ [d]) = group_add (key d) d (d3_group key l).
Proof. unfold d3_group. rewrite fold_left_app. reflexivity. Qed.

Lemma group_keys_snoc (l : list A) (d : A) :
  group_keys key (l ++ [d]) = add_key (group_keys key l) (key d).
Proof. unfold group_keys. rewrite fold_left_app. reflexivity. Qed.

Lemma with_key_snoc (k : Cell) (l : list A) (d : A) :
  with_key key k (l ++ [d])
  = (with_key key k l ++ if key_eqb k (key d) then [d] else [])%list.
Proof. unfold with_key. rewrite filter_app. reflexivity. Qed.

Lemma group_keys_distinct (l : list A) : distinct_keys (group_keys key l).
Proof.
  induction l as [|d l IH] using rev_ind.
  - constructor.
  - rewrite group_keys_snoc. apply distinct_keys_add, IH.
Qed.

Lemma group_keys_cover (l : list A) (d : A) :
  In d l -> has_key (group_keys key l) (key d) = true.
Proof.
  induction l as [|e l IH] using rev_ind; [intros [] |].
  rewrite group_keys_snoc. intros H. apply in_app_or in H.
  unfold add_key. destruct (has_key (group_keys key l) (key e)) eqn:E.
  - destruct H as [H | [<- | []]]; auto.
  - unfold has_key. rewrite existsb_app. apply orb_true_iff.
    destruct H as [H | [<- | []]]; [left; apply IH, H | right].
    simpl. rewrite key_eqb_refl. reflexivity.
Qed.

Lemma with_key_fresh (l : list A) (k : Cell) :
  has_key (group_keys key l) k = false -> with_key key k l = [].
Proof.
  intros H. unfold with_key.
  rewrite (filter_ext_in _ (fun _ => false)); [apply filter_false |].
  intros d Hd. destruct (key_eqb k (key d)) eqn:E; auto.
  pose proof (group_keys_cover l d Hd) as C.
  unfold has_key in C. apply existsb_exists in C as [k' [Hk' E']].
  apply has_key_false in H. rewrite Forall_forall in H.
  rewrite key_eqb_sym in E.
  specialize (H k' Hk'). rewrite (key_eqb_trans _ _ _ E' E) in H. discriminate.
Qed.

(** [d3.group]: one group for each distinct key, in the order the keys
    are first seen, holding the records with that key in input order. *)
Lemma d3_group_spec (l : list A) :
  d3_group key l = map (fun k => (k, with_key key k l)) (group_keys key l).
Proof.
  induction l as [|d l IH] using rev_ind; [reflexivity |].
  rewrite d3_group_snoc, IH, group_keys_snoc.
  rewrite group_add_map by apply group_keys_distinct.
  unfold add_key.
  destruct (has_key (group_keys key l) (key d)) eqn:E.
  - rewrite app_nil_r. apply map_ext. intros k. rewrite with_key_snoc. reflexivity.
  - rewrite map_app. simpl. f_equal.
    + apply map_ext. intros k. rewrite with_key_snoc. reflexivity.
    + rewrite with_key_snoc, key_eqb_refl, (with_key_fresh _ _ E). reflexivity.
Qed.
End GroupFacts.



(* ------------------------------------------------------------------ *)
(** ** Scatter plot: the raw-pair filter *)

Module ScatterFacts.
Import ScatterPlot ScatterSpec.
Local Open Scope string_scope.

Lemma valid_iff (options : Options) (d : Record) :
  valid options d = true <->
  coercible (get d (xField options)) /\ coercible (get d (yField options)).
Proof.
  unfold valid, coercible, isNaN.
  rewrite !andb_true_iff, !negb_true_iff, !isNaN_num_false.
  destruct (get d (xField options)), (get d (yField options)); simpl;
    intuition congruence.
Qed.

(** C9, as stated, fails: a record whose x value is a [Date] is kept,
    although that value is not a number. *)
Lemma scatter_keeps_non_numbers :
  processData xy [dated_point] = [dated_point]
  /\ List.filter (both_numbers xy) [dated_point] = []
  /\ processData xy [dated_point] <> List.filter (both_numbers xy) [dated_point].
Proof. repeat split; try reflexivity. discriminate. Qed.

(** C9 (amended): [processData] keeps, in input order and unchanged,
    exactly the records whose x and y values are neither [null] nor
    [undefined] and do not coerce to [NaN]; a record whose x and y are
    both numbers is kept exactly when neither is [NaN]. *)
Theorem scatter_processData_filter (options : Options) (data : list Record) :
  (exists keep : Record -> bool,
      processData options data = List.filter keep data
      /\ forall d, keep d = true <->
                   coercible (get d (xField options))
                   /\ coercible (get d (yField options)))
  /\ (forall d, In d (processData options data) <->
                In d data
                /\ coercible (get d (xField options))
                /\ coercible (get d (yField options)))
  /\ (forall d a b,
         get d (xField options) = VNum a -> get d (yField options) = VNum b ->
         (In d (processData options data) <-> In d data /\ a <> NaN /\ b <> NaN)).
Proof.
  assert (E : processData options data = List.filter (valid options) data)
    by (destruct data; reflexivity).
  assert (M : forall d, In d (processData options data) <->
                In d data /\ coercible (get d (xField options))
                /\ coercible (get d (yField options))).
  { intro d. rewrite E, filter_In, valid_iff. reflexivity. }
  split; [| split].
  - exists (valid options). split; [exact E | apply valid_iff].
  - exact M.
  - intros d a b Hx Hy. rewrite M, Hx, Hy. unfold coercible; simpl.
    intuition congruence.
Qed.

End ScatterFacts.

(* ------------------------------------------------------------------ *)
(** ** Scatter plot: linear regression *)

Module RegressionFacts.
Import ScatterPlot RegressionSpec.







End RegressionFacts.

(* ------------------------------------------------------------------ *)
(** ** Line chart: the time-series groups *)

Module LineFacts.
Import LineChart LineSpec.
Local Open Scope string_scope.


Section WithHost.
Context {host : Host}.
Variable options : Options.


Lemma by_date_le (a b : Record) :
  dated options a -> dated options b ->
  ngtb (by_date options a b) (Fin 0) = false -> not_later options a b.
Proof.
  intros [s Hs] [t Ht]. unfold by_date, not_later.
  fold (time_of options a) (time_of options b). rewrite Hs, Ht.
  cbn [nsub nadd nopp ngtb]. intros H. exists s, t. repeat split.
  pose proof (Qsub_sign s t) as S.
  destruct (Qcompare (Qred (s + Qred (- t))) 0); auto; discriminate.
Qed.

Lemma by_date_gt (a b : Record) :
  dated options a -> dated options b ->
  ngtb (by_date options a b) (Fin 0) = true -> not_later options b a.
Proof.
  intros [s Hs] [t Ht]. unfold by_date, not_later.
  fold (time_of options a) (time_of options b). rewrite Hs, Ht.
  cbn [nsub nadd nopp ngtb]. intros H. exists t, s. repeat split.
  pose proof (Qsub_sign s t) as S.
  destruct (Qcompare (Qred (s + Qred (- t))) 0); try discriminate.
  apply Qlt_le_weak, S.
Qed.

Lemma not_later_trans (a b c : Record) :
  not_later options a b -> not_later options b c -> not_later options a c.
Proof.
  intros (s & t & Hs & Ht & H) (t' & u & Ht' & Hu & H').
  rewrite Ht in Ht'. injection Ht' as <-.
  exists s, u. repeat split; auto. lra.
Qed.

Lemma sorted_by_date (l : list Record) :
  Forall (dated options) l ->
  StronglySorted (not_later options) (Array_sort (by_date options) l).
Proof.
  apply Array_sort_sorted with (P := dated options).
  - intros a b c _ _ _. apply not_later_trans.
  - apply by_date_le.
  - apply by_date_gt.
Qed.

End WithHost.


End LineFacts.

(* ------------------------------------------------------------------ *)
(** ** Data loader: field kinds and mapping validation *)

Module LoaderFacts.
Import DataLoader LoaderSpec.
Local Open Scope string_scope.

Section WithHost.
Context {host : Host}.

Lemma suggest_columns (data : list Record) (cols : list string) (sg : Suggestions) :
  fold_left (suggest_column data) cols sg = extend data sg cols.
Proof.
  revert sg. induction cols as [|c cols IH]; intros sg.
  - unfold extend. simpl. rewrite !app_nil_r. destruct sg; reflexivity.
  - cbn [fold_left]. rewrite IH. unfold extend. cbn [List.filter].
    unfold suggest_column.
    destruct (is_number (first_value (non_null_values data c))) eqn:N.
    + assert (K : kind data c = "numeric") by (unfold kind; rewrite N; reflexivity).
      rewrite K. cbn. rewrite <- !app_assoc. reflexivity.
    + destruct (is_Date (first_value (non_null_values data c))
                || isDateString (first_value (non_null_values data c))) eqn:D.
      * assert (K : kind data c = "date") by (unfold kind; rewrite N, D; reflexivity).
        rewrite K. cbn. rewrite <- !app_assoc. reflexivity.
      * assert (K : kind data c = "categorical")
          by (unfold kind; rewrite N, D; reflexivity).
        rewrite K. cbn. rewrite <- !app_assoc. reflexivity.
Qed.

Lemma kind_cases (data : list Record) (c : string) :
  kind data c = "numeric" \/ kind data c = "date" \/ kind data c = "categorical".
Proof.
  unfold kind. destruct (is_number _); auto. destruct (_ || _); auto.
Qed.

Lemma includes_In (l : list string) (f : string) :
  includes l f = true <-> In f l.
Proof.
  unfold includes. rewrite existsb_exists. split.
  - intros [g [Hg E]]. apply String.eqb_eq in E. subst. exact Hg.
  - intros H. exists f. split; [exact H | apply String.eqb_refl].
Qed.

Lemma includes_filter (p : string -> bool) (l : list string) (f : string) :
  includes (List.filter p l) f = includes l f && p f.
Proof.
  apply eq_true_iff_eq. rewrite andb_true_iff, !includes_In, filter_In. tauto.
Qed.

(** [getFieldSuggestions] lists every field under its kind. *)
Lemma getFieldSuggestions_spec (data : list Record) :
  data <> [] ->
  exists sg,
    getFieldSuggestions data = Some sg
    /\ all sg = fields data
    /\ numeric sg = List.filter (fun c => String.eqb (kind data c) "numeric") (fields data)
    /\ date sg = List.filter (fun c => String.eqb (kind data c) "date") (fields data)
    /\ categorical sg
       = List.filter (fun c => String.eqb (kind data c) "categorical") (fields data).
Proof.
  destruct data as [|first rest]; [congruence |]. intros _.
  eexists. split; [reflexivity |].
  rewrite suggest_columns. unfold extend. cbn. auto.
Qed.

(** The kind [checkField] reads off the suggestion lists. *)
Lemma fieldType_kind (data : list Record) (sg : Suggestions) (f : string) :
  getFieldSuggestions data = Some sg ->
  includes (all sg) f = true ->
  (if includes (numeric sg) f then "numeric"
   else if includes (date sg) f then "date" else "categorical")
  = kind data f.
Proof.
  intros E Hf.
  destruct data as [|first rest]; [discriminate |].
  destruct (@getFieldSuggestions_spec (first :: rest)) as (sg' & E' & Ha & Hn & Hd & _);
    [discriminate |].
  rewrite E in E'. injection E' as <-.
  rewrite Hn, Hd, !includes_filter. rewrite Ha in Hf. rewrite Hf. cbn [andb].
  destruct (kind_cases (first :: rest) f) as [K | [K | K]]; rewrite K; reflexivity.
Qed.
Lemma checkField_spec (data : list Record) (sg : Suggestions)
      (chartType : string) (field : option string) (kinds : list string)
      (fieldName : string) (st : Messages) :
  getFieldSuggestions data = Some sg ->
  checkField (Some sg) chartType field kinds fieldName st
  = Ok ((fst st ++ field_errors chartType data field fieldName)%list,
        (snd st ++ field_warnings data field kinds fieldName)%list).
Proof.
  intros E. destruct st as [errs warns].
  unfold checkField, field_errors, field_warnings.
  assert (A : all sg = fields data).
  { destruct data as [|first rest]; [discriminate |].
    destruct (@getFieldSuggestions_spec (first :: rest)) as (sg' & E' & Ha & _);
      [discriminate |].
    rewrite E in E'. injection E' as <-. exact Ha. }
  destruct field as [f |]; cbn [given fst snd].
  - destruct (String.eqb f ""); cbn [negb].
    + rewrite app_nil_r. reflexivity.
    + rewrite <- A. destruct (includes (all sg) f) eqn:I; cbn [negb andb].
      * rewrite (fieldType_kind data f E I).
        destruct (includes kinds (kind data f)); cbn [negb].
        -- rewrite !app_nil_r. reflexivity.
        -- rewrite app_nil_r. reflexivity.
      * rewrite app_nil_r. reflexivity.
  - rewrite app_nil_r. reflexivity.
Qed.

(** C7 (amended): on a non-empty dataset validation returns a result
    whose [isValid] is true exactly when [errors] is empty; the errors
    are, for the required roles of the chart type in order, "<name>
    field is required for <chartType> chart" for a missing field, where
    <name> is the displayed name of the role (X-axis, Y-axis, Label,
    Value), and "Field '<f>' does not exist in dataset" for a field that
    is not a key of the first record; a field that exists and whose kind
    is not recommended gives a warning and no error.  Roles that are not
    required are not checked. *)
Theorem validate_errors_and_warnings
        (chartType : string) (mapping : FieldMapping) (data : list Record) :
  data <> [] ->
  exists v,
    validateFieldMapping chartType mapping data = Ok v
    /\ (isValid v = true <-> errors v = [])
    /\ errors v
       = flat_map (role_errors chartType data mapping) (required_roles chartType)
    /\ warnings v
       = flat_map (role_warnings data mapping) (required_roles chartType).
Proof.
  intros Hne.
  destruct (getFieldSuggestions_spec Hne) as (sg & E & _).
  assert (S : exists sm, getSmartFieldMapping chartType data = Ok sm).
  { unfold getSmartFieldMapping. rewrite E. eexists. reflexivity. }
  destruct S as [sm Hsm].
  assert (V : forall errs : list string,
             (List.length errs =? 0)%nat = true <-> errs = [])
    by (intros [|e errs]; simpl; split; congruence).
  unfold validateFieldMapping, required_roles. rewrite E, Hsm.
  repeat match goal with
         | |- context [String.eqb chartType ?s] => destruct (String.eqb chartType s)
         end;
    rewrite ?(fun f k l st => @checkField_spec data sg chartType f k l st E);
    cbn [bind fst snd List.app flat_map];
    rewrite ?(fun f k l st => @checkField_spec data sg chartType f k l st E);
    cbn [bind fst snd List.app flat_map];
    rewrite ?(fun f k l st => @checkField_spec data sg chartType f k l st E);
    cbn [bind fst snd List.app flat_map];
    (eexists; split; [reflexivity |]);
    cbn [isValid errors warnings];
    (split; [apply V |]);
    unfold role_errors, role_warnings; cbn [mapped role shown recommended];
    cbn; rewrite ?app_nil_r, ?app_assoc; auto.
Qed.

(** X18: on an empty dataset the suggestions are the empty object, and
    reading its lists throws: for every chart type and mapping,
    [validateFieldMapping] ends in a [TypeError] instead of returning a
    result. *)
Lemma validate_empty_dataset (chartType : string) (mapping : FieldMapping) :
  validateFieldMapping chartType mapping [] = TypeError.
Proof.
  unfold validateFieldMapping, getSmartFieldMapping. cbn [getFieldSuggestions].
  assert (B : forall (r : Result Messages),
             bind r (fun '(errs, warns) =>
                       bind (TypeError (A := FieldMapping))
                            (fun sm => Ok {| isValid := (List.length errs =? 0)%nat;
                                             errors := errs; warnings := warns;
                                             suggestions := sm |}))
             = TypeError).
  { intros [[errs warns] |]; reflexivity. }
  apply B.
Qed.

(** [getColumnInfo] types a column by its first value alone: a number is
    numeric, a [Date] object is a date, anything else is categorical. *)
Lemma getColumnInfo_type (data : list Record) (col : string) (info : ColumnInfo) :
  In (col, info) (getColumnInfo data) ->
  type info
  = (let v := first_value (non_null_values data col) in
     if is_number v then "numeric" else if is_Date v then "date" else "categorical").
Proof.
  destruct data as [|first rest]; [intros [] |].
  unfold getColumnInfo. intros H. apply in_map_iff in H as [c [H _]].
  injection H as <- <-. reflexivity.
Qed.
End WithHost.

(** C7, as stated, fails: the message for a missing role names it by its
    displayed name, not by the role; and a field mapped to a role that is
    not required is never checked. *)
Lemma validate_messages_differ :
  (exists v, validateFieldMapping (host := RefHost.host) "bar" no_x sales = Ok v
             /\ errors v = ["X-axis field is required for bar chart"]
             /\ ~ In "x field is required for bar chart" (errors v))
  /\ (exists v, validateFieldMapping (host := RefHost.host) "scatter" stray_color sales
                = Ok v
                /\ color stray_color = Some "palette"
                /\ includes (fields sales) "palette" = false
                /\ errors v = [] /\ isValid v = true).
Proof.
  split; eexists; (split; [reflexivity |]); cbn; repeat split; try reflexivity.
  intros [H | []]. discriminate.
Qed.

(** The theorem at a pie mapping whose value field does not exist. *)
Lemma validate_errors_and_warnings_witness :
  exists v,
    validateFieldMapping (host := RefHost.host) "pie"
      {| x := None; y := None; size := None; color := None;
         label := Some "amount"; value := Some "total" |} sales = Ok v
    /\ (isValid v = true <-> errors v = [])
    /\ errors v = ["Field 'total' does not exist in dataset"]
    /\ warnings v
       = ["Field 'amount' is numeric, but categorical is recommended for Label"].
Proof.
  apply (validate_errors_and_warnings (host := RefHost.host)). discriminate.
Defined.

(** C8 fails for [getColumnInfo]: a column of date strings is typed
    categorical there, while [getFieldSuggestions] lists it as a date. *)
Theorem classifiers_disagree_on_date_strings :
  map (fun ci => (fst ci, type (snd ci))) (getColumnInfo events)
  = [("when", "categorical"); ("visits", "numeric")]
  /\ kind (host := RefHost.host) events "when" = "date"
  /\ option_map date (getFieldSuggestions (host := RefHost.host) events)
     = Some ["when"].
Proof. repeat split; reflexivity. Qed.

End LoaderFacts.

(* ------------------------------------------------------------------ *)
(** ** Pie chart: percentages and the collapse of small slices *)





Lemma Qsum_ext_in (A : Type) (f g : A -> Q) (l : list A) :
  (forall a, In a l -> f a == g a) -> Qsum (map f l) == Qsum (map g l).
Proof.
  induction l as [|a l IH]; intros H; simpl; [reflexivity |].
  assert (E1 : f a == g a) by (apply H; left; reflexivity).
  assert (E2 : Qsum (map f l) == Qsum (map g l))
    by (apply IH; intros b Hb; apply H; right; exact Hb).
  rewrite E1, E2. reflexivity.
Qed.


Module PieFacts.
Import PieChart PieSpec.
Local Open Scope string_scope.
Local Open Scope list_scope.

(** The rows of [processData] in terms of the sorted rows. *)
Lemma processData_eq (options : Options) (data : list Record) :
  processData options data
  = let sorted := sorted_rows options data in
    if (15 <? List.length sorted)%nat then
      firstn 14 sorted ++
      [ {| category := VStr "Others";
           value := d3_sum (fun d => VNum (value d)) (skipn 14 sorted);
           count := d3_sum (fun d => VNum (count d)) (skipn 14 sorted);
           percentage := percent (total options data)
                                 (d3_sum (fun d => VNum (value d)) (skipn 14 sorted));
           originalData := flat_map originalData (skipn 14 sorted) |} ]
    else sorted.
Proof. destruct data; reflexivity. Qed.



Section Pie.
Variable options : Options.
Variable data : list Record.
Hypothesis finite : finite_values options data.



(** Every sorted row is a group with its percentage, and the sorted rows
    are the groups in another order. *)
Lemma sorted_rows_perm :
  Permutation (sorted_rows options data)
              (map (fun d => with_percentage d (percent (total options data) (value d)))
                   (grouped_rows options data)).
Proof. unfold sorted_rows. apply Array_sort_perm. Qed.





Lemma In_firstn (A : Type) (n : nat) (l : list A) (a : A) :
  In a (firstn n l) -> In a l.
Proof. intros H. rewrite <- (firstn_skipn n l). apply in_or_app. auto. Qed.

Lemma In_skipn (A : Type) (n : nat) (l : list A) (a : A) :
  In a (skipn n l) -> In a l.
Proof. intros H. rewrite <- (firstn_skipn n l). apply in_or_app. auto. Qed.


End Pie.

(** *** Order of numbers *)

Lemma ngtb_sub (x y : num) :
  x <> NaN -> y <> NaN -> ngtb (nsub x y) (Fin 0) = ngtb x y.
Proof.
  destruct x as [|s|p], y as [|s'|q]; try congruence; intros _ _;
    cbn [nsub nopp nadd ngtb].
  - destruct s, s'; reflexivity.
  - reflexivity.
  - destruct s'; reflexivity.
  - pose proof (Qsub_sign p q) as S.
    destruct (Qcompare (Qred (p + Qred (- q))) 0);
      destruct (Qcompare_spec p q); auto; lra.
Qed.

Lemma ngtb_asym (a b : num) : ngtb a b = true -> ngtb b a = false.
Proof.
  destruct a as [|s|p], b as [|s'|q]; cbn [ngtb]; try congruence.
  - destruct s, s'; cbn; congruence.
  - destruct s; cbn; congruence.
  - destruct s'; cbn; congruence.
  - destruct (Qcompare_spec p q), (Qcompare_spec q p); try congruence; lra.
Qed.

Lemma not_greater_trans (a b c : num) :
  a <> NaN -> b <> NaN -> c <> NaN ->
  ngtb b a = false -> ngtb c b = false -> ngtb c a = false.
Proof.
  destruct a as [|s|p], b as [|s'|q], c as [|s''|r]; try congruence;
    intros _ _ _; cbn [ngtb];
    try (destruct s); try (destruct s'); try (destruct s''); cbn; try congruence.
  destruct (Qcompare_spec q p), (Qcompare_spec r q), (Qcompare_spec r p);
    try congruence; lra.
Qed.

Lemma not_greater_same (a b : num) :
  a <> NaN -> b <> NaN -> ngtb a b = false -> ngtb b a = false -> a ~= b.
Proof.
  destruct a as [|s|p], b as [|s'|q]; try congruence; intros _ _; cbn [ngtb same];
    try (destruct s); try (destruct s'); cbn; try congruence.
  destruct (Qcompare_spec p q), (Qcompare_spec q p); try congruence; lra.
Qed.

(** [d3.sum] of values none of which is [NaN] is their plain sum. *)
Lemma d3_sum_nsum (A : Type) (f : A -> Cell) (l : list A) :
  (forall a, In a l -> ToNumber (f a) <> NaN) ->
  d3_sum f l ~= nsum (map (fun a => ToNumber (f a)) l).
Proof.
  unfold d3_sum, nsum. intros H.
  assert (G : forall acc acc', acc ~= acc' ->
              fold_left (fun sum a => let v := ToNumber (f a) in
                                      if num_truthy v then nadd sum v else sum)
                        l acc
              ~= fold_left nadd (map (fun a => ToNumber (f a)) l) acc').
  { induction l as [|a l IH]; intros acc acc' E; cbn [fold_left map]; [exact E |].
    apply IH; [intros b Hb; apply H; right; exact Hb |].
    cbv zeta. pose proof (H a (or_introl eq_refl)) as Ha.
    destruct (ToNumber (f a)) as [|s|q]; [congruence | |]; cbn [num_truthy].
    - rewrite E. reflexivity.
    - destruct (Qzerob q) eqn:Z; cbn [negb]; [| rewrite E; reflexivity].
      apply Qzerob_true in Z.
      destruct acc as [|s|p], acc' as [|s'|p']; cbn [same nadd] in *; auto;
        try contradiction.
      rewrite Qred_correct, Z, E. ring. }
  apply G. reflexivity.
Qed.

Section Collapse.
Variable options : Options.
Variable data : list Record.

Lemma group_of_sorted :
  Permutation (map group_of (sorted_rows options data))
              (grouped_rows options data).
Proof.
  rewrite (Permutation_map group_of (sorted_rows_perm options data)).
  rewrite map_map.
  rewrite (map_ext_in _ (fun g => g)); [rewrite map_id; reflexivity |].
  intros g Hg. unfold grouped_rows in Hg.
  apply in_map_iff in Hg as [[k vs] [<- _]]. reflexivity.
Qed.

Lemma sorted_values_perm :
  Permutation (map value (sorted_rows options data))
              (map value (grouped_rows options data)).
Proof.
  rewrite <- group_of_sorted, map_map. reflexivity.
Qed.

Lemma sorted_length :
  List.length (sorted_rows options data)
  = List.length (grouped_rows options data).
Proof.
  rewrite <- (Permutation_length group_of_sorted), length_map. reflexivity.
Qed.

Lemma sorted_descending :
  (forall g, In g (grouped_rows options data) -> value g <> NaN) ->
  StronglySorted (fun a b => ngtb (value b) (value a) = false)
                 (sorted_rows options data).
Proof.
  intros H. unfold sorted_rows.
  apply Array_sort_sorted with (P := fun r : Row => value r <> NaN).
  - intros a b c Ha Hb Hc. apply not_greater_trans; assumption.
  - intros a b Ha Hb. rewrite ngtb_sub by assumption. auto.
  - intros a b Ha Hb E. rewrite ngtb_sub in E by assumption.
    apply ngtb_asym, E.
  - apply Forall_forall. intros r Hr. apply in_map_iff in Hr as [g [<- Hg]].
    cbn [value with_percentage]. apply H, Hg.
Qed.

(** C3: with more than 15 groups the output is the first 14 rows of
    the groups sorted by value, followed by one row labelled 'Others':
    15 rows in all.  The kept and the folded rows together are the
    groups; no folded group has a greater value than a kept one; the
    value and the count of 'Others' are the sums of the values and the
    counts of the folded groups and its records are theirs, concatenated.
    With 20 groups of distinct positive values the folded groups are the
    6 smallest. *)
Theorem pie_top_n_collapse :
  (15 < List.length (grouped_rows options data))%nat ->
  exists top folded others,
    processData options data = top ++ [others]
    /\ List.length top = 14%nat
    /\ List.length (processData options data) = 15%nat
    /\ nth_error (processData options data) 14 = Some others
    /\ Permutation (map group_of (top ++ folded)) (grouped_rows options data)
    /\ ((forall g, In g (grouped_rows options data) -> value g <> NaN) ->
        (forall t f, In t top -> In f folded -> ngtb (value f) (value t) = false)
        /\ value others ~= nsum (map value folded))
    /\ category others = VStr "Others"
    /\ value others = d3_sum (fun d => VNum (value d)) folded
    /\ count others ~= nsum (map count folded)
    /\ originalData others = flat_map originalData folded
    /\ (List.length (grouped_rows options data) = 20%nat ->
        (forall g, In g (grouped_rows options data) -> greater (value g) (Fin 0)) ->
        distinct_numbers (map value (grouped_rows options data)) ->
        List.length folded = 6%nat
        /\ forall t f, In t top -> In f folded -> greater (value t) (value f)).
Proof.
  intros Hlen. rewrite <- sorted_length in Hlen.
  set (sorted := sorted_rows options data) in *.
  exists (firstn 14 sorted), (skipn 14 sorted).
  pose (others :=
          {| category := VStr "Others";
             value := d3_sum (fun d => VNum (value d)) (skipn 14 sorted);
             count := d3_sum (fun d => VNum (count d)) (skipn 14 sorted);
             percentage :=
               percent (total options data)
                       (d3_sum (fun d => VNum (value d)) (skipn 14 sorted));
             originalData := flat_map originalData (skipn 14 sorted) |}).
  exists others.
  assert (E : processData options data = firstn 14 sorted ++ [others]).
  { rewrite processData_eq. cbv zeta. fold sorted.
    destruct (Nat.ltb_spec 15 (List.length sorted)); [reflexivity | lia]. }
  assert (L : List.length (firstn 14 sorted) = 14%nat)
    by (rewrite length_firstn; lia).
  split; [exact E |]. split; [exact L |].
  split; [rewrite E, length_app, L; reflexivity |].
  split; [rewrite E, nth_error_app2, L by lia; reflexivity |].
  rewrite firstn_skipn.
  split; [apply group_of_sorted |].
  assert (NN : (forall g, In g (grouped_rows options data) -> value g <> NaN) ->
               forall r, In r sorted -> value r <> NaN).
  { intros H r Hr. apply (in_map value) in Hr.
    apply (Permutation_in _ sorted_values_perm) in Hr.
    apply in_map_iff in Hr as [g [<- Hg]]. apply H, Hg. }
  assert (TF : (forall g, In g (grouped_rows options data) -> value g <> NaN) ->
               forall t f, In t (firstn 14 sorted) -> In f (skipn 14 sorted) ->
                           ngtb (value f) (value t) = false).
  { intros H t f Ht Hf.
    pose proof (sorted_descending H) as S. fold sorted in S.
    rewrite <- (firstn_skipn 14 sorted) in S.
    apply (@sorted_split Row (fun a b => ngtb (value b) (value a) = false)
                         _ _ S); assumption. }
  split.
  { intros H. split; [apply TF, H |]. unfold others. cbn [value].
    rewrite d3_sum_nsum; [reflexivity |].
    intros r Hr. cbn [ToNumber]. apply (NN H), (In_skipn _ _ _ Hr). }
  split; [reflexivity |]. split; [reflexivity |].
  split.
  { unfold others. cbn [count]. rewrite d3_sum_nsum; [reflexivity |].
    intros r Hr. cbn [ToNumber]. apply In_skipn in Hr.
    apply (Permutation_in _ (sorted_rows_perm options data)) in Hr.
    apply in_map_iff in Hr as [g [<- Hg]]. unfold grouped_rows in Hg.
    apply in_map_iff in Hg as [[k vs] [<- _]]. discriminate. }
  split; [reflexivity |].
  intros H20 Hpos Hdist.
  split; [rewrite length_skipn; fold sorted; rewrite <- sorted_length in H20;
          fold sorted in H20; lia |].
  intros t f Ht Hf.
  assert (Hnn : forall g, In g (grouped_rows options data) -> value g <> NaN).
  { intros g Hg. specialize (Hpos g Hg). unfold greater in Hpos.
    destruct (value g); [discriminate | congruence | congruence]. }
  pose proof (TF Hnn t f Ht Hf) as Hle.
  assert (D : ~ value t ~= value f).
  { assert (DS : distinct_numbers (map value sorted)).
    { apply pairs_perm with (l := map value (grouped_rows options data)).
      - intros a b Hab Hba. apply Hab. symmetry. exact Hba.
      - symmetry. apply sorted_values_perm.
      - exact Hdist. }
    rewrite <- (firstn_skipn 14 sorted), map_app in DS.
    apply (@pairs_split num (fun a b => ~ a ~= b) _ _ DS); apply in_map; assumption. }
  unfold greater. destruct (ngtb (value t) (value f)) eqn:G; [reflexivity |].
  exfalso. apply D. apply not_greater_same; auto.
  - apply (NN Hnn), (In_firstn _ _ _ Ht).
  - apply (NN Hnn), (In_skipn _ _ _ Hf).
Qed.
End Collapse.



(** The theorem at twenty categories of distinct positive values. *)
Lemma pie_top_n_collapse_witness :
  exists top folded others,
    processData by_cat twenty = top ++ [others]
    /\ List.length top = 14%nat
    /\ category others = VStr "Others"
    /\ count others ~= nsum (map count folded)
    /\ List.length folded = 6%nat.
Proof.
  assert (H15 : (15 < List.length (grouped_rows by_cat twenty))%nat)
    by (vm_compute; lia).
  destruct (pie_top_n_collapse by_cat twenty H15)
    as (top & folded & others & E & L & _ & _ & _ & _ & C & _ & N & _ & T).
  exists top, folded, others. repeat split; auto.
  apply T.
  - reflexivity.
  - intros g Hg. vm_compute in Hg.
    repeat (destruct Hg as [<- | Hg]; [reflexivity |]). destruct Hg.
  - vm_compute. repeat constructor; intros H; vm_compute in H; discriminate.
Defined.

End PieFacts.

(* ------------------------------------------------------------------ *)
(** ** Data loader: the type coercion of a cell *)

Module CoerceFacts.
Import DataLoader CoerceSpec.
Local Open Scope string_scope.

Lemma trimEnd_split (u : string) :
  exists w, u = trimEnd u ++ w /\ blank w = true.
Proof.
  induction u as [|c u (w & E & B)].
  - exists "". split; reflexivity.
  - cbn [trimEnd]. destruct (trimEnd u) as [|c' t'] eqn:T.
    + cbn [append] in E. subst w.
      destruct (is_ws c) eqn:W.
      * exists (String c u). split; [reflexivity |].
        cbn [blank]. rewrite W, B. reflexivity.
      * exists u. split; [reflexivity | exact B].
    + exists w. split; [| exact B]. rewrite E at 1. reflexivity.
Qed.

Lemma trimEnd_nonempty_head (u : string) (c : ascii) (t : string) :
  trimEnd u = String c t -> exists u', u = String c u'.
Proof.
  destruct u as [|a u]; cbn [trimEnd]; [discriminate |].
  destruct (trimEnd u); [destruct (is_ws a) |]; intros H; try discriminate;
    injection H as <- _; eauto.
Qed.

(** The first character of a blank string is no part of a literal. *)
Lemma blank_head (c : ascii) (w : string) :
  blank (String c w) = true ->
  digit_in 10 c = None /\ Ascii.eqb c "." = false /\ Ascii.eqb c "e" = false
  /\ Ascii.eqb c "E" = false /\ Ascii.eqb c "+" = false /\ Ascii.eqb c "-" = false
  /\ Ascii.eqb c "I" = false.
Proof.
  cbn [blank]. intros H. apply andb_true_iff in H as [H _].
  unfold is_ws in H.
  repeat (apply orb_true_iff in H; destruct H as [H | H]);
    apply Z.eqb_eq in H; unfold code in H;
    assert (E : N_of_ascii c = Z.to_N (Z.of_N (N_of_ascii c)))
      by (rewrite N2Z.id; reflexivity);
    rewrite H in E; cbn in E;
    apply (f_equal ascii_of_N) in E; rewrite ascii_N_embedding in E; subst c;
    repeat split; reflexivity.
Qed.

Lemma span_digits_app (w r : string) :
  blank w = true ->
  span_digits 10 (r ++ w)
  = (fst (span_digits 10 r), snd (span_digits 10 r) ++ w).
Proof.
  intros B. induction r as [|c r IH]; cbn [append span_digits].
  - destruct w as [|c w]; [reflexivity |].
    cbn [span_digits]. destruct (blank_head _ _ B) as [-> _]. reflexivity.
  - destruct (digit_in 10 c); [| reflexivity].
    rewrite IH. destruct (span_digits 10 r). reflexivity.
Qed.

Lemma parse_sign_blank (w : string) :
  blank w = true -> parse_sign w = (false, w).
Proof.
  destruct w as [|c w]; [reflexivity |]. intros B. cbn [parse_sign].
  destruct (blank_head _ _ B) as (_ & _ & _ & _ & -> & -> & _). reflexivity.
Qed.

Lemma parse_exponent_app (w r : string) :
  blank w = true ->
  parse_exponent (r ++ w)
  = (fst (parse_exponent r), snd (parse_exponent r) ++ w).
Proof.
  intros B. destruct r as [|c r]; cbn [append].
  - destruct w as [|c w]; [reflexivity |]. cbn [parse_exponent].
    destruct (blank_head _ _ B) as (_ & _ & -> & -> & _). reflexivity.
  - cbn [parse_exponent]. destruct (Ascii.eqb c "e" || Ascii.eqb c "E"); [| reflexivity].
    assert (S : parse_sign (r ++ w)
                = (fst (parse_sign r), snd (parse_sign r) ++ w)).
    { destruct r as [|a r]; cbn [append]; [apply parse_sign_blank, B |].
      cbn [parse_sign]. destruct (Ascii.eqb a "+"); [reflexivity |].
      destruct (Ascii.eqb a "-"); reflexivity. }
    rewrite S. destruct (parse_sign r) as [neg r1]. cbn [fst snd].
    rewrite (@span_digits_app w r1 B).
    destruct (span_digits 10 r1) as [[|d ds] r2]; reflexivity.
Qed.

Lemma parse_sign_app (w t : string) :
  blank w = true -> t <> "" ->
  parse_sign (t ++ w) = (fst (parse_sign t), snd (parse_sign t) ++ w).
Proof.
  intros B Ht. destruct t as [|a r]; [congruence |]. cbn [append parse_sign].
  destruct (Ascii.eqb a "+"); [reflexivity |].
  destruct (Ascii.eqb a "-"); reflexivity.
Qed.

Lemma strip_prefix_app (p r w : string) :
  blank w = true -> solid p = true ->
  strip_prefix p (r ++ w)
  = match strip_prefix p r with
    | Some r' => Some (r' ++ w)
    | None => match p with
              | EmptyString => Some (r ++ w)
              | _ => None
              end
    end.
Proof.
  intros B. revert r. induction p as [|a p IH]; intros r S.
  - reflexivity.
  - cbn [solid] in S. apply andb_true_iff in S as [Sa Sp].
    destruct r as [|b r]; cbn [append strip_prefix].
    + destruct w as [|c w]; [reflexivity |]. cbn [strip_prefix].
      destruct (Ascii.eqb_spec a c) as [-> |]; [| reflexivity].
      cbn [blank] in B. apply andb_true_iff in B as [B _].
      rewrite B in Sa. discriminate.
    + destruct (Ascii.eqb a b); [| reflexivity].
      rewrite (IH r Sp). destruct (strip_prefix p r) eqn:E; [reflexivity |].
      destruct p; [discriminate | reflexivity].
Qed.

Lemma parse_fraction_app (w : string) (ip : list Z) (r1 : string) :
  blank w = true ->
  parse_fraction ip (r1 ++ w)
  = (fst (parse_fraction ip r1), snd (parse_fraction ip r1) ++ w).
Proof.
  intros B. destruct r1 as [|c r2]; cbn [append].
  - destruct w as [|c w]; [reflexivity |]. cbn [parse_fraction].
    destruct (blank_head _ _ B) as (_ & -> & _). reflexivity.
  - cbn [parse_fraction]. destruct (Ascii.eqb c "."); [| reflexivity].
    rewrite (@span_digits_app w r2 B).
    destruct (span_digits 10 r2) as [fp r3]. cbn [fst snd].
    destruct ip, fp; reflexivity.
Qed.

(** Trailing white space does not change the literal that is read. *)
Lemma StrDecimalLiteral_prefix_app (t w : string) (v : num) (rest : string) :
  blank w = true ->
  StrDecimalLiteral_prefix t = Some (v, rest) ->
  StrDecimalLiteral_prefix (t ++ w) = Some (v, rest ++ w).
Proof.
  intros B. destruct (String.eqb_spec t "") as [-> | Ht]; [discriminate |].
  unfold StrDecimalLiteral_prefix.
  rewrite (@parse_sign_app w t B Ht). destruct (parse_sign t) as [neg r].
  cbn [fst snd].
  rewrite (@strip_prefix_app "Infinity" r w B eq_refl).
  destruct (strip_prefix "Infinity" r) as [r' |].
  - intros H. injection H as <- <-. reflexivity.
  - rewrite (@span_digits_app w r B).
    destruct (span_digits 10 r) as [ip r1]. cbn [fst snd].
    rewrite (@parse_fraction_app w ip r1 B).
    destruct (parse_fraction ip r1) as [fp r3]. cbn [fst snd].
    rewrite (@parse_exponent_app w r3 B).
    destruct (parse_exponent r3) as [e r4]. cbn [fst snd].
    destruct ip, fp; intros H; try discriminate; injection H as <- <-; reflexivity.
Qed.

(** A literal with a base prefix is not read to its end as a decimal
    literal. *)
Lemma NonDecimal_not_decimal (t : string) (v w : num) :
  NonDecimalIntegerLiteral t = Some w -> ~ denotes t v.
Proof.
  unfold NonDecimalIntegerLiteral, denotes.
  destruct t as [|c [|p r]]; try discriminate.
  destruct (Ascii.eqb_spec c "0") as [-> |]; [| discriminate].
  unfold prefix_base.
  destruct (Ascii.eqb_spec p "x") as [-> |]; [intros _; cbn; discriminate |].
  destruct (Ascii.eqb_spec p "X") as [-> |]; [intros _; cbn; discriminate |].
  destruct (Ascii.eqb_spec p "o") as [-> |]; [intros _; cbn; discriminate |].
  destruct (Ascii.eqb_spec p "O") as [-> |]; [intros _; cbn; discriminate |].
  destruct (Ascii.eqb_spec p "b") as [-> |]; [intros _; cbn; discriminate |].
  destruct (Ascii.eqb_spec p "B") as [-> |]; [intros _; cbn; discriminate |].
  discriminate.
Qed.

Lemma denotes_not_NaN (t : string) (v : num) : denotes t v -> v <> NaN.
Proof.
  unfold denotes, StrDecimalLiteral_prefix.
  destruct (parse_sign t) as [neg r].
  destruct (strip_prefix "Infinity" r); [intros H; injection H as <- _; discriminate |].
  destruct (span_digits 10 r) as [ip r1].
  destruct (parse_fraction ip r1) as [fp r3].
  destruct (parse_exponent r3) as [e r4].
  unfold decimal_value.
  destruct ip, fp; intros H; try discriminate; injection H as <- _; discriminate.
Qed.

(** A value whose trimmed form is a decimal literal reads as that number
    under both [Number] and [parseFloat]. *)
Lemma decimal_reads (s : string) (v : num) :
  denotes (trim s) v ->
  StringToNumber s = v /\ parseFloat_string s = v.
Proof.
  intros D. split.
  - unfold StringToNumber.
    destruct (trim s) as [|c t] eqn:T; [discriminate |].
    destruct (NonDecimalIntegerLiteral (String c t)) as [w |] eqn:N.
    + exfalso. exact (@NonDecimal_not_decimal _ v w N D).
    + unfold denotes in D. rewrite D. reflexivity.
  - unfold parseFloat_string.
    destruct (trimEnd_split (trimStart s)) as (w & E & B).
    fold (trim s) in E. rewrite E.
    rewrite (@StrDecimalLiteral_prefix_app (trim s) w v EmptyString B D). reflexivity.
Qed.

Section WithHost.
Context {host : Host}.
Variable ref : positive.

Lemma trim_nonempty (s : string) : trim s <> "" -> s <> "".
Proof. intros H ->. apply H. reflexivity. Qed.

Lemma not_numeric (s : string) :
  trim s <> "" -> StringToNumber s = NaN ->
  loadUserCSV_value ref (Some s)
  = if isDateString (VStr s) then VDate ref (Date_parse s) else VStr (trim s).
Proof.
  intros Ht Hn. unfold loadUserCSV_value.
  destruct (String.eqb_spec s ""); [exfalso; exact (@trim_nonempty s Ht e) |].
  destruct (String.eqb_spec (trim s) ""); [contradiction |].
  cbn [orb]. unfold isNaN. cbn [ToNumber]. rewrite Hn. reflexivity.
Qed.

(** C4 (amended): a null, empty or white-space-only value becomes
    null; a value whose trimmed form is a decimal numeric literal
    (signed [Infinity] included) becomes the number it denotes, whether
    or not it looks like a date; a value that [Number] does not read,
    that matches one of the four date patterns and that [Date.parse]
    reads becomes that [Date]; a value that [Number] does not read and
    that is no such date becomes its trimmed string.  So [""], ["   "]
    and null give null, ["42"] gives 42, ["2023"] gives the number 2023,
    ["hello"] gives ["hello"], and ["2023-01-15"] gives a [Date] on every
    host that reads it. *)
Theorem coerce_cases :
  loadUserCSV_value ref None = VNull
  /\ (forall s, trim s = "" -> loadUserCSV_value ref (Some s) = VNull)
  /\ (forall s v, denotes (trim s) v -> loadUserCSV_value ref (Some s) = VNum v)
  /\ (forall s, trim s <> "" -> StringToNumber s = NaN ->
                date_shaped s = true -> Date_parse s <> NaN ->
                loadUserCSV_value ref (Some s) = VDate ref (Date_parse s))
  /\ (forall s, trim s <> "" -> StringToNumber s = NaN ->
                date_shaped s = false \/ Date_parse s = NaN ->
                loadUserCSV_value ref (Some s) = VStr (trim s))
  /\ loadUserCSV_value ref (Some "") = VNull
  /\ loadUserCSV_value ref (Some "   ") = VNull
  /\ loadUserCSV_value ref (Some "42") = VNum (Fin 42)
  /\ loadUserCSV_value ref (Some "2023") = VNum (Fin 2023)
  /\ loadUserCSV_value ref (Some "hello") = VStr "hello"
  /\ (Date_parse "2023-01-15" <> NaN ->
      loadUserCSV_value ref (Some "2023-01-15")
      = VDate ref (Date_parse "2023-01-15")).
Proof.
  assert (D : forall s, trim s <> "" -> StringToNumber s = NaN ->
                date_shaped s = true -> Date_parse s <> NaN ->
                loadUserCSV_value ref (Some s) = VDate ref (Date_parse s)).
  { intros s Ht Hn Hd Hp. rewrite (@not_numeric s Ht Hn). unfold isDateString.
    destruct (String.eqb_spec s ""); [exfalso; exact (@trim_nonempty s Ht e) |].
    fold (date_shaped s). rewrite Hd.
    destruct (Date_parse s); [congruence | reflexivity | reflexivity]. }
  assert (N : forall s v, denotes (trim s) v ->
                          loadUserCSV_value ref (Some s) = VNum v).
  { intros s v Hd. destruct (@decimal_reads s v Hd) as [E1 E2].
    pose proof (@denotes_not_NaN (trim s) v Hd) as Hv.
    unfold loadUserCSV_value.
    destruct (String.eqb_spec s "") as [-> | _]; [discriminate |].
    destruct (String.eqb_spec (trim s) "") as [E | _];
      [rewrite E in Hd; discriminate |].
    cbn [orb]. unfold isNaN, parseFloat. cbn [ToNumber ToString].
    rewrite E1, E2. destruct v; [congruence | reflexivity | reflexivity]. }
  split; [reflexivity |].
  split.
  { intros s Ht. unfold loadUserCSV_value. rewrite Ht.
    cbn [String.eqb]. rewrite orb_true_r. reflexivity. }
  split; [exact N |]. split; [exact D |].
  split.
  { intros s Ht Hn Hd. rewrite (@not_numeric s Ht Hn). unfold isDateString.
    destruct (String.eqb s ""); [reflexivity |]. fold (date_shaped s).
    destruct Hd as [-> | ->]; [reflexivity |]. rewrite andb_false_r. reflexivity. }
  split; [reflexivity |]. split; [reflexivity |].
  split; [apply N; reflexivity |]. split; [apply N; reflexivity |].
  split; [reflexivity |].
  intros Hp. apply D; [discriminate | reflexivity | reflexivity | exact Hp].
Qed.
End WithHost.

(** C4, as stated, fails: the text [Infinity] is no finite number and no
    date, yet it becomes the number [Infinity] and not a string; and the
    text [0x10], which [Number] reads to its end as 16, becomes 0. *)
Lemma coerce_non_decimal_literals :
  StringToNumber (trim "Infinity") = Inf false
  /\ date_shaped "Infinity" = false
  /\ loadUserCSV_value (host := RefHost.host) 1 (Some "Infinity") = VNum (Inf false)
  /\ loadUserCSV_value (host := RefHost.host) 1 (Some "Infinity") <> VStr "Infinity"
  /\ StringToNumber (trim "0x10") = Fin 16
  /\ loadUserCSV_value (host := RefHost.host) 1 (Some "0x10") = VNum (Fin 0)
  /\ loadUserCSV_value (host := RefHost.host) 1 (Some "0x10") <> VNum (Fin 16).
Proof. repeat split; try reflexivity; discriminate. Qed.

(** The theorem at a padded decimal text and at the date of the
    specification. *)
Lemma coerce_cases_witness :
  loadUserCSV_value (host := RefHost.host) 1 (Some " 4.5e1 ") = VNum (Fin 45)
  /\ loadUserCSV_value (host := RefHost.host) 1 (Some "2023-01-15")
     = VDate 1 (Fin 1673740800000)
  /\ loadUserCSV_value (host := RefHost.host) 1 (Some " n/a ") = VStr "n/a".
Proof.
  pose proof (coerce_cases (host := RefHost.host) 1)
    as (_ & _ & N & D & S & _).
  split; [apply N; reflexivity |].
  split.
  - apply (D "2023-01-15"); [discriminate | reflexivity | reflexivity | discriminate].
  - apply (S " n/a "); [discriminate | reflexivity | left; reflexivity].
Defined.

End CoerceFacts.

(* ------------------------------------------------------------------ *)
(** ** Heat map: the matrix fill *)

Module HeatmapFacts.
Import Heatmap HeatmapSpec.
Local Open Scope string_scope.
Local Open Scope list_scope.

Section WithHost.
Context {host : Host}.
Variable options : Options.

Lemma ignorable_unusable (d : Record) :
  ignorable options d -> usable options d = false.
Proof.
  unfold ignorable, missing, usable.
  intros [[H | H] | [[H | H] | [[H | H] | H]]]; rewrite H; cbn;
    rewrite ?andb_false_r; reflexivity.
Qed.

Lemma step_ignorable (acc : Acc) (d : Record) :
  ignorable options d -> step options acc d = acc.
Proof. intros H. unfold step. rewrite (ignorable_unusable H). reflexivity. Qed.

Lemma collect_ignorable (l1 l2 : list Record) (d : Record) :
  ignorable options d ->
  collect options (l1 ++ d :: l2) = collect options (l1 ++ l2).
Proof.
  intros H. unfold collect. rewrite !fold_left_app. cbn [fold_left].
  rewrite (step_ignorable _ H). reflexivity.
Qed.

Lemma processData_collect (data : list Record) (this : State) :
  let acc := collect options data in
  let st := processData options data this in
  processedData st = map (fun kv => averaged (snd kv)) (matrix acc)
  /\ matrixData st
     = flat_map (fun yVal =>
                   map (fun xVal => cell (matrix acc) xVal yVal)
                       (Array_sort default_compare (xSet acc)))
                (Array_sort default_compare (ySet acc))
  /\ (data <> [] ->
      xCategories st = Array_sort default_compare (xSet acc)
      /\ yCategories st = Array_sort default_compare (ySet acc)).
Proof.
  destruct data as [|d data]; cbn zeta.
  - split; [reflexivity |]. split; [reflexivity |]. intros H. congruence.
  - split; [reflexivity |]. split; [reflexivity |]. intros _. split; reflexivity.
Qed.

(** C10: a record without an x or y value, or whose value entry is
    null, undefined or [NaN], is skipped by the grouping loop: it leaves
    the sums, the counts and the two sets of categories as they are, so
    the output with it is the output without it. *)
Theorem heatmap_ignores_incomplete_records (d : Record) :
  ignorable options d ->
  (forall acc, step options acc d = acc)
  /\ forall (l1 l2 : list Record) (this : State),
       let st := processData options (l1 ++ d :: l2) this in
       let st' := processData options (l1 ++ l2) this in
       collect options (l1 ++ d :: l2) = collect options (l1 ++ l2)
       /\ processedData st = processedData st'
       /\ matrixData st = matrixData st'
       /\ (l1 ++ l2 <> [] ->
           xCategories st = xCategories st' /\ yCategories st = yCategories st').
Proof.
  intros H. split; [intros acc; apply step_ignorable, H |].
  intros l1 l2 this. cbn zeta.
  pose proof (processData_collect (l1 ++ d :: l2) this) as (P & M & C).
  pose proof (processData_collect (l1 ++ l2) this) as (P' & M' & C').
  rewrite (collect_ignorable l1 l2 H) in P, M, C.
  split; [apply collect_ignorable, H |].
  split; [congruence |]. split; [congruence |].
  intros Hne. destruct (C' Hne) as [X' Y'].
  destruct C as [X Y]; [destruct l1; discriminate |].
  split; congruence.
Qed.

(** The complete matrix has one cell for each pair of an x category and
    a y category. *)
Lemma matrixData_length (data : list Record) (this : State) :
  data <> [] ->
  let st := processData options data this in
  List.length (matrixData st)
  = (List.length (xCategories st) * List.length (yCategories st))%nat.
Proof.
  intros Hne. cbn zeta.
  destruct (processData_collect data this) as (_ & M & C).
  destruct (C Hne) as [-> ->]. rewrite M.
  generalize (Array_sort default_compare (ySet (collect options data))).
  induction l as [|yv l IH]; simpl; [lia |].
  rewrite length_app, length_map, IH. lia.
Qed.
End WithHost.

(** The theorem at a record whose value is [NaN]. *)
Lemma heatmap_ignores_incomplete_records_witness :
  let d := [("x", VStr "a"); ("y", VStr "b"); ("value", VNum NaN)] in
  ignorable xyv d
  /\ matrixData (processData (host := RefHost.host) xyv
                   ([reading "a" "c" 1] ++ d :: [reading "e" "c" 2]) blank)
     = matrixData (processData (host := RefHost.host) xyv
                     ([reading "a" "c" 1] ++ [reading "e" "c" 2]) blank).
Proof.
  cbv zeta.
  assert (I : ignorable xyv [("x", VStr "a"); ("y", VStr "b"); ("value", VNum NaN)])
    by (right; right; right; reflexivity).
  split; [exact I |].
  apply (proj2 (heatmap_ignores_incomplete_records (host := RefHost.host) I)).
Defined.

(** C2 fails when two pairs print to the same key: the records
    [("a|b", "c", 1)] and [("a", "b|c", 3)] are both filed under
    ["a|b|c"], so the two observed cells carry the merged average 2 with
    count 2 instead of 1 and 3 with count 1, and only one pair is
    reported in [processedData]. *)
Theorem heatmap_key_collision (host : Host) :
  let st := processData xyv [reading "a|b" "c" 1; reading "a" "b|c" 3] blank in
  map shown (matrixData st)
  = [ (VStr "a", VStr "b|c", Fin 2, 2%nat);
      (VStr "a|b", VStr "b|c", Fin 0, 0%nat);
      (VStr "a", VStr "c", Fin 0, 0%nat);
      (VStr "a|b", VStr "c", Fin 2, 2%nat) ]
  /\ map shown (processedData st) = [ (VStr "a|b", VStr "c", Fin 2, 2%nat) ].
Proof. split; reflexivity. Qed.

End HeatmapFacts.

(** *** The matrix when keys identify pairs *)

Module MatrixFacts.
Import Heatmap HeatmapSpec MatrixSpec.
Local Open Scope string_scope.
Local Open Scope list_scope.

Lemma nsum_snoc (l : list num) (v : num) : nsum (l ++ [v]) = nadd (nsum l) v.
Proof. unfold nsum. rewrite fold_left_app. reflexivity. Qed.

Lemma lookup_accumulate (m : Matrix) (key k : string) (xVal yVal : Cell)
      (v : num) (d : Record) :
  lookup (accumulate m key xVal yVal v d) k
  = if String.eqb key k then
      Some match lookup m key with
           | Some e => {| x := x e; y := y e; value := nadd (value e) v;
                          count := count e + 1;
                          originalData := originalData e ++ [d] |}
           | None => {| x := xVal; y := yVal; value := nadd (Fin 0) v;
                        count := 1; originalData := [d] |}
           end
    else lookup m k.
Proof.
  induction m as [|[k0 e] m IH]; cbn [accumulate lookup].
  - destruct (String.eqb key k); reflexivity.
  - destruct (String.eqb_spec k0 key) as [-> | Hne]; cbn [lookup].
    + destruct (String.eqb key k); reflexivity.
    + rewrite IH. destruct (String.eqb_spec key k) as [<- | Hk].
      * destruct (String.eqb_spec k0 key); [contradiction | reflexivity].
      * reflexivity.
Qed.

Lemma Set_of_snoc (l : list Cell) (v : Cell) :
  Set_of (l ++ [v]) = Set_add (Set_of l) v.
Proof. unfold Set_of. rewrite fold_left_app. reflexivity. Qed.

Lemma Set_has_add (s : list Cell) (a v : Cell) :
  Set_has (Set_add s a) v = Set_has s v || SameValueZero v a.
Proof.
  unfold Set_add. destruct (Set_has s a) eqn:E.
  - destruct (SameValueZero v a) eqn:V; [| rewrite orb_false_r; reflexivity].
    rewrite orb_true_r. unfold Set_has in *.
    apply existsb_exists in E as [k [Hk E]]. apply existsb_exists.
    exists k. split; [exact Hk |]. apply (SameValueZero_trans _ _ _ V E).
  - unfold Set_has. rewrite existsb_app. cbn [existsb]. rewrite orb_false_r.
    reflexivity.
Qed.

Lemma Set_has_of (l : list Cell) (v : Cell) :
  Set_has (Set_of l) v = existsb (SameValueZero v) l.
Proof.
  induction l as [|a l IH] using rev_ind; [reflexivity |].
  rewrite Set_of_snoc, Set_has_add, IH, existsb_app. cbn [existsb].
  rewrite orb_false_r. reflexivity.
Qed.

Lemma In_Set_of (l : list Cell) (v : Cell) : In v (Set_of l) -> In v l.
Proof.
  induction l as [|a l IH] using rev_ind; [intros [] |].
  rewrite Set_of_snoc. unfold Set_add. intros H. apply in_or_app.
  destruct (Set_has (Set_of l) a); [left; apply IH, H |].
  apply in_app_or in H as [H | H]; [left; apply IH, H | right; exact H].
Qed.

Lemma Set_of_distinct (l : list Cell) :
  ForallOrdPairs (fun a b => SameValueZero a b = false) (Set_of l).
Proof.
  induction l as [|a l IH] using rev_ind; [constructor |].
  rewrite Set_of_snoc. unfold Set_add.
  destruct (Set_has (Set_of l) a) eqn:E; [exact IH |].
  assert (F : Forall (fun k => SameValueZero k a = false) (Set_of l)).
  { apply Forall_forall. intros k Hk.
    destruct (SameValueZero k a) eqn:K; [| reflexivity].
    rewrite SameValueZero_sym in K.
    assert (T : Set_has (Set_of l) a = true)
      by (apply existsb_exists; exists k; auto).
    congruence. }
  revert F. generalize (Set_of l) IH. clear.
  induction 1 as [|k s Hk Hs IH]; intros F.
  - repeat constructor.
  - inversion F; subst. constructor; [| apply IH; assumption].
    apply Forall_app. split; [exact Hk | repeat constructor; assumption].
Qed.

Section WithHost.
Context {host : Host}.
Variable options : Options.

Lemma printed_le_trans (a b c : Cell) :
  printed_le a b -> printed_le b c -> printed_le a c.
Proof.
  unfold printed_le.
  generalize (ToString a) (ToString b) (ToString c). intros s t u H1 H2.
  assert (L : forall p q, String.compare p q <> Gt ->
                          String_as_OT.lt p q \/ p = q).
  { intros p q H. destruct (String.compare p q) eqn:E; [| | congruence].
    - right. apply String_as_OT.cmp_eq, E.
    - left. apply String_as_OT.cmp_lt, E. }
  assert (G : String_as_OT.lt s u \/ s = u).
  { destruct (L s t H1) as [A | ->], (L t u H2) as [B | ->]; auto.
    left. eapply String_as_OT.lt_trans; eassumption. }
  destruct G as [G | ->].
  - apply String_as_OT.cmp_lt in G. unfold String_as_OT.cmp in G. congruence.
  - assert (E : String.compare u u = Eq) by (apply String_as_OT.cmp_eq; reflexivity).
    congruence.
Qed.

Lemma default_sorted (l : list Cell) :
  StronglySorted printed_le (Array_sort default_compare l).
Proof.
  apply Array_sort_sorted with (P := fun _ : Cell => True).
  - intros a b c _ _ _. apply printed_le_trans.
  - intros a b _ _. unfold default_compare, printed_le.
    destruct (String.compare (ToString a) (ToString b)); cbn; congruence.
  - intros a b _ _. unfold default_compare, printed_le.
    pose proof (String_as_OT.cmp_antisym (ToString b) (ToString a)) as S.
    unfold String_as_OT.cmp in S. rewrite S.
    destruct (String.compare (ToString a) (ToString b)); cbn; congruence.
  - apply Forall_forall. auto.
Qed.

(** The sorted categories are the distinct values. *)
Lemma categories_spec (values : list Cell) :
  categories_of values (Array_sort default_compare (Set_of values)).
Proof.
  split; [apply default_sorted |]. split.
  - apply pairs_perm with (l := Set_of values).
    + intros a b H. rewrite SameValueZero_sym. exact H.
    + symmetry. apply Array_sort_perm.
    + apply Set_of_distinct.
  - intros v. rewrite <- Set_has_of. unfold Set_has.
    rewrite !existsb_exists.
    split; intros [k [Hk E]]; exists k; (split; [| exact E]).
    + apply Array_sort_In in Hk. exact Hk.
    + apply Array_sort_In. exact Hk.
Qed.

Lemma observed_snoc (data : list Record) (d : Record) :
  observed options (data ++ [d])
  = observed options data ++ (if usable options d then [d] else []).
Proof. unfold observed. rewrite filter_app. reflexivity. Qed.

Lemma collect_snoc (data : list Record) (d : Record) :
  collect options (data ++ [d]) = step options (collect options data) d.
Proof. unfold collect. rewrite fold_left_app. reflexivity. Qed.

(** What the grouping loop has collected. *)
Lemma collect_spec (data : list Record) :
  let acc := collect options data in
  xSet acc = Set_of (map (fun d => get d (xField options)) (observed options data))
  /\ ySet acc = Set_of (map (fun d => get d (yField options)) (observed options data))
  /\ forall k, lookup (matrix acc) k = filed options k (observed options data).
Proof.
  induction data as [|d data (IHx & IHy & IHm)] using rev_ind; cbv zeta.
  - repeat split.
  - rewrite collect_snoc, observed_snoc. unfold step.
    destruct (usable options d); [| rewrite app_nil_r; auto].
    cbn [xSet ySet matrix]. rewrite !map_app. cbn [map].
    rewrite !Set_of_snoc, IHx, IHy. split; [reflexivity |]. split; [reflexivity |].
    intros k. rewrite lookup_accumulate, !IHm. unfold filed.
    rewrite !filter_app. cbn [List.filter].
    destruct (String.eqb_spec
                (key_of (get d (xField options)) (get d (yField options))) k)
      as [<- | Hk]; [| rewrite app_nil_r; reflexivity].
    destruct (List.filter _ (observed options data)) as [|d0 rs]; cbn [app].
    + reflexivity.
    + f_equal. cbn [x y value count originalData].
      change (d0 :: rs ++ [d]) with ((d0 :: rs) ++ [d]).
      rewrite map_app. cbn [map]. rewrite nsum_snoc, length_app.
      cbn [map List.length]. reflexivity.
Qed.

Lemma cell_pair (data : list Record) (xVal yVal : Cell) :
  keys_faithful options data ->
  In xVal (xSet (collect options data)) ->
  In yVal (ySet (collect options data)) ->
  cell (matrix (collect options data)) xVal yVal
  = pair_cell options data xVal yVal.
Proof.
  intros K Hx Hy.
  destruct (collect_spec data) as (Ex & Ey & Em).
  rewrite Ex in Hx. rewrite Ey in Hy.
  apply In_Set_of, in_map_iff in Hx as [d1 [<- H1]].
  apply In_Set_of, in_map_iff in Hy as [d2 [<- H2]].
  unfold cell, pair_cell. rewrite Em. unfold filed, of_pair.
  rewrite (filter_ext_in
             (fun d => String.eqb (key_of (get d (xField options))
                                          (get d (yField options)))
                                  (key_of (get d1 (xField options))
                                          (get d2 (yField options))))
             (fun d => SameValueZero (get d (xField options))
                                     (get d1 (xField options))
                       && SameValueZero (get d (yField options))
                                        (get d2 (yField options)))).
  - destruct (List.filter _ (observed options data)); reflexivity.
  - intros d Hd. apply eq_true_iff_eq.
    rewrite String.eqb_eq, andb_true_iff, <- (K d1 d2 d H1 H2 Hd).
    split; congruence.
Qed.

(** X22: the matrix fill when the key identifies the pair: one cell for
    each pair of an x category and a y category, in rows of ascending y
    and ascending x within a row; the cell of an observed pair carries
    the average of its value entries and their number, any other cell 0
    and 0. *)
Lemma heatmap_matrix_fill (data : list Record) (this : State) :
  data <> [] -> keys_faithful options data ->
  let st := processData options data this in
  categories_of (map (fun d => get d (xField options)) (observed options data))
                (xCategories st)
  /\ categories_of (map (fun d => get d (yField options)) (observed options data))
                   (yCategories st)
  /\ matrixData st
     = flat_map (fun yVal => map (fun xVal => pair_cell options data xVal yVal)
                                 (xCategories st))
                (yCategories st)
  /\ List.length (matrixData st)
     = (List.length (xCategories st) * List.length (yCategories st))%nat.
Proof.
  intros Hne K. cbv zeta.
  destruct (HeatmapFacts.processData_collect options data this) as (_ & M & C).
  destruct (C Hne) as [X Y].
  destruct (collect_spec data) as (Ex & Ey & _).
  split; [rewrite X, Ex; apply categories_spec |].
  split; [rewrite Y, Ey; apply categories_spec |].
  split; [| apply HeatmapFacts.matrixData_length; exact Hne].
  rewrite M, X, Y.
  assert (F : forall (l : list Cell),
             (forall yVal, In yVal l -> In yVal (ySet (collect options data))) ->
             flat_map (fun yVal =>
                         map (fun xVal => cell (matrix (collect options data)) xVal yVal)
                             (Array_sort default_compare (xSet (collect options data))))
                      l
             = flat_map (fun yVal =>
                           map (fun xVal => pair_cell options data xVal yVal)
                               (Array_sort default_compare (xSet (collect options data))))
                        l).
  { induction l as [|yv l IH]; intros H; cbn [flat_map]; [reflexivity |].
    rewrite IH by (intros z Hz; apply H; right; exact Hz). f_equal.
    apply map_ext_in. intros xv Hxv. apply cell_pair; [exact K | |].
    - apply Array_sort_In in Hxv. exact Hxv.
    - apply H. left. reflexivity. }
  apply F. intros yv Hyv. apply Array_sort_In in Hyv. exact Hyv.
Qed.
End WithHost.

(** The matrix of three readings in two pairs. *)
Example heatmap_matrix_fill_example :
  let data := [reading "a" "c" 1; reading "b" "d" 5; reading "a" "c" 3] in
  keys_faithful (host := RefHost.host) xyv data
  /\ map shown (matrixData (processData (host := RefHost.host) xyv data blank))
     = [ (VStr "a", VStr "c", Fin 2, 2%nat); (VStr "b", VStr "c", Fin 0, 0%nat);
         (VStr "a", VStr "d", Fin 0, 0%nat); (VStr "b", VStr "d", Fin 5, 1%nat) ].
Proof.
  cbv zeta. split; [| reflexivity].
  intros d1 d2 d3 H1 H2 H3. cbn in H1, H2, H3.
  repeat (destruct H1 as [<- | H1]; [| try contradiction]);
    repeat (destruct H2 as [<- | H2]; [| try contradiction]);
    repeat (destruct H3 as [<- | H3]; [| try contradiction]);
    cbn; split; intros H; try discriminate; try (destruct H; discriminate);
    auto.
Qed.

End MatrixFacts.

(* ------------------------------------------------------------------ *)
(** ** Utils: the summary statistics *)

Module StatsFacts.
Import Utils StatsSpec.
Local Open Scope list_scope.


(** The least and the greatest of a list of rationals, from a start. *)
Lemma Math_min_from (l : list Cell) (m : Q) :
  Forall (fun d => valid d = true /\ is_inf (ToNumber d) = false) l ->
  exists lo,
    fold_left (fun m v => nmin m (ToNumber v)) l (Fin m) = Fin lo
    /\ (lo = m \/ In lo (map (fun d => qof (ToNumber d)) l))
    /\ lo <= m
    /\ forall q, In q (map (fun d => qof (ToNumber d)) l) -> lo <= q.
Proof.
  revert m. induction l as [|d l IH]; intros m H.
  - exists m. cbn. repeat split; auto; try lra. intros q [].
  - inversion H as [|? ? [V F] H']; subst.
    unfold valid, isNaN in V.
    destruct (ToNumber d) as [|s|q] eqn:E; cbn in V, F; try discriminate.
    cbn [fold_left]. rewrite E. cbn [nmin nltb ngtb].
    destruct (Qcompare_spec m q) as [C|C|C].
    + destruct (IH m H') as (lo & E1 & I1 & L1 & B1). exists lo.
      split; [exact E1 |]. cbn [map]. rewrite E. cbn [qof].
      split; [destruct I1; [left | right; right]; assumption |].
      split; [exact L1 |].
      intros q' [<- | Hq]; [rewrite <- C; exact L1 | auto].
    + destruct (IH m H') as (lo & E1 & I1 & L1 & B1). exists lo.
      split; [exact E1 |]. cbn [map]. rewrite E. cbn [qof].
      split; [destruct I1; [left | right; right]; assumption |].
      split; [exact L1 |].
      intros q' [<- | Hq]; [lra | auto].
    + destruct (IH q H') as (lo & E1 & I1 & L1 & B1). exists lo.
      split; [exact E1 |]. cbn [map]. rewrite E. cbn [qof].
      split; [right; destruct I1; [left; congruence | right; assumption] |].
      split; [lra |].
      intros q' [<- | Hq]; [exact L1 | auto].
Qed.

Lemma Math_max_from (l : list Cell) (m : Q) :
  Forall (fun d => valid d = true /\ is_inf (ToNumber d) = false) l ->
  exists hi,
    fold_left (fun m v => nmax m (ToNumber v)) l (Fin m) = Fin hi
    /\ (hi = m \/ In hi (map (fun d => qof (ToNumber d)) l))
    /\ m <= hi
    /\ forall q, In q (map (fun d => qof (ToNumber d)) l) -> q <= hi.
Proof.
  revert m. induction l as [|d l IH]; intros m H.
  - exists m. cbn. repeat split; auto; try lra. intros q [].
  - inversion H as [|? ? [V F] H']; subst.
    unfold valid, isNaN in V.
    destruct (ToNumber d) as [|s|q] eqn:E; cbn in V, F; try discriminate.
    cbn [fold_left]. rewrite E. cbn [nmax ngtb].
    destruct (Qcompare_spec q m) as [C|C|C].
    + destruct (IH m H') as (hi & E1 & I1 & L1 & B1). exists hi.
      split; [exact E1 |]. cbn [map]. rewrite E. cbn [qof].
      split; [destruct I1; [left | right; right]; assumption |].
      split; [exact L1 |].
      intros q' [<- | Hq]; [rewrite C; exact L1 | auto].
    + destruct (IH m H') as (hi & E1 & I1 & L1 & B1). exists hi.
      split; [exact E1 |]. cbn [map]. rewrite E. cbn [qof].
      split; [destruct I1; [left | right; right]; assumption |].
      split; [exact L1 |].
      intros q' [<- | Hq]; [lra | auto].
    + destruct (IH q H') as (hi & E1 & I1 & L1 & B1). exists hi.
      split; [exact E1 |]. cbn [map]. rewrite E. cbn [qof].
      split; [right; destruct I1; [left; congruence | right; assumption] |].
      split; [lra |].
      intros q' [<- | Hq]; [exact L1 | auto].
Qed.

Lemma Math_min_spec (l : list Cell) :
  l <> [] ->
  Forall (fun d => valid d = true /\ is_inf (ToNumber d) = false) l ->
  exists lo,
    Math_min l = Fin lo
    /\ In lo (map (fun d => qof (ToNumber d)) l)
    /\ forall q, In q (map (fun d => qof (ToNumber d)) l) -> lo <= q.
Proof.
  destruct l as [|d l]; [congruence |]. intros _ H.
  inversion H as [|? ? [V F] H']; subst.
  unfold valid, isNaN in V. unfold Math_min.
  destruct (ToNumber d) as [|s|q] eqn:E; cbn in V, F; try discriminate.
  cbn [fold_left]. rewrite E. cbn [nmin nltb ngtb].
  destruct (Math_min_from q H') as (lo & E1 & I1 & L1 & B1). exists lo.
  split; [exact E1 |]. cbn [map]. rewrite E. cbn [qof].
  split; [destruct I1; [left; congruence | right; assumption] |].
  intros q' [<- | Hq]; [exact L1 | auto].
Qed.

Lemma Math_max_spec (l : list Cell) :
  l <> [] ->
  Forall (fun d => valid d = true /\ is_inf (ToNumber d) = false) l ->
  exists hi,
    Math_max l = Fin hi
    /\ In hi (map (fun d => qof (ToNumber d)) l)
    /\ forall q, In q (map (fun d => qof (ToNumber d)) l) -> q <= hi.
Proof.
  destruct l as [|d l]; [congruence |]. intros _ H.
  inversion H as [|? ? [V F] H']; subst.
  unfold valid, isNaN in V. unfold Math_max.
  destruct (ToNumber d) as [|s|q] eqn:E; cbn in V, F; try discriminate.
  cbn [fold_left]. rewrite E. cbn [nmax ngtb].
  destruct (Math_max_from q H') as (hi & E1 & I1 & L1 & B1). exists hi.
  split; [exact E1 |]. cbn [map]. rewrite E. cbn [qof].
  split; [destruct I1; [left; congruence | right; assumption] |].
  intros q' [<- | Hq]; [exact L1 | auto].
Qed.

Lemma calculateStats_eq {host : Host} (data : list Cell) :
  List.filter valid data <> [] ->
  calculateStats data
  = let validData := List.filter valid data in
    let sorted :=
      Array_sort (fun a b => nsub (ToNumber a) (ToNumber b)) validData in
    let count := List.length validData in
    let sum := fold_left js_add validData (VNum (Fin 0)) in
    {| min := Math_min validData;
       max := Math_max validData;
       mean := ndiv (ToNumber sum) (of_nat count);
       median :=
         if (count mod 2 =? 0)%nat then
           VNum (ndiv (ToNumber (js_add (nth (count / 2 - 1) sorted VUndefined)
                                        (nth (count / 2) sorted VUndefined)))
                      (Fin 2))
         else nth (count / 2) sorted VUndefined;
       count := count;
       sum := Some sum |}.
Proof.
  intros H. unfold calculateStats.
  destruct data as [|d data]; [cbn in H; congruence |].
  destruct (List.filter valid (d :: data)); [congruence | reflexivity].
Qed.

Lemma valid_filter (data : list Cell) :
  Forall (fun d => valid d = true) (List.filter valid data).
Proof. apply Forall_forall. intros d H. apply filter_In in H. tauto. Qed.

Lemma finite_filter (data : list Cell) :
  Forall (fun d => is_inf (ToNumber d) = false) data ->
  Forall (fun d => valid d = true /\ is_inf (ToNumber d) = false)
         (List.filter valid data).
Proof.
  intros H. apply Forall_forall. intros d Hd. apply filter_In in Hd as [I V].
  rewrite Forall_forall in H. auto.
Qed.

(** X1: when no value is an infinity and some value is valid (not
    null, undefined or [NaN] after coercion), [min] and [max] of
    [calculateStats] are the least and the greatest of the valid values:
    both occur among them and every valid value lies between them. *)
Theorem stats_extremes {host : Host} (data : list Cell) :
  Forall (fun d => is_inf (ToNumber d) = false) data ->
  numbers data <> [] ->
  exists lo hi,
    min (calculateStats data) = Fin lo /\ max (calculateStats data) = Fin hi
    /\ In lo (numbers data) /\ In hi (numbers data)
    /\ forall q, In q (numbers data) -> lo <= q <= hi.
Proof.
  intros F N.
  assert (V : List.filter valid data <> []).
  { intros E. apply N. unfold numbers. rewrite E. reflexivity. }
  rewrite (calculateStats_eq _ V). cbn zeta. cbn [min max].
  destruct (Math_min_spec V (finite_filter F)) as (lo & E1 & I1 & B1).
  destruct (Math_max_spec V (finite_filter F)) as (hi & E2 & I2 & B2).
  exists lo, hi. unfold numbers. repeat split; auto.
Qed.

(** The theorem at six values, four of them valid. *)
Lemma stats_extremes_witness :
  exists lo hi,
    min (calculateStats (host := RefHost.host) readings) = Fin lo
    /\ max (calculateStats (host := RefHost.host) readings) = Fin hi
    /\ In lo (numbers readings) /\ In hi (numbers readings)
    /\ forall q, In q (numbers readings) -> lo <= q <= hi.
Proof.
  apply (stats_extremes (host := RefHost.host)).
  - repeat constructor.
  - vm_compute. discriminate.
Defined.









(** *** The median *)








(** *** Text among the values *)

Lemma js_add_text_left {host : Host} (s : string) (b : Cell) :
  exists t, js_add (VStr s) b = VStr t.
Proof. destruct b; eexists; reflexivity. Qed.

Lemma js_add_text_right {host : Host} (a b : Cell) :
  textual b = true -> exists t, js_add a b = VStr t.
Proof. destruct a, b; cbn; try discriminate; intros _; eexists; reflexivity. Qed.

Lemma sum_text_from {host : Host} (l : list Cell) (s : string) :
  exists t, fold_left js_add l (VStr s) = VStr t.
Proof.
  revert s. induction l as [|d l IH]; intros s; [eexists; reflexivity |].
  cbn [fold_left]. destruct (js_add_text_left s d) as [t ->]. apply IH.
Qed.

Lemma sum_text {host : Host} (l : list Cell) (acc : Cell) :
  (exists d, In d l /\ textual d = true) ->
  exists t, fold_left js_add l acc = VStr t.
Proof.
  revert acc. induction l as [|d l IH]; intros acc (e & He & T); [destruct He |].
  cbn [fold_left]. destruct (textual d) eqn:Td.
  - destruct (js_add_text_right acc d Td) as [t ->]. apply sum_text_from.
  - apply IH. exists e. split; [| exact T].
    destruct He as [<- | He]; [congruence | exact He].
Qed.

Lemma sum_number {host : Host} (l : list Cell) (n : num) :
  (forall d, In d l -> textual d = false) ->
  exists m, fold_left js_add l (VNum n) = VNum m.
Proof.
  revert n. induction l as [|d l IH]; intros n H; [eexists; reflexivity |].
  cbn [fold_left].
  assert (E : js_add (VNum n) d = VNum (nadd n (ToNumber d))).
  { pose proof (H d (or_introl eq_refl)) as T.
    destruct d; cbn in T |- *; try discriminate; reflexivity. }
  rewrite E. apply IH. intros e He. apply H. right. exact He.
Qed.

(** X4: [sum] is built with [+]: as soon as one valid value is a
    string or a [Date] (a blank string is valid, it coerces to 0) the
    sum is a text, the concatenation of printed forms, not a number; it
    is a number exactly when no valid value is of that kind. *)
Theorem stats_sum_of_text {host : Host} (data : list Cell) :
  ((exists d, In d data /\ valid d = true /\ textual d = true) ->
   exists t, sum (calculateStats data) = Some (VStr t))
  /\ (List.filter valid data <> [] ->
      (forall d, In d data -> valid d = true -> textual d = false) ->
      exists n, sum (calculateStats data) = Some (VNum n)).
Proof.
  split.
  - intros (d & Hd & V & T).
    assert (F : List.filter valid data <> []).
    { intros E. assert (I : In d (List.filter valid data))
        by (apply filter_In; auto).
      rewrite E in I. destruct I. }
    rewrite (calculateStats_eq _ F). cbn zeta. cbn [sum].
    destruct (@sum_text host (List.filter valid data) (VNum (Fin 0))) as [t ->];
      [| eexists; reflexivity].
    exists d. split; [apply filter_In; auto | exact T].
  - intros F H. rewrite (calculateStats_eq _ F). cbn zeta. cbn [sum].
    destruct (@sum_number host (List.filter valid data) (Fin 0)) as [m ->];
      [| eexists; reflexivity].
    intros d Hd. apply filter_In in Hd as [I V]. auto.
Qed.
End StatsFacts.

(* ------------------------------------------------------------------ *)
(** ** Data loader: cleaning, sorting and the column queries *)

Module DatasetFacts.
Import DataLoader Datasets DatasetSpec.
Local Open Scope string_scope.
Local Open Scope list_scope.

Lemma empties_le (row : Record) : (empties row <= cells row)%nat.
Proof. apply filter_length_le. Qed.

Lemma inject_nat_pos (n : nat) : (0 < n)%nat -> 0 < inject_Z (Z.of_nat n).
Proof. intros H. change 0 with (inject_Z 0). rewrite <- Zlt_Qlt. lia. Qed.

(** The row filter decides the share of empty cells. *)
Lemma complete_filled (t : Q) (row : Record) :
  complete (VNum (Fin t)) row = filled_under t row.
Proof.
  unfold complete, filled_under. fold (empties row) (cells row).
  pose proof (empties_le row) as L.
  unfold js_lt, LessThan. cbn [ToNumber isNaN_num orb]. unfold of_nat, of_Z.
  cbn [ndiv].
  destruct (cells row) as [|n] eqn:C.
  - assert (E : empties row = 0%nat) by lia. rewrite E. reflexivity.
  - pose proof (@inject_nat_pos (S n) ltac:(lia)) as P.
    assert (Z : Qzerob (inject_Z (Z.of_nat (S n))) = false)
      by (apply Qzerob_false; lra).
    rewrite Z. cbn [isNaN_num orb nltb ngtb Nat.ltb Nat.leb andb].
    set (k := inject_Z (Z.of_nat (empties row))) in *.
    set (m := inject_Z (Z.of_nat (S n))) in *.
    assert (E : k == (k / m) * m) by (field; lra).
    destruct (Qcompare_spec t (Qred (k / m))) as [H|H|H];
      rewrite Qred_correct in H.
    + assert (G : Qle_bool (t * m) k = true).
      { apply Qle_bool_iff. rewrite H, <- E. lra. }
      rewrite G. reflexivity.
    + assert (G : Qle_bool (t * m) k = true).
      { apply Qle_bool_iff. rewrite E. apply Qmult_le_compat_r; lra. }
      rewrite G. reflexivity.
    + assert (G : Qle_bool (t * m) k = false).
      { apply not_true_is_false. intros G. apply Qle_bool_iff in G.
        apply (Qmult_lt_r _ _ m P) in H. lra. }
      rewrite G. reflexivity.
Qed.

(** The text of a cell that is all white space matches no date
    pattern. *)
Lemma blank_not_date (s : string) :
  trim s = "" -> CoerceSpec.date_shaped s = false.
Proof.
  destruct s as [|c s]; [reflexivity |]. intros T.
  assert (W : is_ws c = true).
  { destruct (is_ws c) eqn:W; [reflexivity |]. exfalso.
    unfold trim in T. cbn [trimStart] in T. rewrite W in T.
    cbn [trimEnd] in T. rewrite W in T.
    destruct (trimEnd s); discriminate. }
  assert (D : digit_in 10 c = None).
  { apply (@CoerceFacts.blank_head c ""). cbn [CoerceSpec.blank].
    rewrite W. reflexivity. }
  unfold CoerceSpec.date_shaped, datePatterns. cbn [existsb digits repeat List.app pattern_test].
  rewrite D. reflexivity.
Qed.

Section WithHost.
Context {host : Host}.

(** X8: the converter of [loadCSV] and the converter of [loadUserCSV]
    give the same number or the same date for a cell; they differ only
    where [loadUserCSV] gives [null] (a blank cell) or a trimmed string:
    there [loadCSV] keeps the text of the cell as it is, so it never
    produces [null]. *)
Theorem csv_converters_agree (ref : positive) (s : string) :
  loadCSV_value ref s
  = match loadUserCSV_value ref (Some s) with
    | VNull | VStr _ => VStr s
    | v => v
    end.
Proof.
  unfold loadCSV_value, loadUserCSV_value.
  destruct (String.eqb_spec (trim s) "") as [T | T].
  - rewrite orb_true_r, andb_false_r.
    unfold isDateString. destruct (String.eqb s ""); [reflexivity |].
    fold (CoerceSpec.date_shaped s). rewrite (blank_not_date _ T). reflexivity.
  - assert (N : String.eqb s "" = false).
    { apply String.eqb_neq. intros ->. apply T. reflexivity. }
    rewrite N. cbn [orb negb]. rewrite andb_true_r.
    destruct (negb (isNaN (VStr s)) && negb (isNaN_num (parseFloat (VStr s))));
      [reflexivity |].
    destruct (isDateString (VStr s)); reflexivity.
Qed.

(** X9: the conversion of [loadUserJSON] is idempotent: a value that
    was converted is left unchanged by a second conversion. *)
Theorem json_conversion_idempotent (ref ref' : positive) (value : Cell) :
  loadUserJSON_value ref' (loadUserJSON_value ref value)
  = loadUserJSON_value ref value.
Proof.
  destruct value as [| |b|n|s|r t]; try reflexivity.
  cbn [loadUserJSON_value].
  destruct (negb (isNaN (VStr s)) && negb (isNaN_num (parseFloat (VStr s)))
            && negb (String.eqb (trim s) "")) eqn:E; [reflexivity |].
  destruct (isDateString (VStr s)) eqn:D; [reflexivity |].
  cbn [loadUserJSON_value]. rewrite E, D. reflexivity.
Qed.

Lemma sorted_by_column (column : string) (l : list Record) :
  Forall (dated column) l ->
  StronglySorted (not_later column) (Array_sort (by_date column) l).
Proof.
  intros H.
  exact (@LineFacts.sorted_by_date host
           {| LineChart.xField := column; LineChart.yField := "";
              LineChart.groupField := None |} l H).
Qed.

Lemma processed_rows (data : list Record) (options : Options) (t : Q) :
  threshold_of options = Some t ->
  (if truthy (removeIncompleteRows options) then
     List.filter (complete (if truthy (nullThreshold options)
                            then nullThreshold options
                            else VNum (Fin (1 # 2)))) data
   else data)
  = if truthy (removeIncompleteRows options)
    then List.filter (filled_under t) data else data.
Proof.
  intros T. destruct (truthy (removeIncompleteRows options)); [| reflexivity].
  apply filter_ext. intros row. unfold threshold_of in T.
  destruct (nullThreshold options) as [| |b|[|sg|q]|s|r tm];
    cbv beta iota in T; try discriminate;
    injection T as <-; cbn [truthy num_truthy].
  - apply complete_filled.
  - destruct (Qzerob q); cbn [negb]; apply complete_filled.
Qed.

(** X10: [processData] with a threshold [t] in force (one half when
    none or zero is given).  With [removeIncompleteRows] the rows kept
    are those with at least one cell whose share of empty cells (null,
    undefined or the empty string) is below [t]; otherwise all rows are
    kept.  The result is a rearrangement of the kept rows; it is the
    kept rows in their order unless [sortByDate] is set and the first
    kept row has a date column; and then, when that column holds a date
    in every kept row, the result is in ascending order of time. *)
Theorem processData_spec (data : list Record) (options : Options) (t : Q) :
  threshold_of options = Some t ->
  let kept := if truthy (removeIncompleteRows options)
              then List.filter (filled_under t) data else data in
  Permutation (processData data options) kept
  /\ (truthy (sortByDate options) = false \/ findDateColumn kept = None ->
      processData data options = kept)
  /\ (forall column,
         truthy (sortByDate options) = true ->
         findDateColumn kept = Some column ->
         Forall (dated column) kept ->
         StronglySorted (not_later column) (processData data options)).
Proof.
  intros T. cbv zeta. unfold processData. cbv zeta.
  rewrite (processed_rows data options T).
  set (kept := if truthy (removeIncompleteRows options)
               then List.filter (filled_under t) data else data).
  split; [| split].
  - destruct (truthy (sortByDate options)); [| reflexivity].
    destruct (findDateColumn kept); [apply Array_sort_perm | reflexivity].
  - intros [-> | ->]; [reflexivity |].
    destruct (truthy (sortByDate options)); reflexivity.
  - intros column -> -> H. apply sorted_by_column. exact H.
Qed.

(** X11: [getUniqueValues] returns each value of the column that is
    neither null nor undefined exactly once (up to the equality of a
    [Set]), in ascending order of the printed forms. *)
Theorem getUniqueValues_spec (this : This) (column : string)
        (datasetName : option string) :
  MatrixSpec.categories_of
    (non_null_values (getRawData this datasetName) column)
    (getUniqueValues this column datasetName).
Proof. apply MatrixFacts.categories_spec. Qed.

(** X12: [getDataRange] on a column without infinities: when no value
    is valid (not null, undefined or [NaN] after coercion) the range is
    0 to 100; otherwise [min] and [max] are valid values of the column
    and every valid value lies between them. *)
Theorem getDataRange_spec (this : This) (column : string)
        (datasetName : option string) :
  let data := getRawData this datasetName in
  let qs := StatsSpec.numbers (map (fun d => get d column) data) in
  Forall (fun d => is_inf (ToNumber (get d column)) = false) data ->
  (qs = [] ->
   getDataRange this column datasetName = {| min := Fin 0; max := of_Z 100 |})
  /\ (qs <> [] ->
      exists lo hi,
        getDataRange this column datasetName = {| min := Fin lo; max := Fin hi |}
        /\ In lo qs /\ In hi qs
        /\ forall q, In q qs -> lo <= q <= hi).
Proof.
  cbv zeta. intros F. unfold getDataRange, StatsSpec.numbers.
  fold Utils.valid.
  change (fun v : Cell => negb (isNaN v) && negb (nullish v)) with Utils.valid.
  set (values := List.filter Utils.valid
                   (map (fun d => get d column) (getRawData this datasetName))).
  assert (FV : Forall (fun d => Utils.valid d = true /\ is_inf (ToNumber d) = false)
                      values).
  { apply StatsFacts.finite_filter. rewrite Forall_map. exact F. }
  split.
  - intros E. apply map_eq_nil in E. rewrite E. reflexivity.
  - intros N.
    assert (V : values <> []) by (intros E; apply N; rewrite E; reflexivity).
    destruct (StatsFacts.Math_min_spec V FV) as (lo & E1 & I1 & B1).
    destruct (StatsFacts.Math_max_spec V FV) as (hi & E2 & I2 & B2).
    exists lo, hi. rewrite E1, E2.
    destruct values; [congruence |]. repeat split; auto.
Qed.

(** X13: in the summary, [selectedRecords] never exceeds
    [totalRecords]; and when the filters leave no record, the summary
    reports no records at all and the average 0. *)
Theorem summary_counts (this : This) :
  (selectedRecords (getDataSummary this) <= totalRecords (getDataSummary this))%nat
  /\ (getCurrentData this = [] ->
      totalRecords (getDataSummary this) = 0%nat
      /\ averageValue (getDataSummary this) = Fin 0).
Proof.
  unfold getDataSummary.
  destruct (getCurrentData this) as [|d l] eqn:E.
  - cbn. split; [lia | auto].
  - split; [| discriminate]. cbn [selectedRecords totalRecords].
    rewrite <- E. unfold getCurrentData, getRawData in *.
    destruct (currentDataset this) as [name|]; [| discriminate].
    unfold or_else. cbn [given].
    destruct (String.eqb name ""); [discriminate |].
    destruct (Map_get (datasets this) name); [| discriminate].
    apply filter_length_le.
Qed.


(** X7: after [clearFilters] the current data is the raw current
    dataset (for a current dataset whose name is not empty). *)
Theorem clearFilters_raw (this : This) :
  currentDataset this <> Some "" ->
  getCurrentData (clearFilters this) = getRawData this None.
Proof.
  intros H. unfold getCurrentData, getRawData, clearFilters, or_else.
  cbn [currentDataset datasets filters given].
  destruct (currentDataset this) as [name|]; [| reflexivity].
  destruct (String.eqb_spec name "") as [-> | _]; [congruence |].
  destruct (Map_get (datasets this) name) as [data|]; [| reflexivity].
  unfold Utils.filterData, Utils.passes_all. cbn [map forallb].
  induction data as [|d data IH]; [reflexivity |].
  cbn [List.filter]. rewrite IH. reflexivity.
Qed.
End WithHost.

(** The theorem at a week of four days: the row with two empty cells out
    of three is dropped, the others are sorted by day. *)
Lemma processData_spec_witness :
  Permutation (processData (host := RefHost.host) week clean_and_sort)
              [monday; tuesday; friday]
  /\ StronglySorted (not_later (host := RefHost.host) "day")
                    (processData (host := RefHost.host) week clean_and_sort).
Proof.
  pose proof (@processData_spec RefHost.host week clean_and_sort (1 # 2) eq_refl)
    as T.
  cbv zeta in T. destruct T as (P & _ & S). split; [exact P |].
  apply (S "day"); [reflexivity | reflexivity |].
  repeat constructor; eexists; reflexivity.
Defined.

(** The theorem at the visits of the week. *)
Lemma getDataRange_spec_witness :
  let qs := StatsSpec.numbers (map (fun d => get d "visits") week) in
  exists lo hi,
    getDataRange shop "visits" None = {| min := Fin lo; max := Fin hi |}
    /\ In lo qs /\ In hi qs /\ forall q, In q qs -> lo <= q <= hi.
Proof.
  cbv zeta.
  apply (@getDataRange_spec shop "visits" None).
  - repeat constructor.
  - vm_compute. discriminate.
Defined.


Lemma clearFilters_raw_witness :
  getCurrentData (clearFilters shop) = week.
Proof.
  apply (@clearFilters_raw shop). discriminate.
Defined.
End DatasetFacts.

(* ------------------------------------------------------------------ *)
(** ** Utils and the loader: filters *)

Module FilterFacts.
Import DataLoader Utils Datasets DatasetSpec.
Local Open Scope string_scope.
Local Open Scope list_scope.

(** X5: a filter object with the finite bounds [min] and [max] lets a
    record through exactly when its value coerces to a finite number
    between the bounds: a missing value never passes, and [null] passes
    as 0. *)
Theorem range_filter (lo hi : Q) (v : Cell) :
  passes (FObject (VNum (Fin lo)) (VNum (Fin hi))) v = true
  <-> exists q, ToNumber v = Fin q /\ lo <= q <= hi.
Proof.
  cbn [passes]. unfold js_ge, js_le, LessThan.
  assert (E : forall (w : Cell) (A B : option bool),
             match w, VNum (Fin lo) with
             | VStr _, VStr _ => A
             | _, _ => B
             end = B) by (intros [] ? ?; reflexivity).
  rewrite (E v None). cbn [ToNumber isNaN_num orb]. rewrite orb_false_r.
  destruct (ToNumber v) as [|s|q]; cbn [isNaN_num nltb ngtb negb andb].
  - split; [discriminate | intros (q & H & _); discriminate].
  - split; [| intros (q & H & _); discriminate].
    destruct s; cbn; discriminate.
  - destruct (Qcompare_spec lo q) as [C1|C1|C1],
             (Qcompare_spec q hi) as [C2|C2|C2]; cbn;
      (split; [intros H; first [discriminate
                                | exists q; split; [reflexivity | lra]]
              | intros (q' & H & L); injection H as <-;
                first [reflexivity | lra]]).
Qed.

Lemma filter_of_set (fs : Filters) (k k' : string) (f : Filter) :
  filter_of (filter_set fs k f) k' = if String.eqb k k' then f else filter_of fs k'.
Proof.
  induction fs as [|[k0 f0] fs IH]; cbn [filter_set filter_of].
  - destruct (String.eqb k k'); reflexivity.
  - destruct (String.eqb_spec k0 k) as [-> | N]; cbn [filter_of].
    + destruct (String.eqb k k'); reflexivity.
    + destruct (String.eqb_spec k0 k') as [-> | N'].
      * destruct (String.eqb_spec k k'); [congruence | reflexivity].
      * exact IH.
Qed.

Lemma keys_set (fs : Filters) (k k' : string) (f : Filter) :
  In k' (map fst (filter_set fs k f)) <-> In k' (map fst fs) \/ k' = k.
Proof.
  induction fs as [|[k0 f0] fs IH]; cbn [filter_set map fst In].
  - intuition.
  - destruct (String.eqb_spec k0 k) as [-> | N]; cbn [map fst In].
    + intuition.
    + rewrite IH. intuition.
Qed.

Lemma keys_spread (fs gs : Filters) (k : string) :
  In k (map fst (spread fs gs)) <-> In k (map fst fs) \/ In k (map fst gs).
Proof.
  unfold spread. revert fs. induction gs as [|[k0 f0] gs IH]; intros fs.
  - cbn. intuition.
  - cbn [fold_left fst snd map In]. rewrite IH, keys_set. intuition.
Qed.

Lemma filter_of_spread (fs gs : Filters) (k : string) :
  NoDup (map fst gs) ->
  filter_of (spread fs gs) k
  = if includes (map fst gs) k then filter_of gs k else filter_of fs k.
Proof.
  unfold spread. revert fs. induction gs as [|[k0 f0] gs IH]; intros fs N.
  - reflexivity.
  - cbn [map fst] in N. inversion N as [|? ? N0 N']; subst.
    cbn [fold_left fst snd]. rewrite IH by exact N'.
    rewrite filter_of_set. cbn [map fst includes existsb filter_of].
    fold (includes (map fst gs) k).
    destruct (String.eqb_spec k0 k) as [-> | D].
    + rewrite String.eqb_refl. cbn [orb].
      destruct (includes (map fst gs) k) eqn:I; [| reflexivity].
      apply LoaderFacts.includes_In in I. contradiction.
    + destruct (String.eqb_spec k k0); [congruence |]. reflexivity.
Qed.

Lemma filter_of_untouched (fs gs : Filters) (k : string) :
  includes (map fst gs) k = false ->
  filter_of (untouched fs gs) k = filter_of fs k.
Proof.
  intros I. unfold untouched.
  induction fs as [|[k0 f0] fs IH]; [reflexivity |].
  cbn [List.filter fst filter_of].
  destruct (String.eqb_spec k0 k) as [-> | D].
  - rewrite I. cbn [negb filter_of]. rewrite String.eqb_refl. reflexivity.
  - destruct (negb (includes (map fst gs) k0)); [| exact IH].
    cbn [filter_of]. destruct (String.eqb_spec k0 k); [congruence | exact IH].
Qed.

Lemma keys_untouched (fs gs : Filters) (k : string) :
  In k (map fst (untouched fs gs))
  <-> In k (map fst fs) /\ includes (map fst gs) k = false.
Proof.
  unfold untouched. rewrite !in_map_iff. split.
  - intros [[k0 f0] [<- H]]. apply filter_In in H as [H1 H2].
    cbn [fst] in *. split; [exists (k0, f0); auto |].
    destruct (includes (map fst gs) k0); [discriminate | reflexivity].
  - intros [[[k0 f0] [<- H]] I]. exists (k0, f0). split; [reflexivity |].
    apply filter_In. split; [exact H |]. cbn [fst] in *. rewrite I. reflexivity.
Qed.

Lemma passes_all_iff (fs : Filters) (item : Record) :
  passes_all fs item = true
  <-> forall k, In k (map fst fs) -> passes (filter_of fs k) (get item k) = true.
Proof. unfold passes_all. apply forallb_forall. Qed.

(** The merged filters test the new filters, and the old ones on the
    keys the new ones leave alone. *)
Lemma passes_all_spread (fs gs : Filters) (item : Record) :
  NoDup (map fst gs) ->
  passes_all (spread fs gs) item
  = passes_all (untouched fs gs) item && passes_all gs item.
Proof.
  intros N. apply eq_true_iff_eq.
  rewrite andb_true_iff, !passes_all_iff. split.
  - intros H. split.
    + intros k Hk. apply keys_untouched in Hk as [Hk I].
      rewrite (@filter_of_untouched fs gs k I).
      specialize (H k). rewrite (@filter_of_spread fs gs k N), I in H.
      apply H. apply keys_spread. left. exact Hk.
    + intros k Hk. specialize (H k).
      rewrite (@filter_of_spread fs gs k N) in H.
      rewrite (proj2 (LoaderFacts.includes_In (map fst gs) k) Hk) in H.
      apply H. apply keys_spread. right. exact Hk.
  - intros [H1 H2] k Hk. rewrite (@filter_of_spread fs gs k N).
    destruct (includes (map fst gs) k) eqn:I.
    + apply H2. apply LoaderFacts.includes_In. exact I.
    + rewrite <- (@filter_of_untouched fs gs k I). apply H1.
      apply keys_untouched. split; [| exact I].
      apply keys_spread in Hk as [Hk | Hk]; [exact Hk |].
      apply LoaderFacts.includes_In in Hk. congruence.
Qed.

Lemma filter_filter (A : Type) (p q : A -> bool) (l : list A) :
  List.filter q (List.filter p l) = List.filter (fun a => p a && q a) l.
Proof.
  induction l as [|a l IH]; [reflexivity |]. cbn [List.filter].
  destruct (p a); cbn [List.filter andb]; [destruct (q a) |]; congruence.
Qed.

(** X6: [applyFilters] merges the new filters into the old ones by
    key: the current data are then the records that pass the new filters
    and the old filters on the keys the new ones do not mention; an old
    filter on a key that is given again is replaced, not added to. *)
Theorem applyFilters_merge (this : This) (newFilters : Filters) :
  NoDup (map fst newFilters) ->
  getCurrentData (applyFilters this newFilters)
  = filterData
      (getCurrentData (with_filters this (untouched (filters this) newFilters)))
      (Some newFilters).
Proof.
  intros N. unfold getCurrentData, applyFilters, with_filters.
  cbn [currentDataset datasets filters].
  destruct (currentDataset this) as [name|]; [| reflexivity].
  destruct (String.eqb name ""); [reflexivity |].
  destruct (Map_get (datasets this) name) as [data|]; [| reflexivity].
  unfold filterData. rewrite filter_filter. apply filter_ext.
  intros item. apply passes_all_spread. exact N.
Qed.

(** The theorem at the week shown by visits, filtered further by note. *)
Lemma applyFilters_merge_witness :
  getCurrentData (applyFilters shop [("note", FArray [VStr ""])])
  = filterData
      (getCurrentData
         (with_filters shop
            (untouched (filters shop) [("note", FArray [VStr ""])])))
      (Some [("note", FArray [VStr ""])]).
Proof.
  apply (@applyFilters_merge shop [("note", FArray [VStr ""])]).
  constructor; [intros [] | constructor].
Defined.
End FilterFacts.

(* ------------------------------------------------------------------ *)
(** ** The two validators of a field mapping, and the suggested mapping *)

Module MappingFacts.
Import DataLoader LoaderSpec Dashboard.
Local Open Scope string_scope.
Local Open Scope list_scope.

Lemma app_nil_iff (A : Type) (l l' : list A) :
  l ++ l' = [] <-> l = [] /\ l' = [].
Proof.
  split; [apply app_eq_nil | intros [-> ->]; reflexivity].
Qed.

Section WithHost.
Context {host : Host}.

Lemma field_errors_nil (chartType : string) (data : list Record)
      (field : option string) (fieldName : string) :
  field_errors chartType data field fieldName = []
  <-> exists f, field = Some f /\ f <> "" /\ includes (fields data) f = true.
Proof.
  unfold field_errors. destruct field as [f|].
  - destruct (String.eqb_spec f "") as [-> | N].
    + split; [discriminate | intros (f & E & N & _); congruence].
    + destruct (includes (fields data) f) eqn:I.
      * split; [intros _; exists f; auto | reflexivity].
      * split; [discriminate | intros (g & E & _ & I')]. congruence.
  - split; [discriminate | intros (f & E & _); discriminate].
Qed.

Lemma check_required_spec (chartType : string) (mapping : FieldMapping)
      (data : list Record) (required : list string) :
  check_required chartType mapping (fields data) required = Passed
  <-> Forall (fun r => exists f, field_of mapping r = Some f /\ f <> ""
                                 /\ includes (fields data) f = true)
             required.
Proof.
  induction required as [|r required IH]; cbn [check_required].
  - split; [constructor | reflexivity].
  - destruct (field_of mapping r) as [f|] eqn:E; cbv beta iota.
    + destruct (String.eqb_spec f "") as [-> | N].
      * split; [intros X; discriminate X |]. intros H. inversion H as [|? ? (g & G & N & _) _].
        congruence.
      * destruct (includes (fields data) f) eqn:I; cbn [negb].
        -- rewrite IH. split.
           ++ intros H. constructor; [exists f; auto | exact H].
           ++ intros H. inversion H; assumption.
        -- split; [intros X; discriminate X |]. intros H.
           inversion H as [|? ? (g & G & _ & I') _]. congruence.
    + split; [intros X; discriminate X |]. intros H.
      inversion H as [|? ? (g & G & _) _]. congruence.
Qed.

Lemma valid_iff_no_errors (chartType : string) (mapping : FieldMapping)
      (data : list Record) :
  data <> [] ->
  exists v,
    validateFieldMapping chartType mapping data = Ok v
    /\ (isValid v = true
        <-> Forall (fun r => field_errors chartType data
                                          (mapped mapping (role r)) (shown r) = [])
                   (required_roles chartType)).
Proof.
  intros Hne.
  destruct (LoaderFacts.getFieldSuggestions_spec Hne) as (sg & E & _).
  assert (S : exists sm, getSmartFieldMapping chartType data = Ok sm).
  { unfold getSmartFieldMapping. rewrite E. eexists. reflexivity. }
  destruct S as [sm Hsm].
  assert (V : forall errs : list string,
             (List.length errs =? 0)%nat = true <-> errs = [])
    by (intros [|e errs]; simpl; split; congruence).
  unfold validateFieldMapping, required_roles. rewrite E, Hsm.
  repeat match goal with
         | |- context [String.eqb chartType ?s] => destruct (String.eqb chartType s)
         end;
    rewrite ?(fun f k l st => @LoaderFacts.checkField_spec host data sg chartType f k l st E);
    cbn [bind fst snd List.app];
    rewrite ?(fun f k l st => @LoaderFacts.checkField_spec host data sg chartType f k l st E);
    cbn [bind fst snd List.app];
    rewrite ?(fun f k l st => @LoaderFacts.checkField_spec host data sg chartType f k l st E);
    cbn [bind fst snd List.app];
    (eexists; split; [reflexivity |]);
    cbn [isValid]; rewrite V;
    repeat rewrite Forall_cons_iff; rewrite Forall_nil_iff;
    cbn [mapped role shown String.eqb Ascii.eqb Bool.eqb];
    repeat rewrite app_nil_iff; tauto.
Qed.

(** X15: on a dataset that is not empty and for the five chart types,
    [validateFieldMappingForChart] of the dashboard accepts a mapping
    exactly when [validateFieldMapping] of the loader finds it valid. *)
Theorem validators_agree (chartType : string) (mapping : FieldMapping)
        (data : list Record) :
  In chartType ["bar"; "line"; "scatter"; "pie"; "heatmap"] ->
  data <> [] ->
  validateFieldMappingForChart chartType (Some mapping) data = Passed
  <-> exists v,
        validateFieldMapping chartType mapping data = Ok v /\ isValid v = true.
Proof.
  intros Hc Hne.
  destruct (valid_iff_no_errors chartType mapping Hne) as (v & Ev & Hv).
  assert (R : validateFieldMappingForChart chartType (Some mapping) data = Passed
              <-> isValid v = true).
  { rewrite Hv. destruct data as [|first rest]; [congruence |].
    cbn [validateFieldMappingForChart].
    change (keys first) with (fields (first :: rest)).
    rewrite check_required_spec.
    assert (F : forall f nm,
               (exists g, f = Some g /\ g <> ""
                          /\ includes (fields (first :: rest)) g = true)
               <-> field_errors chartType (first :: rest) f nm = []).
    { intros f nm. symmetry. apply field_errors_nil. }
    cbn in Hc.
    destruct Hc as [<- | [<- | [<- | [<- | [<- | []]]]]];
      cbn [requiredFields required_roles String.eqb Ascii.eqb Bool.eqb];
      repeat rewrite Forall_cons_iff; rewrite !Forall_nil_iff;
      cbn [role shown field_of mapped String.eqb Ascii.eqb Bool.eqb];
      rewrite <- ?F; tauto. }
  rewrite R. split.
  - intros H. exists v. auto.
  - intros (v' & Ev' & H). congruence.
Qed.

Lemma nth_filter_In (p : string -> bool) (l : list string) (j : nat) (f : string) :
  nth_error (List.filter p l) j = Some f -> In f l.
Proof.
  intros H. apply nth_error_In in H. apply filter_In in H. tauto.
Qed.

Lemma or_else_sub (a b : option string) (P : string -> Prop) :
  (forall f, a = Some f -> P f) -> (forall f, b = Some f -> P f) ->
  forall f, or_else a b = Some f -> P f.
Proof. unfold or_else. destruct (given a); auto. Qed.

Lemma or_else_pick (data : list Record) (a : option string) (i : nat) :
  (forall f, a = Some f -> In f (fields data)) ->
  ~ In "" (fields data) ->
  (i < List.length (fields data))%nat ->
  exists f, or_else a (nth_error (fields data) i) = Some f /\ f <> ""
            /\ includes (fields data) f = true.
Proof.
  intros Ha N L. unfold or_else.
  destruct a as [f|]; cbn [given].
  - destruct (String.eqb_spec f "") as [-> | D]; cbn [negb].
    + exfalso. apply N. apply Ha. reflexivity.
    + exists f. repeat split; auto. apply LoaderFacts.includes_In. auto.
  - destruct (nth_error (fields data) i) as [f|] eqn:E.
    + apply nth_error_In in E. exists f. repeat split.
      * intros ->. contradiction.
      * apply LoaderFacts.includes_In. exact E.
    + apply nth_error_None in E. lia.
Qed.

(** X16: when the first record has at least as many fields as the
    chart type has required roles, and no field has the empty name, the
    mapping that [getSmartFieldMapping] suggests passes
    [validateFieldMapping] without an error. *)
Theorem smart_mapping_valid (chartType : string) (data : list Record) :
  (List.length (required_roles chartType) <= List.length (fields data))%nat ->
  data <> [] ->
  ~ In "" (fields data) ->
  exists mapping v,
    getSmartFieldMapping chartType data = Ok mapping
    /\ validateFieldMapping chartType mapping data = Ok v
    /\ isValid v = true /\ errors v = [].
Proof.
  intros L Hne N.
  destruct (LoaderFacts.getFieldSuggestions_spec Hne) as (sg & E & Ha & Hn & Hd & Hc).
  assert (G : forall m,
             getSmartFieldMapping chartType data = Ok m ->
             Forall (fun r => field_errors chartType data
                                           (mapped m (role r)) (shown r) = [])
                    (required_roles chartType)).
  { intros m Hm. unfold getSmartFieldMapping in Hm. rewrite E in Hm.
    match type of Hm with
    | Ok ?t = Ok _ => assert (M : m = t) by congruence
    end.
    rewrite M, Ha, Hn, Hd, Hc. clear M Hm E Ha Hn Hd Hc.
    revert L. unfold required_roles.
    repeat match goal with
           | |- context [String.eqb chartType ?s] => destruct (String.eqb chartType s)
           end;
      cbn [List.length]; intros L;
      repeat (apply Forall_cons); try apply Forall_nil;
      cbn [mapped role shown x y value label String.eqb Ascii.eqb Bool.eqb];
      apply field_errors_nil; apply or_else_pick; try exact N; try lia;
      repeat (apply or_else_sub); intros f; apply nth_filter_In. }
  assert (S : exists m, getSmartFieldMapping chartType data = Ok m).
  { unfold getSmartFieldMapping. rewrite E. eexists. reflexivity. }
  destruct S as [m Hm]. exists m.
  destruct (valid_iff_no_errors chartType m Hne) as (v & Ev & Hv).
  exists v. split; [exact Hm |]. split; [exact Ev |].
  assert (I : isValid v = true) by (apply Hv, G, Hm).
  split; [exact I |].
  revert Ev I. unfold validateFieldMapping.
  destruct (if String.eqb chartType "bar" then _ else _) as [[errs warns]|];
    cbn [bind]; [| discriminate].
  rewrite Hm. cbn [bind]. intros Ev. injection Ev as <-. cbn [isValid errors].
  destruct errs; [reflexivity | discriminate].
Qed.
End WithHost.

(** The theorem at the pie chart of the sales: both validators refuse a
    value field that does not exist. *)
Lemma validators_agree_witness :
  let mapping := {| x := None; y := None; size := None; color := None;
                    label := Some "region"; value := Some "total" |} in
  validateFieldMappingForChart "pie" (Some mapping) sales = Passed
  <-> exists v,
        validateFieldMapping (host := RefHost.host) "pie" mapping sales = Ok v
        /\ isValid v = true.
Proof.
  cbv zeta. apply (validators_agree (host := RefHost.host)).
  - right. right. right. left. reflexivity.
  - discriminate.
Defined.

(** The theorem at the bar chart of the sales. *)
Lemma smart_mapping_valid_witness :
  exists mapping v,
    getSmartFieldMapping (host := RefHost.host) "bar" sales = Ok mapping
    /\ validateFieldMapping (host := RefHost.host) "bar" mapping sales = Ok v
    /\ isValid v = true /\ errors v = [].
Proof.
  apply (smart_mapping_valid (host := RefHost.host)).
  - vm_compute. lia.
  - discriminate.
  - vm_compute. intuition discriminate.
Defined.
End MappingFacts.

(* ------------------------------------------------------------------ *)
(** ** Data loader: the suggested fields *)

Module SuggestionFacts.
Import DataLoader LoaderSpec.
Local Open Scope string_scope.
Local Open Scope list_scope.

Section WithHost.
Context {host : Host}.

Lemma kinds_perm (data : list Record) (l : list string) :
  Permutation
    (List.filter (fun c => String.eqb (kind data c) "numeric") l
     ++ List.filter (fun c => String.eqb (kind data c) "date") l
     ++ List.filter (fun c => String.eqb (kind data c) "categorical") l)
    l.
Proof.
  induction l as [|c l IH]; [reflexivity |].
  cbn [List.filter].
  destruct (LoaderFacts.kind_cases data c) as [K | [K | K]]; rewrite K;
    cbn [String.eqb Ascii.eqb Bool.eqb andb List.app].
  - constructor. exact IH.
  - rewrite <- Permutation_middle. constructor. exact IH.
  - rewrite app_assoc, <- Permutation_middle, <- app_assoc.
    constructor. exact IH.
Qed.

(** X17: on a dataset that is not empty [getFieldSuggestions] lists
    every field of the first record under [all] and under exactly one of
    [numeric], [date] and [categorical], the one of its kind. *)
Theorem suggestions_partition (data : list Record) :
  data <> [] ->
  exists sg,
    getFieldSuggestions data = Some sg
    /\ all sg = fields data
    /\ Permutation (numeric sg ++ date sg ++ categorical sg) (fields data)
    /\ (forall f, In f (numeric sg) -> kind data f = "numeric")
    /\ (forall f, In f (date sg) -> kind data f = "date")
    /\ (forall f, In f (categorical sg) -> kind data f = "categorical").
Proof.
  intros Hne.
  destruct (LoaderFacts.getFieldSuggestions_spec Hne) as (sg & E & Ha & Hn & Hd & Hc).
  exists sg. split; [exact E |]. split; [exact Ha |].
  rewrite Hn, Hd, Hc. split; [apply kinds_perm |].
  repeat split; intros f H; apply filter_In in H as [_ H];
    apply String.eqb_eq in H; exact H.
Qed.
End WithHost.

(** The theorem at the sales. *)
Lemma suggestions_partition_witness :
  exists sg,
    getFieldSuggestions (host := RefHost.host) sales = Some sg
    /\ all sg = fields sales
    /\ Permutation (numeric sg ++ date sg ++ categorical sg) (fields sales)
    /\ (forall f, In f (numeric sg) -> kind (host := RefHost.host) sales f = "numeric")
    /\ (forall f, In f (date sg) -> kind (host := RefHost.host) sales f = "date")
    /\ (forall f, In f (categorical sg)
                  -> kind (host := RefHost.host) sales f = "categorical").
Proof.
  apply (suggestions_partition (host := RefHost.host)). discriminate.
Defined.
End SuggestionFacts.

(* ------------------------------------------------------------------ *)
(** ** Heat map: the grid of cells *)

Module GridFacts.
Import Heatmap HeatmapSpec MatrixSpec.
Local Open Scope list_scope.

Section WithHost.
Context {host : Host}.
Variable options : Options.

Lemma cell_position (m : Matrix) (xVal yVal : Cell) :
  x (cell m xVal yVal) = xVal /\ y (cell m xVal yVal) = yVal.
Proof. unfold cell. destruct (lookup m (key_of xVal yVal)); auto. Qed.

(** X23: on a dataset that is not empty the heat map has one cell for
    each pair of an x category and a y category, in rows of ascending y
    and ascending x within a row; the categories are the distinct x and
    y values of the usable records, in the order of their printed
    forms. *)
Theorem heatmap_grid (data : list Record) (this : State) :
  data <> [] ->
  let st := processData options data this in
  categories_of (map (fun d => get d (xField options)) (observed options data))
                (xCategories st)
  /\ categories_of (map (fun d => get d (yField options)) (observed options data))
                   (yCategories st)
  /\ map (fun e => (x e, y e)) (matrixData st)
     = flat_map (fun yVal => map (fun xVal => (xVal, yVal)) (xCategories st))
                (yCategories st)
  /\ List.length (matrixData st)
     = (List.length (xCategories st) * List.length (yCategories st))%nat.
Proof.
  intros Hne. cbv zeta.
  destruct (HeatmapFacts.processData_collect options data this) as (_ & M & C).
  destruct (C Hne) as [X Y].
  destruct (MatrixFacts.collect_spec options data) as (Ex & Ey & _).
  split; [rewrite X, Ex; apply MatrixFacts.categories_spec |].
  split; [rewrite Y, Ey; apply MatrixFacts.categories_spec |].
  split; [| apply HeatmapFacts.matrixData_length; exact Hne].
  rewrite M, X, Y.
  generalize (Array_sort default_compare (ySet (collect options data))).
  generalize (Array_sort default_compare (xSet (collect options data))).
  intros xs ys. induction ys as [|yv ys IH]; [reflexivity |].
  cbn [flat_map]. rewrite map_app, IH. f_equal.
  rewrite map_map. apply map_ext. intros xv.
  destruct (cell_position (matrix (collect options data)) xv yv) as [-> ->].
  reflexivity.
Qed.
End WithHost.

(** The matrix fill at three readings in two pairs. *)
Lemma heatmap_matrix_fill_witness :
  let data := [reading "a" "c" 1; reading "b" "d" 5; reading "a" "c" 3] in
  let st := processData (host := RefHost.host) xyv data blank in
  matrixData st
  = flat_map (fun yVal => map (fun xVal => pair_cell (host := RefHost.host)
                                             xyv data xVal yVal)
                              (xCategories st))
             (yCategories st).
Proof.
  cbv zeta.
  apply (@MatrixFacts.heatmap_matrix_fill RefHost.host xyv
           [reading "a" "c" 1; reading "b" "d" 5; reading "a" "c" 3] blank).
  - discriminate.
  - intros d1 d2 d3 H1 H2 H3. cbn in H1, H2, H3.
    repeat (destruct H1 as [<- | H1]; [| try contradiction]);
      repeat (destruct H2 as [<- | H2]; [| try contradiction]);
      repeat (destruct H3 as [<- | H3]; [| try contradiction]);
      cbn; split; intros H; try discriminate; try (destruct H; discriminate);
      auto.
Defined.

(** The grid at the same readings. *)
Lemma heatmap_grid_witness :
  let data := [reading "a" "c" 1; reading "b" "d" 5; reading "a" "c" 3] in
  let st := processData (host := RefHost.host) xyv data blank in
  map (fun e => (x e, y e)) (matrixData st)
  = flat_map (fun yVal => map (fun xVal => (xVal, yVal)) (xCategories st))
             (yCategories st).
Proof.
  cbv zeta.
  apply (@heatmap_grid RefHost.host xyv
           [reading "a" "c" 1; reading "b" "d" 5; reading "a" "c" 3] blank).
  discriminate.
Defined.
End GridFacts.

(* ------------------------------------------------------------------ *)
(** ** Pie chart: the selection *)

Module SelectionFacts.
Import PieChart SelectionSpec.
Local Open Scope list_scope.

Lemma Set_has_same (s : list Cell) (a b : Cell) :
  SameValueZero a b = true -> Set_has s a = Set_has s b.
Proof.
  intros E. unfold Set_has. induction s as [|k s IH]; [reflexivity |].
  cbn [existsb]. rewrite IH. f_equal.
  destruct (SameValueZero a k) eqn:A, (SameValueZero b k) eqn:B; try reflexivity.
  - rewrite SameValueZero_sym in E.
    rewrite (SameValueZero_trans _ _ _ E A) in B. discriminate.
  - rewrite (SameValueZero_trans _ _ _ E B) in A. discriminate.
Qed.

Lemma Set_has_delete (s : list Cell) (v k : Cell) :
  Set_has (Set_delete s v) k = Set_has s k && negb (SameValueZero k v).
Proof.
  unfold Set_has, Set_delete. induction s as [|a s IH]; [reflexivity |].
  cbn [List.filter existsb].
  destruct (SameValueZero a v) eqn:A; cbn [negb].
  - rewrite IH. destruct (SameValueZero k a) eqn:K; cbn [orb]; [| reflexivity].
    rewrite (SameValueZero_trans _ _ _ K A). cbn [negb]. rewrite andb_false_r.
    reflexivity.
  - cbn [existsb]. rewrite IH.
    destruct (SameValueZero k a) eqn:K; cbn [orb andb]; [| reflexivity].
    destruct (SameValueZero k v) eqn:V; [| reflexivity].
    rewrite SameValueZero_sym in K.
    rewrite (SameValueZero_trans _ _ _ K V) in A. discriminate.
Qed.

Lemma Set_has_added (s : list Cell) (v k : Cell) :
  Set_has (Set_add s v) k = Set_has s k || SameValueZero k v.
Proof.
  unfold Set_add. destruct (Set_has s v) eqn:H.
  - destruct (SameValueZero k v) eqn:K; [| rewrite orb_false_r; reflexivity].
    rewrite (@Set_has_same s k v K), H. reflexivity.
  - unfold Set_has. rewrite existsb_app. cbn [existsb].
    rewrite orb_false_r. reflexivity.
Qed.

Lemma distinct_delete (s : list Cell) (v : Cell) :
  distinct s -> distinct (Set_delete s v).
Proof.
  unfold distinct, Set_delete. induction 1 as [|a s Ha Hs IH]; cbn [List.filter].
  - constructor.
  - destruct (negb (SameValueZero a v)); [| exact IH].
    constructor; [| exact IH].
    rewrite Forall_forall in *. intros b Hb. apply filter_In in Hb as [Hb _].
    auto.
Qed.

Lemma distinct_add (s : list Cell) (v : Cell) :
  distinct s -> distinct (Set_add s v).
Proof.
  unfold distinct, Set_add. intros D.
  destruct (Set_has s v) eqn:H; [exact D |].
  induction D as [|a s Ha Hs IH]; cbn [List.app].
  - constructor; constructor.
  - unfold Set_has in H. cbn [existsb] in H. apply orb_false_iff in H as [H1 H2].
    constructor; [| apply IH; exact H2].
    apply Forall_app. split; [exact Ha |].
    constructor; [| constructor]. rewrite SameValueZero_sym. exact H1.
Qed.

(** X24: [toggleSlice] flips the membership of the category in the
    selection and of no other value; toggling twice gives a selection
    with the same members, and the same selection when the category was
    not selected; a selection without repeated members stays so. *)
Theorem toggleSlice_spec (selectedSlices : list Cell) (category : Cell) :
  (forall k,
      Set_has (toggleSlice selectedSlices category) k
      = if SameValueZero k category then negb (Set_has selectedSlices category)
        else Set_has selectedSlices k)
  /\ (forall k,
         Set_has (toggleSlice (toggleSlice selectedSlices category) category) k
         = Set_has selectedSlices k)
  /\ (distinct selectedSlices -> distinct (toggleSlice selectedSlices category))
  /\ (Set_has selectedSlices category = false ->
      toggleSlice (toggleSlice selectedSlices category) category = selectedSlices).
Proof.
  assert (T : forall s k,
             Set_has (toggleSlice s category) k
             = if SameValueZero k category then negb (Set_has s category)
               else Set_has s k).
  { intros s k. unfold toggleSlice. destruct (Set_has s category) eqn:H.
    - rewrite Set_has_delete.
      destruct (SameValueZero k category) eqn:K; cbn [negb].
      + apply andb_false_r.
      + apply andb_true_r.
    - rewrite Set_has_added.
      destruct (SameValueZero k category) eqn:K; cbn [negb].
      + apply orb_true_r.
      + apply orb_false_r. }
  split; [apply T |]. split; [| split].
  - intros k. rewrite T, (T selectedSlices category), (T selectedSlices k).
    rewrite SameValueZero_refl. cbn iota.
    destruct (SameValueZero k category) eqn:K; [| reflexivity].
    rewrite negb_involutive. symmetry. apply Set_has_same. exact K.
  - intros D. unfold toggleSlice. destruct (Set_has selectedSlices category).
    + apply distinct_delete. exact D.
    + apply distinct_add. exact D.
  - intros H. unfold toggleSlice at 1.
    rewrite T, SameValueZero_refl, H. cbn [negb].
    unfold toggleSlice, Set_add. rewrite H. unfold Set_delete.
    rewrite filter_app. cbn [List.filter]. rewrite SameValueZero_refl.
    cbn [negb]. rewrite app_nil_r.
    unfold Set_has in H. clear T.
    induction selectedSlices as [|a s IH]; [reflexivity |].
    cbn [existsb] in H. apply orb_false_iff in H as [H1 H2].
    cbn [List.filter]. rewrite SameValueZero_sym, H1. cbn [negb].
    rewrite IH by exact H2. reflexivity.
Qed.
End SelectionFacts.

(* ------------------------------------------------------------------ *)
(** ** Bar chart: the bars *)

Module BarFacts.
Import BarChart BarSpec.
Local Open Scope string_scope.
Local Open Scope list_scope.




Section Bars.
Variable options : Options.
Hypothesis names : plain_fields options.


Variable data : list Record.
Hypothesis finite : finite_values options data.



End Bars.

End BarFacts.

(* ------------------------------------------------------------------ *)
(** ** Scatter plot: the fit of collinear and of vertical data *)

Module FitFacts.
Import ScatterPlot RegressionSpec FitSpec.
Local Open Scope list_scope.



(** *** Sums over pairs *)














End FitFacts.

(* ------------------------------------------------------------------ *)
(** ** Data loader: a dataset that has been loaded *)

Module LoadFacts.
Import DataLoader Datasets.
Local Open Scope string_scope.
Local Open Scope list_scope.

Lemma Map_get_set (m : list (string * list Record)) (k k' : string)
      (data : list Record) :
  Map_get (Map_set m k data) k'
  = if String.eqb k k' then Some data else Map_get m k'.
Proof.
  induction m as [|[k0 d0] m IH]; cbn [Map_set Map_get].
  - destruct (String.eqb k k'); reflexivity.
  - destruct (String.eqb_spec k0 k) as [-> | N]; cbn [Map_get].
    + destruct (String.eqb k k'); reflexivity.
    + destruct (String.eqb_spec k0 k') as [-> | N'].
      * destruct (String.eqb_spec k k'); [congruence | reflexivity].
      * exact IH.
Qed.

(** X25: when a loader has stored its processed data under a name, this
    dataset is the current one: [getRawData] returns it, with and
    without the name; the filters set before stay in force, so
    [getCurrentData] returns the new data filtered by them; and the
    datasets stored under other names are as before. *)
Theorem loaded_dataset (this : This) (datasetName : string)
        (processedData : list Record) :
  let this' := loaded this datasetName processedData in
  getRawData this' (Some datasetName) = processedData
  /\ getRawData this' None = processedData
  /\ (datasetName <> "" ->
      getCurrentData this'
      = Utils.filterData processedData (Some (filters this)))
  /\ (forall other,
         other <> "" -> other <> datasetName ->
         getRawData this' (Some other) = getRawData this (Some other)).
Proof.
  cbv zeta. unfold getRawData, getCurrentData, loaded, or_else.
  cbn [datasets currentDataset filters given].
  split; [| split; [| split]].
  - destruct (String.eqb datasetName ""); cbn [negb];
      rewrite Map_get_set, String.eqb_refl; reflexivity.
  - rewrite Map_get_set, String.eqb_refl. reflexivity.
  - intros N. apply String.eqb_neq in N. rewrite N.
    rewrite Map_get_set, String.eqb_refl. reflexivity.
  - intros other N1 N2. apply String.eqb_neq in N1. rewrite N1. cbn [negb].
    rewrite Map_get_set.
    destruct (String.eqb_spec datasetName other); [congruence | reflexivity].
Qed.
End LoadFacts.

(* ------------------------------------------------------------------ *)
(** ** Heat map: the domain of the colour scale *)

Module ColourFacts.
Import Heatmap ColourSpec.
Local Open Scope list_scope.




End ColourFacts.

(* ------------------------------------------------------------------ *)
(** ** Pie chart: the slices when nothing is folded *)

Module SliceFacts.
Import PieChart PieSpec SliceSpec.
Local Open Scope string_scope.
Local Open Scope list_scope.

Lemma grouped_slices (options : Options) (data : list Record) :
  map (fun d => with_percentage d (percent (total options data) (value d)))
      (grouped_rows options data)
  = map (slice options data)
        (group_keys (fun d => get d (categoryField options)) data).
Proof.
  unfold grouped_rows. rewrite d3_group_spec, !map_map. reflexivity.
Qed.

(** X27: with at most 15 distinct categories nothing is folded: the
    pie chart has one slice for each distinct category, carrying the
    category, the sum of the value entries of its records (an entry that
    is null, undefined, 0, [NaN], false or empty counting as 0), their
    number, the records themselves and the share of the sum in the
    total as a percentage; when no sum is [NaN] the slices are in
    descending order of value. *)
Theorem pie_without_folding (options : Options) (data : list Record) :
  let keys := group_keys (fun d => get d (categoryField options)) data in
  (List.length keys <= 15)%nat ->
  Permutation (processData options data) (map (slice options data) keys)
  /\ List.length (processData options data) = List.length keys
  /\ ((forall k, In k keys -> value (slice options data k) <> NaN) ->
      StronglySorted (fun a b => ngtb (value b) (value a) = false)
                     (processData options data)).
Proof.
  cbv zeta. intros L.
  assert (G : List.length (grouped_rows options data)
              = List.length (group_keys (fun d => get d (categoryField options)) data)).
  { unfold grouped_rows. rewrite d3_group_spec, !length_map. reflexivity. }
  assert (E : processData options data = sorted_rows options data).
  { rewrite PieFacts.processData_eq. cbv zeta.
    rewrite (PieFacts.sorted_length options data), G.
    destruct (Nat.ltb_spec 15 (List.length
                (group_keys (fun d => get d (categoryField options)) data)));
      [lia | reflexivity]. }
  rewrite E.
  assert (P : Permutation (sorted_rows options data)
                          (map (slice options data)
                               (group_keys (fun d => get d (categoryField options)) data))).
  { rewrite <- grouped_slices. apply PieFacts.sorted_rows_perm. }
  split; [exact P |]. split.
  - rewrite (Permutation_length P), length_map. reflexivity.
  - intros H. apply PieFacts.sorted_descending.
    intros g Hg. unfold grouped_rows in Hg. rewrite d3_group_spec in Hg.
    rewrite map_map in Hg. apply in_map_iff in Hg as [k [<- Hk]].
    cbn [value]. apply (H k Hk).
Qed.

(** The theorem at three sales in two categories. *)
Lemma pie_without_folding_witness :
  let data := [sale "A" (of_Z 10); sale "B" (of_Z 30); sale "A" (of_Z 5)] in
  Permutation (processData by_cat data)
              (map (slice by_cat data) [VStr "A"; VStr "B"])
  /\ List.length (processData by_cat data) = 2%nat
  /\ StronglySorted (fun a b => ngtb (value b) (value a) = false)
                    (processData by_cat data).
Proof.
  cbv zeta.
  pose proof (@pie_without_folding by_cat
                [sale "A" (of_Z 10); sale "B" (of_Z 30); sale "A" (of_Z 5)]) as T.
  cbv zeta in T. destruct T as (P & Ln & S); [vm_compute; lia |].
  split; [exact P |]. split; [exact Ln |].
  apply S. intros k [<- | [<- | []]]; discriminate.
Defined.
End SliceFacts.
